(** * Access-grant lifecycle and verified-download sessions

    A shallow embedding of the access-grant entity
    ([entities/access-grant.entity.ts]) and of the three services that
    mutate it ([ExternalRequestorService], [DocumentService] and
    [VerificationDownloadService]), followed by the properties of the
    grant state machine, the OTP attempt limit and the download session.

    Modelling conventions.
    - A JavaScript [Date] is its time value, an integer number of
      milliseconds ([Date.getTime()]); [new Date()] and [Date.now()] read
      the clock of the runtime, which is passed to every operation and
      shows one value throughout a request.
    - A nullable column is an [option]; JavaScript truthiness of a
      nullable string ([if (dto.message)], [!this.otp]) is [truthy].
    - A finite [Number] is the rational it denotes; an arithmetic
      operation on Numbers rounds its exact result to IEEE-754 binary64,
      to nearest with ties to even ([Number.round]).
    - A repository is a table, a list of rows in storage order.
      [findOne] returns the first row matching the [where] clause,
      [save] of a loaded entity rewrites the row with its primary key.
    - A service method is a computation over the tables that either
      returns a value or throws an HTTP exception; writes made before the
      exception is thrown stay in the tables.
    - The [updatedAt] column is maintained by the ORM on every write and
      the [Logger] output of the mock notifications is not observable by
      any operation; neither is part of the model. *)

From Stdlib Require Import PrimFloat FloatOps.
From Stdlib Require Import ZArith QArith Qround Qabs Qpower Lqa.
From Stdlib Require Import List Sorted Ascii String Bool Lia DecimalString.
Import ListNotations.

Local Open Scope string_scope.
Local Open Scope list_scope.
Local Open Scope Z_scope.

(** ** JavaScript values *)

Definition Date := Z.

(** [String(n)] of an integer-valued number. *)
Definition toString (n : Z) : string := NilZero.string_of_int (Z.to_int n).

(** Number arithmetic: IEEE-754 binary64, round to nearest, ties to even,
    on the finite values below the overflow threshold. *)
Module Number.

Definition pow2 (e : Z) : Q := Qpower (2 # 1) e.

(** [floor (log2 x)] of a positive rational. *)
Definition exponent (x : Q) : Z :=
  let n := Qnum x in
  let d := Zpos (Qden x) in
  let a := Z.log2 n in
  let b := Z.log2 d in
  if d * 2 ^ a <=? n * 2 ^ b then a - b else a - b - 1.

(** The distance between neighbouring doubles around [x]: 53 bits of
    precision from the leading bit of [x], and not finer than the
    subnormal step [2^-1074]. *)
Definition quantum (x : Q) : Q := pow2 (Z.max (exponent (Qabs x) - 52) (-1074)).

(** The nearest integer, the even one of two equally near. *)
Definition roundTiesToEven (q : Q) : Z :=
  let f := Qfloor q in
  match (q - inject_Z f ?= 1 # 2)%Q with
  | Lt => f
  | Gt => f + 1
  | Eq => if Z.even f then f else f + 1
  end.

(** The double nearest to [x]. *)
Definition round (x : Q) : Q :=
  if Qeq_bool x 0 then 0%Q
  else (inject_Z (roundTiesToEven (x / quantum x)) * quantum x)%Q.

(** The finite values of binary64: a significand below [2^53] scaled by a
    power of two from [2^-1074] to [2^971]. *)
Definition IsDouble (x : Q) : Prop :=
  exists m e : Z, Z.abs m < 2 ^ 53 /\ -1074 <= e <= 971 /\ (x == inject_Z m * pow2 e)%Q.

(** The value of a finite primitive float, a double of the kernel. *)
Definition valueOf (f : float) : Q :=
  match Prim2SF f with
  | SpecFloat.S754_finite s m e =>
    ((if s then inject_Z (-1) else inject_Z 1) * inject_Z (Zpos m) * pow2 e)%Q
  | _ => 0%Q
  end.

End Number.

(** Truthiness of a [string | null | undefined] value. *)
Definition truthy (s : option string) : bool :=
  match s with
  | Some s => negb (String.eqb s "")
  | None => false
  end.

(** [a || b] on strings. *)
Definition orElse (a : option string) (b : option string) : option string :=
  if truthy a then a else b.

(** [s.split('T')[0]] *)
Fixpoint beforeT (s : string) : string :=
  match s with
  | EmptyString => EmptyString
  | String c s' => if Ascii.eqb c "T"%char then EmptyString else String c (beforeT s')
  end.

Definition eqOpt (a : option string) (b : string) : bool :=
  match a with
  | Some a => String.eqb a b
  | None => false
  end.

(** ** Entities *)

Inductive AccessStatus := PENDING | APPROVED | DENIED | REVOKED.

Definition AccessStatus_eqb (a b : AccessStatus) : bool :=
  match a, b with
  | PENDING, PENDING | APPROVED, APPROVED | DENIED, DENIED | REVOKED, REVOKED => true
  | _, _ => false
  end.

(** The string value of the enum member, as interpolated in messages. *)
Definition AccessStatus_value (s : AccessStatus) : string :=
  match s with
  | PENDING => "pending"
  | APPROVED => "approved"
  | DENIED => "denied"
  | REVOKED => "revoked"
  end.

Inductive VisibilityStatus := PUBLIC | HIDDEN.

Definition VisibilityStatus_eqb (a b : VisibilityStatus) : bool :=
  match a, b with
  | PUBLIC, PUBLIC | HIDDEN, HIDDEN => true
  | _, _ => false
  end.

Module DocumentFile.

Record t : Type := mk {
  id : string;
  filename : string;
  storagePath : string;
  visibilityStatus : VisibilityStatus;
  ownerId : string;
  deletedAt : option Date
}.

Definition set_visibilityStatus (v : VisibilityStatus) (d : t) : t :=
  mk (id d) (filename d) (storagePath d) v (ownerId d) (deletedAt d).

Definition set_deletedAt (v : option Date) (d : t) : t :=
  mk (id d) (filename d) (storagePath d) (visibilityStatus d) (ownerId d) v.

(** [this.deletedAt === null] *)
Definition isActive (d : t) : bool :=
  match deletedAt d with
  | None => true
  | Some _ => false
  end.

End DocumentFile.

Module AccessGrant.

Record t : Type := mk {
  id : string;
  documentId : string;
  requestorEmail : string;
  requestorName : option string;
  requestorOrganization : option string;
  requestPurpose : string;
  accessToken : option string;
  status : AccessStatus;
  expiryDate : option Date;
  denialReason : option string;
  approvalMessage : option string;
  revocationMessage : option string;
  actionCompletedAt : option Date;
  otp : option string;
  otpExpiryDate : option Date;
  otpAttempts : Z;
  isVerified : bool;
  verifiedAt : option Date;
  downloadSessionToken : option string;
  lastActivityAt : option Date;
  requestedAt : Date
}.

(** Field assignments [grant.f = v]. *)

Definition set_status (v : AccessStatus) (g : t) : t :=
  mk (id g) (documentId g) (requestorEmail g) (requestorName g) (requestorOrganization
     g) (requestPurpose g) (accessToken g) v (expiryDate g) (denialReason g)
     (approvalMessage g) (revocationMessage g) (actionCompletedAt g) (otp g)
     (otpExpiryDate g) (otpAttempts g) (isVerified g) (verifiedAt g)
     (downloadSessionToken g) (lastActivityAt g) (requestedAt g).

Definition set_expiryDate (v : option Date) (g : t) : t :=
  mk (id g) (documentId g) (requestorEmail g) (requestorName g) (requestorOrganization
     g) (requestPurpose g) (accessToken g) (status g) v (denialReason g)
     (approvalMessage g) (revocationMessage g) (actionCompletedAt g) (otp g)
     (otpExpiryDate g) (otpAttempts g) (isVerified g) (verifiedAt g)
     (downloadSessionToken g) (lastActivityAt g) (requestedAt g).

Definition set_denialReason (v : option string) (g : t) : t :=
  mk (id g) (documentId g) (requestorEmail g) (requestorName g) (requestorOrganization
     g) (requestPurpose g) (accessToken g) (status g) (expiryDate g) v (approvalMessage
     g) (revocationMessage g) (actionCompletedAt g) (otp g) (otpExpiryDate g)
     (otpAttempts g) (isVerified g) (verifiedAt g) (downloadSessionToken g)
     (lastActivityAt g) (requestedAt g).

Definition set_approvalMessage (v : option string) (g : t) : t :=
  mk (id g) (documentId g) (requestorEmail g) (requestorName g) (requestorOrganization
     g) (requestPurpose g) (accessToken g) (status g) (expiryDate g) (denialReason g) v
     (revocationMessage g) (actionCompletedAt g) (otp g) (otpExpiryDate g) (otpAttempts
     g) (isVerified g) (verifiedAt g) (downloadSessionToken g) (lastActivityAt g)
     (requestedAt g).

Definition set_revocationMessage (v : option string) (g : t) : t :=
  mk (id g) (documentId g) (requestorEmail g) (requestorName g) (requestorOrganization
     g) (requestPurpose g) (accessToken g) (status g) (expiryDate g) (denialReason g)
     (approvalMessage g) v (actionCompletedAt g) (otp g) (otpExpiryDate g) (otpAttempts
     g) (isVerified g) (verifiedAt g) (downloadSessionToken g) (lastActivityAt g)
     (requestedAt g).

Definition set_actionCompletedAt (v : option Date) (g : t) : t :=
  mk (id g) (documentId g) (requestorEmail g) (requestorName g) (requestorOrganization
     g) (requestPurpose g) (accessToken g) (status g) (expiryDate g) (denialReason g)
     (approvalMessage g) (revocationMessage g) v (otp g) (otpExpiryDate g) (otpAttempts
     g) (isVerified g) (verifiedAt g) (downloadSessionToken g) (lastActivityAt g)
     (requestedAt g).

Definition set_otp (v : option string) (g : t) : t :=
  mk (id g) (documentId g) (requestorEmail g) (requestorName g) (requestorOrganization
     g) (requestPurpose g) (accessToken g) (status g) (expiryDate g) (denialReason g)
     (approvalMessage g) (revocationMessage g) (actionCompletedAt g) v (otpExpiryDate g)
     (otpAttempts g) (isVerified g) (verifiedAt g) (downloadSessionToken g)
     (lastActivityAt g) (requestedAt g).

Definition set_otpExpiryDate (v : option Date) (g : t) : t :=
  mk (id g) (documentId g) (requestorEmail g) (requestorName g) (requestorOrganization
     g) (requestPurpose g) (accessToken g) (status g) (expiryDate g) (denialReason g)
     (approvalMessage g) (revocationMessage g) (actionCompletedAt g) (otp g) v
     (otpAttempts g) (isVerified g) (verifiedAt g) (downloadSessionToken g)
     (lastActivityAt g) (requestedAt g).

Definition set_otpAttempts (v : Z) (g : t) : t :=
  mk (id g) (documentId g) (requestorEmail g) (requestorName g) (requestorOrganization
     g) (requestPurpose g) (accessToken g) (status g) (expiryDate g) (denialReason g)
     (approvalMessage g) (revocationMessage g) (actionCompletedAt g) (otp g)
     (otpExpiryDate g) v (isVerified g) (verifiedAt g) (downloadSessionToken g)
     (lastActivityAt g) (requestedAt g).

Definition set_isVerified (v : bool) (g : t) : t :=
  mk (id g) (documentId g) (requestorEmail g) (requestorName g) (requestorOrganization
     g) (requestPurpose g) (accessToken g) (status g) (expiryDate g) (denialReason g)
     (approvalMessage g) (revocationMessage g) (actionCompletedAt g) (otp g)
     (otpExpiryDate g) (otpAttempts g) v (verifiedAt g) (downloadSessionToken g)
     (lastActivityAt g) (requestedAt g).

Definition set_verifiedAt (v : option Date) (g : t) : t :=
  mk (id g) (documentId g) (requestorEmail g) (requestorName g) (requestorOrganization
     g) (requestPurpose g) (accessToken g) (status g) (expiryDate g) (denialReason g)
     (approvalMessage g) (revocationMessage g) (actionCompletedAt g) (otp g)
     (otpExpiryDate g) (otpAttempts g) (isVerified g) v (downloadSessionToken g)
     (lastActivityAt g) (requestedAt g).

Definition set_downloadSessionToken (v : option string) (g : t) : t :=
  mk (id g) (documentId g) (requestorEmail g) (requestorName g) (requestorOrganization
     g) (requestPurpose g) (accessToken g) (status g) (expiryDate g) (denialReason g)
     (approvalMessage g) (revocationMessage g) (actionCompletedAt g) (otp g)
     (otpExpiryDate g) (otpAttempts g) (isVerified g) (verifiedAt g) v (lastActivityAt
     g) (requestedAt g).

Definition set_lastActivityAt (v : option Date) (g : t) : t :=
  mk (id g) (documentId g) (requestorEmail g) (requestorName g) (requestorOrganization
     g) (requestPurpose g) (accessToken g) (status g) (expiryDate g) (denialReason g)
     (approvalMessage g) (revocationMessage g) (actionCompletedAt g) (otp g)
     (otpExpiryDate g) (otpAttempts g) (isVerified g) (verifiedAt g)
     (downloadSessionToken g) v (requestedAt g).

(** *** Predicates of the entity, at the clock value [now] *)

Definition isActive (now : Date) (g : t) : bool :=
  if negb (AccessStatus_eqb (status g) APPROVED) then false
  else match expiryDate g with
       | Some e => if e <? now then false else true
       | None => true
       end.

Definition isExpired (now : Date) (g : t) : bool :=
  if negb (AccessStatus_eqb (status g) APPROVED) then false
  else match expiryDate g with
       | Some e => if e <? now then true else false
       | None => false
       end.

Definition isOtpExpired (now : Date) (g : t) : bool :=
  match otpExpiryDate g with
  | None => true
  | Some e => e <? now
  end.

Definition canRequestOtp (now : Date) (g : t) : bool :=
  if negb (AccessStatus_eqb (status g) APPROVED) then false
  else if isExpired now g then false
  else true.

Definition canVerifyOtp (now : Date) (g : t) : bool :=
  if negb (truthy (otp g)) then false
  else if isOtpExpired now g then false
  else if otpAttempts g >=? 3 then false
  else true.

(** [(Date.now() - lastActivityAt.getTime()) / (1000 * 60)], as a rational. *)
Definition inactiveMinutes (now last : Date) : Q :=
  (inject_Z (now - last) / inject_Z (1000 * 60))%Q.

Definition Qltb (a b : Q) : bool := negb (Qle_bool b a).

Definition isSessionActive (now : Date) (g : t) : bool :=
  if negb (isVerified g) then false
  else if isExpired now g then false
  else match lastActivityAt g with
       | Some last => Qltb (inactiveMinutes now last) (inject_Z 60)
       | None => true
       end.

End AccessGrant.

Inductive DownloadAction :=
| DOWNLOAD_INITIATED | DOWNLOAD_COMPLETED | DOWNLOAD_FAILED
| SESSION_CREATED | SESSION_EXPIRED
| OTP_REQUESTED | OTP_VERIFIED | OTP_FAILED
| VERIFICATION_FAILED.

Module DownloadAuditLog.

Record t : Type := mk {
  accessGrantId : string;
  documentId : string;
  requestorEmail : string;
  action : DownloadAction;
  details : option string;
  ipAddress : option string;
  userAgent : option string;
  bytesDownloaded : option Z;
  createdAt : Date
}.

End DownloadAuditLog.

(** ** Tables, runtime and service computations *)

Record Tables : Type := mkTables {
  documents : list DocumentFile.t;
  accessGrants : list AccessGrant.t;
  auditLogs : list DownloadAuditLog.t
}.

Definition withAccessGrants (rows : list AccessGrant.t) (db : Tables) : Tables :=
  mkTables (documents db) rows (auditLogs db).

Definition withAuditLogs (rows : list DownloadAuditLog.t) (db : Tables) : Tables :=
  mkTables (documents db) (accessGrants db) rows.

Definition withDocuments (rows : list DocumentFile.t) (db : Tables) : Tables :=
  mkTables rows (accessGrants db) (auditLogs db).

(** What one request takes from outside the tables: the clock, the result
    of [uuidv4()], the draw of [Math.random()], the primary key the
    database generates for an inserted grant, [process.env.FRONTEND_URL],
    the engine's [Date.prototype.toISOString], and whether the write of an
    audit row fails. *)
Record Runtime : Type := mkRuntime {
  now : Date;
  uuidv4 : string;
  random : Q;
  generatedId : string;
  FRONTEND_URL : option string;
  toISOString : Date -> string;
  auditWriteFails : bool
}.

Inductive HttpException :=
| NotFoundException (message : string)
| BadRequestException (message : string)
| ConflictException (message : string)
| ForbiddenException (message : string)
| InternalServerError (message : string).

Inductive Result (A : Type) :=
| Ok (value : A)
| Throw (e : HttpException).

Arguments Ok {A} value.
Arguments Throw {A} e.

Definition Service (A : Type) : Type := Tables -> Result A * Tables.

Definition ret {A} (a : A) : Service A := fun db => (Ok a, db).

Definition throw {A} (e : HttpException) : Service A := fun db => (Throw e, db).

Definition bind {A B} (m : Service A) (k : A -> Service B) : Service B :=
  fun db =>
    match m db with
    | (Ok a, db') => k a db'
    | (Throw e, db') => (Throw e, db')
    end.

Definition tryCatch {A} (m : Service A) (handler : HttpException -> Service A) : Service A :=
  fun db =>
    match m db with
    | (Ok a, db') => (Ok a, db')
    | (Throw e, db') => handler e db'
    end.

Declare Scope service_scope.
Delimit Scope service_scope with service.
Notation "x <- m ;; k" := (bind m (fun x => k))
  (at level 61, m at next level, right associativity) : service_scope.
Notation "m ;;; k" := (bind m (fun _ => k))
  (at level 61, right associativity) : service_scope.
Local Open Scope service_scope.

(** *** Repositories *)

Module documentRepository.

Definition findOne (where_ : DocumentFile.t -> bool) : Service (option DocumentFile.t) :=
  fun db => (Ok (find where_ (documents db)), db).

(** [UPDATE ... WHERE id = d.id] with the columns of the loaded entity. *)
Definition update_rows (d : DocumentFile.t) (rows : list DocumentFile.t) : list DocumentFile.t :=
  map (fun r => if String.eqb (DocumentFile.id r) (DocumentFile.id d) then d else r) rows.

Definition save (d : DocumentFile.t) : Service DocumentFile.t :=
  fun db => (Ok d, withDocuments (update_rows d (documents db)) db).

End documentRepository.

Module accessGrantRepository.

Definition findOne (where_ : AccessGrant.t -> bool) : Service (option AccessGrant.t) :=
  fun db => (Ok (find where_ (accessGrants db)), db).

Definition find (where_ : AccessGrant.t -> bool) : Service (list AccessGrant.t) :=
  fun db => (Ok (filter where_ (accessGrants db)), db).

(** [UPDATE ... WHERE id = g.id] with the columns of the loaded entity. *)
Definition update_rows (g : AccessGrant.t) (rows : list AccessGrant.t) : list AccessGrant.t :=
  map (fun r => if String.eqb (AccessGrant.id r) (AccessGrant.id g) then g else r) rows.

Definition save (g : AccessGrant.t) : Service AccessGrant.t :=
  fun db => (Ok g, withAccessGrants (update_rows g (accessGrants db)) db).

(** [save] of an entity made by [create]: an [INSERT] under the primary
    key the database generated; a key already in the table violates the
    primary-key constraint and the query fails. *)
Definition insert (g : AccessGrant.t) : Service AccessGrant.t :=
  fun db =>
    if existsb (fun r => String.eqb (AccessGrant.id r) (AccessGrant.id g)) (accessGrants db)
    then (Throw (InternalServerError "QueryFailedError: duplicate primary key"), db)
    else (Ok g, withAccessGrants (accessGrants db ++ [g]) db).

End accessGrantRepository.

Module auditLogRepository.

Definition save (rt : Runtime) (l : DownloadAuditLog.t) : Service unit :=
  fun db =>
    if auditWriteFails rt
    then (Throw (InternalServerError "QueryFailedError"), db)
    else (Ok tt, withAuditLogs (auditLogs db ++ [l]) db).

End auditLogRepository.

(** ** ExternalRequestorService *)

Module SubmitAccessRequestDto.

Record t : Type := mk {
  requestorEmail : string;
  requestorName : option string;
  requestorOrganization : option string;
  requestPurpose : string
}.

End SubmitAccessRequestDto.

Module AccessRequestSubmissionResponseDto.

Record t : Type := mk {
  id : string;
  documentId : string;
  filename : string;
  requestorEmail : string;
  requestUUID : string;
  status : AccessStatus;
  message : string;
  retrievalPageUrl : string
}.

End AccessRequestSubmissionResponseDto.

Module ExternalRequestorService.

(** The query of the public catalogue: the document with this id that is
    PUBLIC and not soft-deleted. *)
Definition isPublicDocument (documentId : string) (d : DocumentFile.t) : bool :=
  String.eqb (DocumentFile.id d) documentId
  && VisibilityStatus_eqb (DocumentFile.visibilityStatus d) PUBLIC
  && match DocumentFile.deletedAt d with None => true | Some _ => false end.

Definition isPendingRequest (documentId requestorEmail : string) (g : AccessGrant.t) : bool :=
  String.eqb (AccessGrant.documentId g) documentId
  && String.eqb (AccessGrant.requestorEmail g) requestorEmail
  && AccessStatus_eqb (AccessGrant.status g) PENDING.

(** [accessGrantRepository.create({...})]: the columns that are not given
    take their defaults. *)
Definition create (rt : Runtime) (documentId : string) (submitDto : SubmitAccessRequestDto.t)
    (requestUUID : string) : AccessGrant.t :=
  {| AccessGrant.id := generatedId rt;
     AccessGrant.documentId := documentId;
     AccessGrant.requestorEmail := SubmitAccessRequestDto.requestorEmail submitDto;
     AccessGrant.requestorName :=
       orElse (SubmitAccessRequestDto.requestorName submitDto)
              (Some (SubmitAccessRequestDto.requestorEmail submitDto));
     AccessGrant.requestorOrganization := SubmitAccessRequestDto.requestorOrganization submitDto;
     AccessGrant.requestPurpose := SubmitAccessRequestDto.requestPurpose submitDto;
     AccessGrant.accessToken := Some requestUUID;
     AccessGrant.status := PENDING;
     AccessGrant.expiryDate := None;
     AccessGrant.denialReason := None;
     AccessGrant.approvalMessage := None;
     AccessGrant.revocationMessage := None;
     AccessGrant.actionCompletedAt := None;
     AccessGrant.otp := None;
     AccessGrant.otpExpiryDate := None;
     AccessGrant.otpAttempts := 0;
     AccessGrant.isVerified := false;
     AccessGrant.verifiedAt := None;
     AccessGrant.downloadSessionToken := None;
     AccessGrant.lastActivityAt := None;
     AccessGrant.requestedAt := now rt |}.

Definition frontendUrl (rt : Runtime) : string :=
  match orElse (FRONTEND_URL rt) (Some "http://localhost:3000") with
  | Some u => u
  | None => ""
  end.

Definition submitAccessRequest (rt : Runtime) (documentId : string)
    (submitDto : SubmitAccessRequestDto.t) : Service AccessRequestSubmissionResponseDto.t :=
  document <- documentRepository.findOne (isPublicDocument documentId) ;;
  match document with
  | None => throw (NotFoundException "Document not found or is not publicly available")
  | Some document =>
    existingPendingRequest <-
      accessGrantRepository.findOne
        (isPendingRequest documentId (SubmitAccessRequestDto.requestorEmail submitDto)) ;;
    match existingPendingRequest with
    | Some _ =>
      throw (ConflictException
        "You already have a pending request for this document. Please wait for the owner's response.")
    | None =>
      let requestUUID := uuidv4 rt in
      let accessGrant := create rt documentId submitDto requestUUID in
      savedGrant <- accessGrantRepository.insert accessGrant ;;
      let retrievalPageUrl := (frontendUrl rt ++ "/request-status/" ++ requestUUID)%string in
      ret {| AccessRequestSubmissionResponseDto.id := AccessGrant.id savedGrant;
             AccessRequestSubmissionResponseDto.documentId := documentId;
             AccessRequestSubmissionResponseDto.filename := DocumentFile.filename document;
             AccessRequestSubmissionResponseDto.requestorEmail :=
               SubmitAccessRequestDto.requestorEmail submitDto;
             AccessRequestSubmissionResponseDto.requestUUID := requestUUID;
             AccessRequestSubmissionResponseDto.status := PENDING;
             AccessRequestSubmissionResponseDto.message :=
               "Request submitted successfully. Check your email for confirmation.";
             AccessRequestSubmissionResponseDto.retrievalPageUrl := retrievalPageUrl |}
    end
  end.

End ExternalRequestorService.

(** ** DocumentService: the owner's operations on grants *)

Module ApproveAccessRequestDto.

(** [expiryDate] is an ISO date string checked by [@IsDateString]; the
    model carries the time value of [new Date(approveDto.expiryDate)] and
    so covers the strings that parse to a date. *)
Record t : Type := mk {
  expiryDate : Date;
  message : option string
}.

End ApproveAccessRequestDto.

Module DenyAccessRequestDto.
Record t : Type := mk { reason : option string }.
End DenyAccessRequestDto.

Module RevokeAccessGrantDto.
Record t : Type := mk { message : option string }.
End RevokeAccessGrantDto.

Module BulkRevokeAccessDto.
Record t : Type := mk { message : option string }.
End BulkRevokeAccessDto.

Module AccessRequestResponseDto.

Record t : Type := mk {
  id : string;
  documentId : string;
  filename : string;
  requestorEmail : string;
  requestorName : option string;
  requestorOrganization : option string;
  requestPurpose : string;
  status : AccessStatus;
  expiryDate : option Date;
  denialReason : option string;
  approvalMessage : option string;
  requestedAt : Date;
  actionCompletedAt : option Date
}.

End AccessRequestResponseDto.

Module UpdateDocumentVisibilityDto.
Record t : Type := mk { visibilityStatus : VisibilityStatus }.
End UpdateDocumentVisibilityDto.

Module DocumentResponseDto.

(** The fields computed from the modelled columns; [fileType], [fileSize],
    [description] and [uploadedAt] are copies of columns that the model of
    [DocumentFile] leaves out. *)
Record t : Type := mk {
  id : string;
  filename : string;
  visibilityStatus : VisibilityStatus;
  accessGrantsCount : Z;
  activeAccessGrantsCount : Z
}.

End DocumentResponseDto.

Module AccessGrantDetailDto.

Record t : Type := mk {
  id : string;
  documentId : string;
  filename : string;
  requestorEmail : string;
  requestorName : option string;
  status : AccessStatus;
  expiryDate : option Date;
  requestedAt : Date;
  actionCompletedAt : option Date;
  isActive : bool;
  isExpired : bool
}.

End AccessGrantDetailDto.

Module ActiveAccessGrantsDto.

Record t : Type := mk {
  active : list AccessGrantDetailDto.t;
  expired : list AccessGrantDetailDto.t;
  revoked : list AccessGrantDetailDto.t
}.

End ActiveAccessGrantsDto.

(** [for (const x of xs) { body }] *)
Fixpoint forEach {A} (xs : list A) (body : A -> Service unit) : Service unit :=
  match xs with
  | [] => ret tt
  | x :: xs' => body x ;;; forEach xs' body
  end.

Module DocumentService.

Definition ownedDocument (documentId ownerId : string) (d : DocumentFile.t) : bool :=
  String.eqb (DocumentFile.id d) documentId && String.eqb (DocumentFile.ownerId d) ownerId.

Definition grantOfDocument (accessGrantId documentId : string) (g : AccessGrant.t) : bool :=
  String.eqb (AccessGrant.id g) accessGrantId && String.eqb (AccessGrant.documentId g) documentId.

Definition approvedGrantOfDocument (documentId : string) (g : AccessGrant.t) : bool :=
  String.eqb (AccessGrant.documentId g) documentId
  && AccessStatus_eqb (AccessGrant.status g) APPROVED.

Definition mapToAccessRequestResponseDto (grant : AccessGrant.t) (document : DocumentFile.t)
    : AccessRequestResponseDto.t :=
  {| AccessRequestResponseDto.id := AccessGrant.id grant;
     AccessRequestResponseDto.documentId := AccessGrant.documentId grant;
     AccessRequestResponseDto.filename := DocumentFile.filename document;
     AccessRequestResponseDto.requestorEmail := AccessGrant.requestorEmail grant;
     AccessRequestResponseDto.requestorName := AccessGrant.requestorName grant;
     AccessRequestResponseDto.requestorOrganization := AccessGrant.requestorOrganization grant;
     AccessRequestResponseDto.requestPurpose := AccessGrant.requestPurpose grant;
     AccessRequestResponseDto.status := AccessGrant.status grant;
     AccessRequestResponseDto.expiryDate := AccessGrant.expiryDate grant;
     AccessRequestResponseDto.denialReason := AccessGrant.denialReason grant;
     AccessRequestResponseDto.approvalMessage := AccessGrant.approvalMessage grant;
     AccessRequestResponseDto.requestedAt := AccessGrant.requestedAt grant;
     AccessRequestResponseDto.actionCompletedAt := AccessGrant.actionCompletedAt grant |}.

(** The assignments each operation makes to the loaded grant before it
    saves it. *)

Definition revoked (rt : Runtime) (message : option string) (g : AccessGrant.t) : AccessGrant.t :=
  let g := AccessGrant.set_status REVOKED g in
  let g := if truthy message then AccessGrant.set_revocationMessage message g else g in
  AccessGrant.set_actionCompletedAt (Some (now rt)) g.

Definition approved (rt : Runtime) (approveDto : ApproveAccessRequestDto.t) (g : AccessGrant.t)
    : AccessGrant.t :=
  let g := AccessGrant.set_status APPROVED g in
  let g := AccessGrant.set_expiryDate (Some (ApproveAccessRequestDto.expiryDate approveDto)) g in
  let g := if truthy (ApproveAccessRequestDto.message approveDto)
           then AccessGrant.set_approvalMessage (ApproveAccessRequestDto.message approveDto) g
           else g in
  AccessGrant.set_actionCompletedAt (Some (now rt)) g.

Definition denied (rt : Runtime) (reason : option string) (g : AccessGrant.t) : AccessGrant.t :=
  let g := AccessGrant.set_status DENIED g in
  let g := if truthy reason then AccessGrant.set_denialReason reason g else g in
  AccessGrant.set_actionCompletedAt (Some (now rt)) g.

(** [dto?.field] *)
Definition optField {D} (field : D -> option string) (dto : option D) : option string :=
  match dto with
  | Some d => field d
  | None => None
  end.

Definition revokeAccessGrant (rt : Runtime) (documentId accessGrantId ownerId : string)
    (revokeDto : option RevokeAccessGrantDto.t) : Service unit :=
  document <- documentRepository.findOne (ownedDocument documentId ownerId) ;;
  match document with
  | None => throw (NotFoundException "Document not found")
  | Some document =>
    accessGrant <- accessGrantRepository.findOne (grantOfDocument accessGrantId documentId) ;;
    match accessGrant with
    | None => throw (NotFoundException "Access grant not found")
    | Some accessGrant =>
      accessGrantRepository.save
        (revoked rt (optField RevokeAccessGrantDto.message revokeDto) accessGrant) ;;;
      ret tt
    end
  end.

Definition approveAccessRequest (rt : Runtime) (documentId accessGrantId ownerId : string)
    (approveDto : ApproveAccessRequestDto.t) : Service AccessRequestResponseDto.t :=
  document <- documentRepository.findOne (ownedDocument documentId ownerId) ;;
  match document with
  | None => throw (NotFoundException "Document not found")
  | Some document =>
    accessGrant <- accessGrantRepository.findOne (grantOfDocument accessGrantId documentId) ;;
    match accessGrant with
    | None => throw (NotFoundException "Access grant not found")
    | Some accessGrant =>
      if negb (AccessStatus_eqb (AccessGrant.status accessGrant) PENDING) then
        throw (BadRequestException
                 ("Cannot approve request with status "
                  ++ AccessStatus_value (AccessGrant.status accessGrant))%string)
      else
        let expiryDate := ApproveAccessRequestDto.expiryDate approveDto in
        if expiryDate <=? now rt then
          throw (BadRequestException "Expiry date must be in the future")
        else
          accessGrant <- accessGrantRepository.save (approved rt approveDto accessGrant) ;;
          ret (mapToAccessRequestResponseDto accessGrant document)
    end
  end.

Definition denyAccessRequest (rt : Runtime) (documentId accessGrantId ownerId : string)
    (denyDto : option DenyAccessRequestDto.t) : Service AccessRequestResponseDto.t :=
  document <- documentRepository.findOne (ownedDocument documentId ownerId) ;;
  match document with
  | None => throw (NotFoundException "Document not found")
  | Some document =>
    accessGrant <- accessGrantRepository.findOne (grantOfDocument accessGrantId documentId) ;;
    match accessGrant with
    | None => throw (NotFoundException "Access grant not found")
    | Some accessGrant =>
      if negb (AccessStatus_eqb (AccessGrant.status accessGrant) PENDING) then
        throw (BadRequestException
                 ("Cannot deny request with status "
                  ++ AccessStatus_value (AccessGrant.status accessGrant))%string)
      else
        accessGrant <-
          accessGrantRepository.save
            (denied rt (optField DenyAccessRequestDto.reason denyDto) accessGrant) ;;
        ret (mapToAccessRequestResponseDto accessGrant document)
    end
  end.

Definition bulkRevokeAccess (rt : Runtime) (documentId ownerId : string)
    (bulkRevokeDto : option BulkRevokeAccessDto.t) : Service unit :=
  document <- documentRepository.findOne (ownedDocument documentId ownerId) ;;
  match document with
  | None => throw (NotFoundException "Document not found")
  | Some document =>
    activeGrants <- accessGrantRepository.find (approvedGrantOfDocument documentId) ;;
    let grantsToRevoke := filter (fun ag => negb (AccessGrant.isExpired (now rt) ag)) activeGrants in
    forEach grantsToRevoke (fun grant =>
      accessGrantRepository.save
        (revoked rt (optField BulkRevokeAccessDto.message bulkRevokeDto) grant) ;;;
      ret tt)
  end.

(** [document.accessGrants] is [None] when the entity was loaded without
    the relation. *)
Definition mapToDocumentResponseDto (rt : Runtime) (document : DocumentFile.t)
    (accessGrants : option (list AccessGrant.t)) : DocumentResponseDto.t :=
  let activeGrants :=
    match accessGrants with
    | Some grants => filter (AccessGrant.isActive (now rt)) grants
    | None => []
    end in
  {| DocumentResponseDto.id := DocumentFile.id document;
     DocumentResponseDto.filename := DocumentFile.filename document;
     DocumentResponseDto.visibilityStatus := DocumentFile.visibilityStatus document;
     DocumentResponseDto.accessGrantsCount :=
       match accessGrants with
       | Some grants => Z.of_nat (List.length grants)
       | None => 0
       end;
     DocumentResponseDto.activeAccessGrantsCount := Z.of_nat (List.length activeGrants) |}.

Definition updateDocumentVisibility (rt : Runtime) (documentId ownerId : string)
    (updateDto : UpdateDocumentVisibilityDto.t) : Service DocumentResponseDto.t :=
  document <- documentRepository.findOne (ownedDocument documentId ownerId) ;;
  match document with
  | None => throw (NotFoundException "Document not found")
  | Some document =>
    if negb (DocumentFile.isActive document) then
      throw (BadRequestException "Cannot update deleted document")
    else
      updatedDocument <-
        documentRepository.save
          (DocumentFile.set_visibilityStatus
             (UpdateDocumentVisibilityDto.visibilityStatus updateDto) document) ;;
      ret (mapToDocumentResponseDto rt updatedDocument None)
  end.

(** The [accessGrants] relation of a document. *)
Definition grantsOf (document : DocumentFile.t) (rows : list AccessGrant.t)
    : list AccessGrant.t :=
  filter (fun ag => String.eqb (AccessGrant.documentId ag) (DocumentFile.id document)) rows.

(** [fileStorageService.deleteFile] unlinks the stored file and swallows
    every error of the file system; it touches no table. *)
Definition deleteDocument (rt : Runtime) (documentId ownerId : string) : Service unit :=
  document <- documentRepository.findOne (ownedDocument documentId ownerId) ;;
  match document with
  | None => throw (NotFoundException "Document not found")
  | Some document =>
    accessGrants <- accessGrantRepository.find
                      (fun ag => String.eqb (AccessGrant.documentId ag) (DocumentFile.id document)) ;;
    let activeAccessGrants :=
      filter (fun ag => AccessStatus_eqb (AccessGrant.status ag) APPROVED
                        && AccessGrant.isActive (now rt) ag) accessGrants in
    if 0 <? Z.of_nat (List.length activeAccessGrants) then
      throw (BadRequestException
               "Cannot delete file with active access grants. Revoke all access before deleting.")
    else
      documentRepository.save (DocumentFile.set_deletedAt (Some (now rt)) document) ;;;
      ret tt
  end.

(** [ORDER BY requestedAt DESC]; of rows with equal keys, whose order SQL
    leaves open, the later row of the table comes first. *)
Fixpoint insertByRequestedAt (g : AccessGrant.t) (sorted : list AccessGrant.t)
    : list AccessGrant.t :=
  match sorted with
  | [] => [g]
  | h :: sorted' =>
    if AccessGrant.requestedAt h <? AccessGrant.requestedAt g
    then g :: h :: sorted'
    else h :: insertByRequestedAt g sorted'
  end.

Definition orderByRequestedAtDesc (rows : list AccessGrant.t) : list AccessGrant.t :=
  fold_right insertByRequestedAt [] rows.

Definition toAccessGrantDetailDto (rt : Runtime) (document : DocumentFile.t)
    (grant : AccessGrant.t) : AccessGrantDetailDto.t :=
  {| AccessGrantDetailDto.id := AccessGrant.id grant;
     AccessGrantDetailDto.documentId := AccessGrant.documentId grant;
     AccessGrantDetailDto.filename := DocumentFile.filename document;
     AccessGrantDetailDto.requestorEmail := AccessGrant.requestorEmail grant;
     AccessGrantDetailDto.requestorName := AccessGrant.requestorName grant;
     AccessGrantDetailDto.status := AccessGrant.status grant;
     AccessGrantDetailDto.expiryDate := AccessGrant.expiryDate grant;
     AccessGrantDetailDto.requestedAt := AccessGrant.requestedAt grant;
     AccessGrantDetailDto.actionCompletedAt := AccessGrant.actionCompletedAt grant;
     AccessGrantDetailDto.isActive := AccessGrant.isActive (now rt) grant;
     AccessGrantDetailDto.isExpired := AccessGrant.isExpired (now rt) grant |}.

(** One turn of the loop over the grants of the file. *)
Definition categorize (rt : Runtime) (document : DocumentFile.t)
    (lists : ActiveAccessGrantsDto.t) (grant : AccessGrant.t) : ActiveAccessGrantsDto.t :=
  let dto := toAccessGrantDetailDto rt document grant in
  if AccessStatus_eqb (AccessGrant.status grant) REVOKED then
    ActiveAccessGrantsDto.mk (ActiveAccessGrantsDto.active lists)
      (ActiveAccessGrantsDto.expired lists) (ActiveAccessGrantsDto.revoked lists ++ [dto])
  else if AccessStatus_eqb (AccessGrant.status grant) APPROVED
          && AccessGrant.isExpired (now rt) grant then
    ActiveAccessGrantsDto.mk (ActiveAccessGrantsDto.active lists)
      (ActiveAccessGrantsDto.expired lists ++ [dto]) (ActiveAccessGrantsDto.revoked lists)
  else if AccessGrant.isActive (now rt) grant then
    ActiveAccessGrantsDto.mk (ActiveAccessGrantsDto.active lists ++ [dto])
      (ActiveAccessGrantsDto.expired lists) (ActiveAccessGrantsDto.revoked lists)
  else lists.

Definition getAccessGrantsForFile (rt : Runtime) (documentId ownerId : string)
    : Service ActiveAccessGrantsDto.t :=
  document <- documentRepository.findOne (ownedDocument documentId ownerId) ;;
  match document with
  | None => throw (NotFoundException "Document not found")
  | Some document =>
    accessGrants <- accessGrantRepository.find
                      (fun ag => String.eqb (AccessGrant.documentId ag) documentId) ;;
    let accessGrants := orderByRequestedAtDesc accessGrants in
    ret (fold_left (categorize rt document) accessGrants (ActiveAccessGrantsDto.mk [] [] []))
  end.

End DocumentService.

(** ** VerificationDownloadService *)

Module InitiateVerificationDto.
Record t : Type := mk { requestUUID : string; requestorEmail : string }.
End InitiateVerificationDto.

Module RequestOtpDto.
Record t : Type := mk { requestUUID : string; requestorEmail : string }.
End RequestOtpDto.

Module VerifyOtpDto.
Record t : Type := mk { requestUUID : string; requestorEmail : string; otp : string }.
End VerifyOtpDto.

Module DownloadSessionCheckDto.
Record t : Type := mk { downloadSessionToken : string }.
End DownloadSessionCheckDto.

Module VerificationInitiateResponseDto.
Record t : Type := mk {
  success : bool;
  message : string;
  requestUUID : option string;
  requestorEmail : string;
  requestorName : option string;
  documentName : string
}.
End VerificationInitiateResponseDto.

Module RequestOtpResponseDto.
Record t : Type := mk {
  success : bool;
  message : string;
  otpSentTo : string;
  expiresIn : Z
}.
End RequestOtpResponseDto.

Module VerifyOtpResponseDto.
Record t : Type := mk {
  success : bool;
  message : string;
  downloadSessionToken : string;
  expiresIn : Z
}.
End VerifyOtpResponseDto.

Module SessionStatusDto.
Record t : Type := mk {
  isValid : bool;
  expiresIn : Z;
  requestorEmail : string;
  documentName : string
}.
End SessionStatusDto.

Module VerificationDownloadService.

Definition OTP_VALIDITY_MINUTES : Z := 15.
Definition OTP_MAX_ATTEMPTS : Z := 3.
Definition SESSION_TIMEOUT_MINUTES : Z := 60.

Definition byTokenAndEmail (token email : string) (g : AccessGrant.t) : bool :=
  eqOpt (AccessGrant.accessToken g) token && String.eqb (AccessGrant.requestorEmail g) email.

Definition bySessionToken (downloadSessionToken : string) (g : AccessGrant.t) : bool :=
  eqOpt (AccessGrant.downloadSessionToken g) downloadSessionToken
  && Bool.eqb (AccessGrant.isVerified g) true.

Definition findAccessGrantByTokenAndEmail (token email : string)
    : Service (option AccessGrant.t) :=
  accessGrantRepository.findOne (byTokenAndEmail token email).

(** [accessGrant.document] of a grant loaded with [relations: ['document']];
    reading a property of a relation that did not load is a [TypeError]. *)
Definition document_of (g : AccessGrant.t) : Service DocumentFile.t :=
  d <- documentRepository.findOne
         (fun d => String.eqb (DocumentFile.id d) (AccessGrant.documentId g)) ;;
  match d with
  | Some d => ret d
  | None => throw (InternalServerError "TypeError: Cannot read properties of null")
  end.

Definition createAuditLog (rt : Runtime) (accessGrant : AccessGrant.t)
    (action : DownloadAction) (details : string)
    (ipAddress userAgent : option string) (bytesDownloaded : option Z) : Service unit :=
  tryCatch
    (auditLogRepository.save rt
       {| DownloadAuditLog.accessGrantId := AccessGrant.id accessGrant;
          DownloadAuditLog.documentId := AccessGrant.documentId accessGrant;
          DownloadAuditLog.requestorEmail := AccessGrant.requestorEmail accessGrant;
          DownloadAuditLog.action := action;
          DownloadAuditLog.details := Some details;
          DownloadAuditLog.ipAddress := orElse ipAddress None;
          DownloadAuditLog.userAgent := orElse userAgent None;
          DownloadAuditLog.bytesDownloaded :=
            match bytesDownloaded with
            | Some b => if b =? 0 then None else Some b
            | None => None
            end;
          DownloadAuditLog.createdAt := now rt |})
    (fun error => ret tt).

Definition getStatusErrorMessage (status : AccessStatus) : string :=
  match status with
  | PENDING =>
    "Your request is still pending review by the document owner. You will receive an email once a decision has been made."
  | DENIED => "Your access request has been denied by the document owner."
  | REVOKED => "Your access to this document has been revoked."
  | APPROVED => "You do not have permission to access this document."
  end.

Definition documentRestricted : string :=
  "This document is no longer available for download. The owner has restricted access.".

Definition initiateVerification (rt : Runtime) (dto : InitiateVerificationDto.t)
    : Service VerificationInitiateResponseDto.t :=
  accessGrant <- findAccessGrantByTokenAndEmail
                   (InitiateVerificationDto.requestUUID dto)
                   (InitiateVerificationDto.requestorEmail dto) ;;
  match accessGrant with
  | None => throw (NotFoundException "Request UUID not found or email does not match our records.")
  | Some accessGrant =>
    if negb (AccessStatus_eqb (AccessGrant.status accessGrant) APPROVED) then
      throw (BadRequestException (getStatusErrorMessage (AccessGrant.status accessGrant)))
    else if AccessGrant.isExpired (now rt) accessGrant then
      throw (BadRequestException
               ("This access request has expired as of "
                ++ match AccessGrant.expiryDate accessGrant with
                   | Some e => beforeT (toISOString rt e)
                   | None => "undefined"
                   end
                ++ ". You can no longer retrieve this document.")%string)
    else
      document <- document_of accessGrant ;;
      if negb (VisibilityStatus_eqb (DocumentFile.visibilityStatus document) PUBLIC) then
        throw (ForbiddenException documentRestricted)
      else
        createAuditLog rt accessGrant SESSION_CREATED "Verification session initiated"
                       None None None ;;;
        ret {| VerificationInitiateResponseDto.success := true;
               VerificationInitiateResponseDto.message :=
                 "Verification initiated. OTP will be sent to your email.";
               VerificationInitiateResponseDto.requestUUID := AccessGrant.accessToken accessGrant;
               VerificationInitiateResponseDto.requestorEmail :=
                 AccessGrant.requestorEmail accessGrant;
               VerificationInitiateResponseDto.requestorName :=
                 AccessGrant.requestorName accessGrant;
               VerificationInitiateResponseDto.documentName :=
                 if String.eqb (DocumentFile.filename document) "" then "Document"
                 else DocumentFile.filename document |}
  end.

(** [Math.floor(100000 + Math.random() * 900000).toString()]: the product
    and the sum are each rounded to a double. *)
Definition generateOtp (rt : Runtime) : string :=
  toString
    (Qfloor (Number.round
               (inject_Z 100000 + Number.round (random rt * inject_Z 900000))%Q)).

(** The reset of the verification state of a session that is no longer
    active. *)
Definition resetVerification (g : AccessGrant.t) : AccessGrant.t :=
  let g := AccessGrant.set_isVerified false g in
  let g := AccessGrant.set_verifiedAt None g in
  let g := AccessGrant.set_downloadSessionToken None g in
  AccessGrant.set_lastActivityAt None g.

Definition withNewOtp (otp : string) (otpExpiryDate : Date) (g : AccessGrant.t) : AccessGrant.t :=
  let g := AccessGrant.set_otp (Some otp) g in
  let g := AccessGrant.set_otpExpiryDate (Some otpExpiryDate) g in
  AccessGrant.set_otpAttempts 0 g.

Definition requestOtp (rt : Runtime) (dto : RequestOtpDto.t) : Service RequestOtpResponseDto.t :=
  accessGrant <- findAccessGrantByTokenAndEmail
                   (RequestOtpDto.requestUUID dto) (RequestOtpDto.requestorEmail dto) ;;
  match accessGrant with
  | None => throw (NotFoundException "Request UUID not found or email does not match our records.")
  | Some accessGrant =>
    if negb (AccessGrant.canRequestOtp (now rt) accessGrant) then
      throw (BadRequestException "Cannot request OTP for this access grant.")
    else
      document <- document_of accessGrant ;;
      if negb (VisibilityStatus_eqb (DocumentFile.visibilityStatus document) PUBLIC) then
        throw (ForbiddenException documentRestricted)
      else
        let otp := generateOtp rt in
        let otpExpiryDate := now rt + OTP_VALIDITY_MINUTES * 60 * 1000 in
        accessGrant <-
          (if AccessGrant.isVerified accessGrant
              && negb (AccessGrant.isSessionActive (now rt) accessGrant)
           then
             let accessGrant := resetVerification accessGrant in
             createAuditLog rt accessGrant SESSION_EXPIRED
               "Previous session expired. Verification state reset for new OTP request."
               None None None ;;;
             ret accessGrant
           else ret accessGrant) ;;
        accessGrant <- accessGrantRepository.save (withNewOtp otp otpExpiryDate accessGrant) ;;
        createAuditLog rt accessGrant OTP_REQUESTED
          ("OTP generated and sent to " ++ AccessGrant.requestorEmail accessGrant)%string
          None None None ;;;
        ret {| RequestOtpResponseDto.success := true;
               RequestOtpResponseDto.message :=
                 ("OTP sent to " ++ AccessGrant.requestorEmail accessGrant ++ ". Valid for "
                  ++ toString OTP_VALIDITY_MINUTES ++ " minutes.")%string;
               RequestOtpResponseDto.otpSentTo := AccessGrant.requestorEmail accessGrant;
               RequestOtpResponseDto.expiresIn := OTP_VALIDITY_MINUTES * 60 |}
  end.

Definition verified (rt : Runtime) (downloadSessionToken : string) (g : AccessGrant.t)
    : AccessGrant.t :=
  let g := AccessGrant.set_isVerified true g in
  let g := AccessGrant.set_verifiedAt (Some (now rt)) g in
  let g := AccessGrant.set_downloadSessionToken (Some downloadSessionToken) g in
  let g := AccessGrant.set_lastActivityAt (Some (now rt)) g in
  AccessGrant.set_otp (Some "") g.

Definition verifyOtp (rt : Runtime) (dto : VerifyOtpDto.t) : Service VerifyOtpResponseDto.t :=
  accessGrant <- findAccessGrantByTokenAndEmail
                   (VerifyOtpDto.requestUUID dto) (VerifyOtpDto.requestorEmail dto) ;;
  match accessGrant with
  | None => throw (NotFoundException "Request UUID not found or email does not match our records.")
  | Some accessGrant =>
    if negb (AccessGrant.canVerifyOtp (now rt) accessGrant) then
      if AccessGrant.otpAttempts accessGrant >=? OTP_MAX_ATTEMPTS then
        createAuditLog rt accessGrant OTP_FAILED
          "Maximum OTP attempts exceeded. Account locked for 15 minutes." None None None ;;;
        throw (ConflictException "Too many incorrect attempts. Please request a new OTP.")
      else throw (BadRequestException "OTP is invalid or expired.")
    else if negb (eqOpt (AccessGrant.otp accessGrant) (VerifyOtpDto.otp dto)) then
      accessGrant <-
        accessGrantRepository.save
          (AccessGrant.set_otpAttempts (AccessGrant.otpAttempts accessGrant + 1) accessGrant) ;;
      let remainingAttempts := OTP_MAX_ATTEMPTS - AccessGrant.otpAttempts accessGrant in
      createAuditLog rt accessGrant OTP_FAILED
        ("Invalid OTP attempt. " ++ toString remainingAttempts ++ " attempts remaining.")%string
        None None None ;;;
      throw (BadRequestException
               ("Invalid OTP. " ++ toString remainingAttempts ++ " attempts remaining.")%string)
    else
      let downloadSessionToken := uuidv4 rt in
      accessGrant <- accessGrantRepository.save (verified rt downloadSessionToken accessGrant) ;;
      createAuditLog rt accessGrant OTP_VERIFIED
        "OTP verified successfully. Download session created." None None None ;;;
      ret {| VerifyOtpResponseDto.success := true;
             VerifyOtpResponseDto.message :=
               "OTP verified successfully. You can now download your document.";
             VerifyOtpResponseDto.downloadSessionToken := downloadSessionToken;
             VerifyOtpResponseDto.expiresIn := SESSION_TIMEOUT_MINUTES * 60 |}
  end.

Definition sessionExpired : string :=
  "Your session has expired for security reasons. Please verify again.".

Definition validateDownloadSession (rt : Runtime) (dto : DownloadSessionCheckDto.t)
    : Service SessionStatusDto.t :=
  accessGrant <- accessGrantRepository.findOne
                   (bySessionToken (DownloadSessionCheckDto.downloadSessionToken dto)) ;;
  match accessGrant with
  | None => throw (NotFoundException "Invalid or expired download session.")
  | Some accessGrant =>
    if negb (AccessGrant.isSessionActive (now rt) accessGrant) then
      createAuditLog rt accessGrant SESSION_EXPIRED
        "Download session expired due to inactivity or access expiry." None None None ;;;
      throw (ForbiddenException sessionExpired)
    else
      document <- document_of accessGrant ;;
      if negb (VisibilityStatus_eqb (DocumentFile.visibilityStatus document) PUBLIC) then
        createAuditLog rt accessGrant SESSION_EXPIRED
          "Session validation failed: Document is no longer publicly accessible."
          None None None ;;;
        throw (ForbiddenException documentRestricted)
      else
        accessGrant <-
          accessGrantRepository.save
            (AccessGrant.set_lastActivityAt (Some (now rt)) accessGrant) ;;
        ret {| SessionStatusDto.isValid := true;
               SessionStatusDto.expiresIn := SESSION_TIMEOUT_MINUTES * 60;
               SessionStatusDto.requestorEmail := AccessGrant.requestorEmail accessGrant;
               SessionStatusDto.documentName := DocumentFile.filename document |}
  end.

Definition getDocumentForDownload (rt : Runtime) (downloadSessionToken : string)
    : Service (AccessGrant.t * DocumentFile.t) :=
  accessGrant <- accessGrantRepository.findOne (bySessionToken downloadSessionToken) ;;
  match accessGrant with
  | None => throw (NotFoundException "Invalid or expired download session.")
  | Some accessGrant =>
    if negb (AccessGrant.isSessionActive (now rt) accessGrant) then
      createAuditLog rt accessGrant SESSION_EXPIRED
        "Download session expired during download attempt." None None None ;;;
      throw (ForbiddenException sessionExpired)
    else
      document <- document_of accessGrant ;;
      if negb (VisibilityStatus_eqb (DocumentFile.visibilityStatus document) PUBLIC) then
        createAuditLog rt accessGrant DOWNLOAD_FAILED
          "Download blocked: Document is no longer publicly accessible." None None None ;;;
        throw (ForbiddenException documentRestricted)
      else
        accessGrant <-
          accessGrantRepository.save
            (AccessGrant.set_lastActivityAt (Some (now rt)) accessGrant) ;;
        ret (accessGrant, document)
  end.

Definition recordDownload (rt : Runtime) (downloadSessionToken : string)
    (bytesDownloaded : Z) (ipAddress userAgent : string) : Service unit :=
  accessGrant <- accessGrantRepository.findOne (bySessionToken downloadSessionToken) ;;
  match accessGrant with
  | None => throw (NotFoundException "Invalid download session.")
  | Some accessGrant =>
    if negb (AccessGrant.isSessionActive (now rt) accessGrant) then
      throw (ForbiddenException "Download session has expired.")
    else
      accessGrant <-
        accessGrantRepository.save
          (AccessGrant.set_lastActivityAt (Some (now rt)) accessGrant) ;;
      createAuditLog rt accessGrant DOWNLOAD_COMPLETED
        ("Document downloaded successfully. Size: " ++ toString bytesDownloaded ++ " bytes.")%string
        (Some ipAddress) (Some userAgent) (Some bytesDownloaded)
  end.

End VerificationDownloadService.

(** ** Requests *)

Inductive Operation :=
| SubmitAccessRequest (documentId : string) (submitDto : SubmitAccessRequestDto.t)
| ApproveAccessRequest (documentId accessGrantId ownerId : string)
    (approveDto : ApproveAccessRequestDto.t)
| DenyAccessRequest (documentId accessGrantId ownerId : string)
    (denyDto : option DenyAccessRequestDto.t)
| RevokeAccessGrant (documentId accessGrantId ownerId : string)
    (revokeDto : option RevokeAccessGrantDto.t)
| BulkRevokeAccess (documentId ownerId : string) (bulkRevokeDto : option BulkRevokeAccessDto.t)
| InitiateVerification (dto : InitiateVerificationDto.t)
| RequestOtp (dto : RequestOtpDto.t)
| VerifyOtp (dto : VerifyOtpDto.t)
| ValidateDownloadSession (dto : DownloadSessionCheckDto.t)
| GetDocumentForDownload (downloadSessionToken : string)
| RecordDownload (downloadSessionToken : string) (bytesDownloaded : Z)
    (ipAddress userAgent : string).

Inductive Response :=
| Submitted (r : AccessRequestSubmissionResponseDto.t)
| Decided (r : AccessRequestResponseDto.t)
| NoContent
| Initiated (r : VerificationInitiateResponseDto.t)
| OtpSent (r : RequestOtpResponseDto.t)
| OtpVerified (r : VerifyOtpResponseDto.t)
| SessionStatus (r : SessionStatusDto.t)
| DownloadTarget (accessGrant : AccessGrant.t) (document : DocumentFile.t).

Definition respond {A} (wrap : A -> Response) (m : Service A) : Service Response :=
  a <- m ;; ret (wrap a).

Definition perform (rt : Runtime) (op : Operation) : Service Response :=
  match op with
  | SubmitAccessRequest documentId submitDto =>
    respond Submitted (ExternalRequestorService.submitAccessRequest rt documentId submitDto)
  | ApproveAccessRequest documentId accessGrantId ownerId approveDto =>
    respond Decided
      (DocumentService.approveAccessRequest rt documentId accessGrantId ownerId approveDto)
  | DenyAccessRequest documentId accessGrantId ownerId denyDto =>
    respond Decided (DocumentService.denyAccessRequest rt documentId accessGrantId ownerId denyDto)
  | RevokeAccessGrant documentId accessGrantId ownerId revokeDto =>
    respond (fun _ => NoContent)
      (DocumentService.revokeAccessGrant rt documentId accessGrantId ownerId revokeDto)
  | BulkRevokeAccess documentId ownerId bulkRevokeDto =>
    respond (fun _ => NoContent)
      (DocumentService.bulkRevokeAccess rt documentId ownerId bulkRevokeDto)
  | InitiateVerification dto =>
    respond Initiated (VerificationDownloadService.initiateVerification rt dto)
  | RequestOtp dto => respond OtpSent (VerificationDownloadService.requestOtp rt dto)
  | VerifyOtp dto => respond OtpVerified (VerificationDownloadService.verifyOtp rt dto)
  | ValidateDownloadSession dto =>
    respond SessionStatus (VerificationDownloadService.validateDownloadSession rt dto)
  | GetDocumentForDownload downloadSessionToken =>
    respond (fun r => DownloadTarget (fst r) (snd r))
      (VerificationDownloadService.getDocumentForDownload rt downloadSessionToken)
  | RecordDownload downloadSessionToken bytesDownloaded ipAddress userAgent =>
    respond (fun _ => NoContent)
      (VerificationDownloadService.recordDownload rt downloadSessionToken bytesDownloaded
         ipAddress userAgent)
  end.

(** A sequence of requests, each with the runtime it meets. *)
Fixpoint performAll (calls : list (Runtime * Operation)) (db : Tables) : Tables :=
  match calls with
  | [] => db
  | (rt, op) :: calls' => performAll calls' (snd (perform rt op db))
  end.

(** The exception class of an outcome. *)
Definition throwsNotFound {A} (r : Result A) : Prop := exists m, r = Throw (NotFoundException m).
Definition throwsBadRequest {A} (r : Result A) : Prop := exists m, r = Throw (BadRequestException m).
Definition throwsConflict {A} (r : Result A) : Prop := exists m, r = Throw (ConflictException m).

(** ** Notions used to state the properties *)

(** What a sequence of saves of [f g], for the loaded grants [gs], makes of
    one row. *)
Definition savedRow (f : AccessGrant.t -> AccessGrant.t) (gs : list AccessGrant.t)
    (r : AccessGrant.t) : AccessGrant.t :=
  fold_left
    (fun r' g => if String.eqb (AccessGrant.id r') (AccessGrant.id (f g)) then f g else r')
    gs r.

(** The rows [bulkRevokeAccess] selects. *)
Definition bulkSelected (rt : Runtime) (documentId : string) (g : AccessGrant.t) : bool :=
  DocumentService.approvedGrantOfDocument documentId g
  && negb (AccessGrant.isExpired (now rt) g).

(** The assignment a request makes to a grant it saves. *)
Definition RowUpdate (rt : Runtime) (op : Operation) (g g' : AccessGrant.t) : Prop :=
  match op with
  | SubmitAccessRequest _ _ => False
  | ApproveAccessRequest _ _ _ approveDto =>
    AccessGrant.status g = PENDING /\ g' = DocumentService.approved rt approveDto g
  | DenyAccessRequest _ _ _ denyDto =>
    AccessGrant.status g = PENDING
    /\ g' = DocumentService.denied rt (DocumentService.optField DenyAccessRequestDto.reason denyDto) g
  | RevokeAccessGrant _ _ _ revokeDto =>
    g' = DocumentService.revoked rt
           (DocumentService.optField RevokeAccessGrantDto.message revokeDto) g
  | BulkRevokeAccess _ _ bulkRevokeDto =>
    AccessGrant.status g = APPROVED
    /\ g' = DocumentService.revoked rt
              (DocumentService.optField BulkRevokeAccessDto.message bulkRevokeDto) g
  | InitiateVerification _ => False
  | RequestOtp _ =>
    exists g0, (g0 = g \/ g0 = VerificationDownloadService.resetVerification g)
               /\ g' = VerificationDownloadService.withNewOtp
                         (VerificationDownloadService.generateOtp rt)
                         (now rt + VerificationDownloadService.OTP_VALIDITY_MINUTES * 60 * 1000)
                         g0
  | VerifyOtp _ =>
    g' = AccessGrant.set_otpAttempts (AccessGrant.otpAttempts g + 1) g
    \/ g' = VerificationDownloadService.verified rt (uuidv4 rt) g
  | ValidateDownloadSession _ | GetDocumentForDownload _ | RecordDownload _ _ _ _ =>
    g' = AccessGrant.set_lastActivityAt (Some (now rt)) g
  end.

(** How one request can change the grants table: not at all, by saving a
    loaded row, by inserting a row under a new key, or by rewriting rows in
    place. [R] relates a row to what it is replaced with. *)
Inductive TableChange (R : AccessGrant.t -> AccessGrant.t -> Prop)
    (rows : list AccessGrant.t) : list AccessGrant.t -> Prop :=
| unchanged : TableChange R rows rows
| saved (g g' : AccessGrant.t) :
    In g rows -> AccessGrant.id g' = AccessGrant.id g -> R g g' ->
    TableChange R rows (accessGrantRepository.update_rows g' rows)
| inserted (g : AccessGrant.t) :
    ~ In (AccessGrant.id g) (map AccessGrant.id rows) ->
    TableChange R rows (rows ++ [g])
| rewritten (f : AccessGrant.t -> AccessGrant.t) :
    (forall r, In r rows -> f r = r \/ (AccessGrant.id (f r) = AccessGrant.id r /\ R r (f r))) ->
    TableChange R rows (map f rows).

(** The move of a grant's status that one request can make. *)
Definition StatusMove (op : Operation) (s s' : AccessStatus) : Prop :=
  match op with
  | ApproveAccessRequest _ _ _ _ => s = PENDING /\ s' = APPROVED
  | DenyAccessRequest _ _ _ _ => s = PENDING /\ s' = DENIED
  | BulkRevokeAccess _ _ _ => s = APPROVED /\ s' = REVOKED
  | RevokeAccessGrant _ _ _ _ => s' = REVOKED
  | _ => False
  end.

(** The statuses a grant can come to from status [s]: PENDING leads
    anywhere, every status leads to REVOKED. *)
Definition StatusReaches (s s' : AccessStatus) : Prop :=
  s' = s \/ s = PENDING \/ s' = REVOKED.

(** The moves of the status named by the lifecycle
    PENDING -> {APPROVED, DENIED}, APPROVED -> REVOKED. *)
Definition LifecycleMove (s s' : AccessStatus) : Prop :=
  (s = PENDING /\ (s' = APPROVED \/ s' = DENIED)) \/ (s = APPROVED /\ s' = REVOKED).

(** The runtime that differs from [rt] only in whether the write of an
    audit row fails. *)
Definition setAuditWriteFails (fails : bool) (rt : Runtime) : Runtime :=
  mkRuntime (now rt) (uuidv4 rt) (random rt) (generatedId rt) (FRONTEND_URL rt)
    (toISOString rt) fails.

(** The write a request makes to a grant it saves, with the guard the
    grant has passed. *)
Definition GrantWrite (rt : Runtime) (op : Operation) (g g' : AccessGrant.t) : Prop :=
  match op with
  | SubmitAccessRequest _ _ => False
  | ApproveAccessRequest _ _ _ approveDto =>
    AccessGrant.status g = PENDING
    /\ now rt < ApproveAccessRequestDto.expiryDate approveDto
    /\ g' = DocumentService.approved rt approveDto g
  | DenyAccessRequest _ _ _ denyDto =>
    AccessGrant.status g = PENDING
    /\ g' = DocumentService.denied rt (DocumentService.optField DenyAccessRequestDto.reason denyDto) g
  | RevokeAccessGrant _ _ _ revokeDto =>
    g' = DocumentService.revoked rt
           (DocumentService.optField RevokeAccessGrantDto.message revokeDto) g
  | BulkRevokeAccess documentId _ bulkRevokeDto =>
    bulkSelected rt documentId g = true
    /\ g' = DocumentService.revoked rt
              (DocumentService.optField BulkRevokeAccessDto.message bulkRevokeDto) g
  | InitiateVerification _ => False
  | RequestOtp _ =>
    AccessGrant.canRequestOtp (now rt) g = true
    /\ g' = VerificationDownloadService.withNewOtp
              (VerificationDownloadService.generateOtp rt)
              (now rt + VerificationDownloadService.OTP_VALIDITY_MINUTES * 60 * 1000)
              (if AccessGrant.isVerified g && negb (AccessGrant.isSessionActive (now rt) g)
               then VerificationDownloadService.resetVerification g
               else g)
  | VerifyOtp dto =>
    AccessGrant.canVerifyOtp (now rt) g = true
    /\ ((eqOpt (AccessGrant.otp g) (VerifyOtpDto.otp dto) = false
         /\ g' = AccessGrant.set_otpAttempts (AccessGrant.otpAttempts g + 1) g)
        \/ (eqOpt (AccessGrant.otp g) (VerifyOtpDto.otp dto) = true
            /\ g' = VerificationDownloadService.verified rt (uuidv4 rt) g))
  | ValidateDownloadSession _ | GetDocumentForDownload _ | RecordDownload _ _ _ _ =>
    AccessGrant.isSessionActive (now rt) g = true
    /\ g' = AccessGrant.set_lastActivityAt (Some (now rt)) g
  end.

(** One request on the grants table: nothing, a save of a loaded row, the
    insertion of the submitted request, or a rewriting in place. *)
Inductive TableStep (rt : Runtime) (op : Operation) (rows : list AccessGrant.t)
    : list AccessGrant.t -> Prop :=
| step_unchanged : TableStep rt op rows rows
| step_saved (g g' : AccessGrant.t) :
    In g rows -> AccessGrant.id g' = AccessGrant.id g -> GrantWrite rt op g g' ->
    TableStep rt op rows (accessGrantRepository.update_rows g' rows)
| step_inserted (documentId : string) (submitDto : SubmitAccessRequestDto.t) :
    op = SubmitAccessRequest documentId submitDto ->
    List.find (ExternalRequestorService.isPendingRequest documentId
                 (SubmitAccessRequestDto.requestorEmail submitDto)) rows = None ->
    ~ In (generatedId rt) (map AccessGrant.id rows) ->
    TableStep rt op rows
      (rows ++ [ExternalRequestorService.create rt documentId submitDto (uuidv4 rt)])
| step_rewritten (f : AccessGrant.t -> AccessGrant.t) :
    (forall r, In r rows ->
               f r = r \/ (AccessGrant.id (f r) = AccessGrant.id r /\ GrantWrite rt op r (f r))) ->
    TableStep rt op rows (map f rows).

(** What the requests keep true of every grant: the attempt counter stays
    within its limit, a verified grant has its session fields, a PENDING
    grant has no expiry date and an APPROVED one has. *)
Definition GrantInvariant (g : AccessGrant.t) : Prop :=
  0 <= AccessGrant.otpAttempts g <= 3
  /\ (AccessGrant.isVerified g = true ->
      AccessGrant.verifiedAt g <> None
      /\ AccessGrant.downloadSessionToken g <> None
      /\ AccessGrant.lastActivityAt g <> None)
  /\ (AccessGrant.status g = PENDING -> AccessGrant.expiryDate g = None)
  /\ (AccessGrant.status g = APPROVED -> AccessGrant.expiryDate g <> None).

(** At most one PENDING request of a requestor on a document. *)
Definition AtMostOnePending (rows : list AccessGrant.t) : Prop :=
  forall documentId requestorEmail : string,
    (List.length
       (filter (ExternalRequestorService.isPendingRequest documentId requestorEmail) rows)
     <= 1)%nat.

(** The class of an outcome: a value returned, or the HTTP exception
    thrown. *)
Inductive OutcomeClass :=
| Returned | NotFound | BadRequest | Conflict | Forbidden | ServerError.

Definition outcome {A} (r : Result A) : OutcomeClass :=
  match r with
  | Ok _ => Returned
  | Throw (NotFoundException _) => NotFound
  | Throw (BadRequestException _) => BadRequest
  | Throw (ConflictException _) => Conflict
  | Throw (ForbiddenException _) => Forbidden
  | Throw (InternalServerError _) => ServerError
  end.

(** What the checks shared by the steps of verification answer for a
    request UUID and email: no such grant, a grant that is not active, a
    document that is not public, or admission. *)
Definition admission (rt : Runtime) (requestUUID requestorEmail : string) (db : Tables)
    : OutcomeClass :=
  match List.find (VerificationDownloadService.byTokenAndEmail requestUUID requestorEmail)
          (accessGrants db) with
  | None => NotFound
  | Some g =>
    if AccessGrant.isActive (now rt) g then
      match List.find (fun d => String.eqb (DocumentFile.id d) (AccessGrant.documentId g))
              (documents db) with
      | None => ServerError
      | Some d =>
        if VisibilityStatus_eqb (DocumentFile.visibilityStatus d) PUBLIC
        then Returned else Forbidden
      end
    else BadRequest
  end.

(** What the checks of a download session answer for a session token. *)
Definition sessionGate (rt : Runtime) (downloadSessionToken : string) (db : Tables)
    : OutcomeClass :=
  match List.find (VerificationDownloadService.bySessionToken downloadSessionToken)
          (accessGrants db) with
  | None => NotFound
  | Some g =>
    if AccessGrant.isSessionActive (now rt) g then
      match List.find (fun d => String.eqb (DocumentFile.id d) (AccessGrant.documentId g))
              (documents db) with
      | None => ServerError
      | Some d =>
        if VisibilityStatus_eqb (DocumentFile.visibilityStatus d) PUBLIC
        then Returned else Forbidden
      end
    else Forbidden
  end.

(** The grants table after a use of the session that returned: the grant
    of the session has its activity refreshed. *)
Definition sessionTouched (rt : Runtime) (downloadSessionToken : string) (db : Tables)
    : list AccessGrant.t :=
  match List.find (VerificationDownloadService.bySessionToken downloadSessionToken)
          (accessGrants db) with
  | None => accessGrants db
  | Some g =>
    accessGrantRepository.update_rows (AccessGrant.set_lastActivityAt (Some (now rt)) g)
      (accessGrants db)
  end.

(** A list in the order of [ORDER BY requestedAt DESC]. *)
Definition newestFirst {A} (requestedAt : A -> Date) (l : list A) : Prop :=
  StronglySorted (fun a b => requestedAt b <= requestedAt a) l.



(** The two roundings of the OTP expression give, for the draw [r], what
    the binary64 arithmetic of the kernel gives. *)
Definition roundsAsBinary64 (r : float) : bool :=
  Qeq_bool (Number.round (Number.valueOf r * inject_Z 900000))
    (Number.valueOf (r * 900000)%float)
  && Qeq_bool
       (Number.round (inject_Z 100000 + Number.round (Number.valueOf r * inject_Z 900000)))
       (Number.valueOf (100000 + r * 900000)%float).

(** Draws of [0, 1): the ends of the interval, draws spread over it, small
    and subnormal ones, and, last, four whose product and four whose sum
    lies halfway between two doubles. *)
Definition draws : list float :=
  [
   0x0.0p0; 0x1.6666666666666p-1; 0x1.999999999999ap-4; 0x1.3333333333333p-2;
   0x1.0000000000000p-2; 0x1.0000000000000p-1; 0x1.fffffffffffffp-1;
   0x1.ffffffffffffep-1; 0x1.fffffffffffffp-2; 0x1.0000000000001p-1;
   0x1.6666666666665p-1; 0x1.6666666666667p-1; 0x1.5555555555555p-2;
   0x1.5555555555555p-1; 0x1.c71c71c71c71cp-4; 0x1.f9add3739635fp-4;
   0x1.f9add3c0e56b8p-1; 0x1.ffffde7210be9p-1; 0x1.ffffde7210beap-1;
   0x1.0c6f7a0b5ed8dp-20; 0x1.27476ca61b882p-20; 0x1.2a42f961f79b9p-20;
   0x1.ad7f29abcaf48p-24; 0x1.79ca10c924223p-67; 0x1.56e1fc2f8f359p-997;
   0x1.0000000000000p-1022; 0x0.fffffffffffffp-1022; 0x0.012688b70e62bp-1022;
   0x0.0000000000001p-1022; 0x0.0000000000002p-1022; 0x0.00000000017b8p-1022;
   0x1.e2bed652281acp-2; 0x1.e2bed652281adp-2; 0x1.e2bed652281abp-2;
   0x1.0000000000000p-20; 0x1.0000000000000p-33; 0x1.8000000000000p-59;
   0x1.a34dc9b9b1325p-1; 0x1.59aff8ab48bf0p-2; 0x1.9e1844243ed52p-1;
   0x1.765b24cb7db52p-2; 0x1.83aefb7decc0cp-1; 0x1.79a83bae1c69ap-2;
   0x1.18d4ab581d9a0p-6; 0x1.66ea43b4a3ee2p-1; 0x1.379155b22b46cp-2;
   0x1.30477e6ba3ad7p-1; 0x1.ba9d51fcfb980p-1; 0x1.a0d1019915e22p-2;
   0x1.7f6c65bae2d26p-1; 0x1.5da134ca87fc2p-1; 0x1.58d04d0591b08p-4;
   0x1.ff1317412e708p-4; 0x1.9faf81fc32f50p-3; 0x1.b3e53a2f2b600p-9;
   0x1.330d078468070p-2; 0x1.a66144d14cf1ap-1; 0x1.9a372d48479f2p-2;
   0x1.a2f0835c9a8c4p-1; 0x1.d9625f290aba0p-2; 0x1.5ebb19f2e9ea4p-1;
   0x1.53bfbbaecde5bp-1; 0x1.a67c0bfb1cccap-2; 0x1.f05aaef7d9967p-1;
   0x1.fbf68d6fad8dbp-1; 0x1.b63173f20134cp-1; 0x1.c8d8b5fa5b0c0p-5;
   0x1.7e82df1f0742ap-1; 0x1.08ab3249172e8p-2; 0x1.1d8d4bda11ad6p-2;
   0x1.d3e7d8220557cp-3; 0x1.be4cb55f72bf4p-3; 0x1.356a22309e764p-3;
   0x1.b6ee3decbdaf0p-2; 0x1.c179afbec9a60p-5; 0x1.bac7ad1764460p-1;
   0x1.b415daa72870bp-1; 0x1.ef68c095e8540p-680; 0x1.eb0acd1773781p-833;
   0x1.8677ae407cdf0p-855; 0x1.6f1dbea394abap-905; 0x1.9435654c6c4b3p-124;
   0x1.211471dd257d5p-370; 0x1.fdab9af1ac6dap-129; 0x1.52369cc31d7b9p-597;
   0x1.8d139b6b81ec6p-668; 0x1.aae66cf1ee238p-26; 0x1.ac884559d7e79p-37;
   0x1.e644fcce69a10p-512; 0x1.70035ad18400ap-765; 0x1.0de9ec599fac7p-874;
   0x1.7562b2a57e600p-305; 0x1.da41dea70df2dp-155; 0x1.02e9b7c71f976p-541;
   0x1.3fab00286ececp-931; 0x1.3e6e943e94334p-278; 0x1.e868858b61718p-647;
   0x1.54dd333004000p-1; 0x1.54dd33300c000p-1; 0x1.54dd333014000p-1;
   0x1.54dd33301c000p-1; 0x1.8258f8330b965p-28; 0x1.67f0ae1b78732p-29;
   0x1.844c2ba2d4643p-27; 0x1.e9e8c12186031p-27
  ]%float.

(** ** Example data *)

Module Scenario.

Definition document : DocumentFile.t :=
  {| DocumentFile.id := "doc-1";
     DocumentFile.filename := "report.pdf";
     DocumentFile.storagePath := "storage/owner-1/report.pdf";
     DocumentFile.visibilityStatus := PUBLIC;
     DocumentFile.ownerId := "owner-1";
     DocumentFile.deletedAt := None |}.

(** A grant of alice@x.com on the document, before any OTP was requested. *)
Definition grant (id : string) (status : AccessStatus) (expiryDate : option Date)
    : AccessGrant.t :=
  {| AccessGrant.id := id;
     AccessGrant.documentId := "doc-1";
     AccessGrant.requestorEmail := "alice@x.com";
     AccessGrant.requestorName := Some "Alice";
     AccessGrant.requestorOrganization := None;
     AccessGrant.requestPurpose := "review";
     AccessGrant.accessToken := Some "7d9f3c1e-0000-4000-8000-000000000001";
     AccessGrant.status := status;
     AccessGrant.expiryDate := expiryDate;
     AccessGrant.denialReason := None;
     AccessGrant.approvalMessage := None;
     AccessGrant.revocationMessage := None;
     AccessGrant.actionCompletedAt := None;
     AccessGrant.otp := None;
     AccessGrant.otpExpiryDate := None;
     AccessGrant.otpAttempts := 0;
     AccessGrant.isVerified := false;
     AccessGrant.verifiedAt := None;
     AccessGrant.downloadSessionToken := None;
     AccessGrant.lastActivityAt := None;
     AccessGrant.requestedAt := 0 |}.

Definition token : string := "7d9f3c1e-0000-4000-8000-000000000001".
Definition email : string := "alice@x.com".
Definition session : string := "5b1a9e77-0000-4000-8000-000000000002".

(** The runtime of a request made at clock value [t]. *)
Definition runtime (t : Date) : Runtime :=
  {| now := t;
     uuidv4 := session;
     random := 1 # 4;
     generatedId := "grant-2";
     FRONTEND_URL := None;
     toISOString := fun _ => "2030-01-01T00:00:00.000Z";
     auditWriteFails := false |}.

Definition tables (grants : list AccessGrant.t) : Tables :=
  {| documents := [document]; accessGrants := grants; auditLogs := [] |}.

(** The grant with the OTP 123456, valid until clock value 900000. *)
Definition withOtp (g : AccessGrant.t) : AccessGrant.t :=
  AccessGrant.set_otpExpiryDate (Some 900000) (AccessGrant.set_otp (Some "123456") g).

(** The grant with a download session whose last activity was at [t]. *)
Definition withSession (t : option Date) (g : AccessGrant.t) : AccessGrant.t :=
  AccessGrant.set_lastActivityAt t
    (AccessGrant.set_downloadSessionToken (Some session)
       (AccessGrant.set_verifiedAt (Some 0) (AccessGrant.set_isVerified true g))).

Definition verifyDto (otp : string) : VerifyOtpDto.t :=
  {| VerifyOtpDto.requestUUID := token;
     VerifyOtpDto.requestorEmail := email;
     VerifyOtpDto.otp := otp |}.

End Scenario.

(** * Properties *)

(** ** The entity predicates *)

Lemma AccessStatus_eqb_eq (a b : AccessStatus) : AccessStatus_eqb a b = true <-> a = b.
Proof. destruct a, b; simpl; split; congruence. Qed.

Lemma AccessStatus_eqb_neq (a b : AccessStatus) : AccessStatus_eqb a b = false <-> a <> b.
Proof. destruct a, b; simpl; split; congruence. Qed.

Lemma inactiveMinutes_lt_60 (now last : Date) :
  AccessGrant.Qltb (AccessGrant.inactiveMinutes now last) (inject_Z 60) = true
  <-> now - last < 60 * 60 * 1000.
Proof.
  unfold AccessGrant.Qltb, AccessGrant.inactiveMinutes.
  rewrite negb_true_iff.
  destruct (Qle_bool (inject_Z 60) (inject_Z (now - last) / inject_Z (1000 * 60))) eqn:E.
  - apply Qle_bool_iff in E.
    unfold Qle, Qdiv, Qmult, Qinv, inject_Z in E. simpl in E.
    split; [discriminate | lia].
  - split; [intros _ | reflexivity].
    assert (N : ~ (inject_Z 60 <= inject_Z (now - last) / inject_Z (1000 * 60))%Q).
    { intro H. apply Qle_bool_iff in H. congruence. }
    unfold Qle, Qdiv, Qmult, Qinv, inject_Z in N. simpl in N. lia.
Qed.

Lemma isSessionActive_true (now : Date) (g : AccessGrant.t) :
  AccessGrant.isSessionActive now g = true
  <-> AccessGrant.isVerified g = true
      /\ AccessGrant.isExpired now g = false
      /\ (AccessGrant.lastActivityAt g = None
          \/ exists last, AccessGrant.lastActivityAt g = Some last
                          /\ now - last < 60 * 60 * 1000).
Proof.
  unfold AccessGrant.isSessionActive.
  destruct (AccessGrant.isVerified g); simpl.
  2: { split; [discriminate | intros [H _]; discriminate]. }
  destruct (AccessGrant.isExpired now g); simpl.
  { split; [discriminate | intros (_ & H & _); discriminate]. }
  destruct (AccessGrant.lastActivityAt g) as [last|].
  - rewrite inactiveMinutes_lt_60. split.
    + intros H. repeat split. right. exists last. split; [reflexivity | exact H].
    + intros (_ & _ & [H | (l & E & H)]); [discriminate | injection E as <-; exact H].
  - split; [intros _; repeat split; left; reflexivity | reflexivity].
Qed.

(** ** Rows and tables *)

Section Rows.

Import accessGrantRepository.

Lemma update_rows_ids (g : AccessGrant.t) (rows : list AccessGrant.t) :
  map AccessGrant.id (update_rows g rows) = map AccessGrant.id rows.
Proof.
  unfold update_rows. rewrite map_map. apply map_ext_in. intros r _.
  destruct (String.eqb (AccessGrant.id r) (AccessGrant.id g)) eqn:E; [|reflexivity].
  apply String.eqb_eq in E. congruence.
Qed.

(** The row a query finds is, after it was saved with the same key and still
    matching the query, the row the query finds again. *)
Lemma find_update_rows (p : AccessGrant.t -> bool) (rows : list AccessGrant.t)
    (g g' : AccessGrant.t) :
  List.find p rows = Some g ->
  p g' = true ->
  AccessGrant.id g' = AccessGrant.id g ->
  List.find p (update_rows g' rows) = Some g'.
Proof.
  intros F P I. induction rows as [|r rows IH]; simpl in *; [discriminate|].
  destruct (String.eqb (AccessGrant.id r) (AccessGrant.id g')) eqn:E.
  - rewrite P. reflexivity.
  - destruct (p r) eqn:Pr.
    + injection F as ->. rewrite I, String.eqb_refl in E. discriminate.
    + apply IH, F.
Qed.

(** Rows of a table with a primary key are determined by their key. *)
Lemma key_determines_row (rows : list AccessGrant.t) (a b : AccessGrant.t) :
  NoDup (map AccessGrant.id rows) ->
  In a rows -> In b rows -> AccessGrant.id a = AccessGrant.id b -> a = b.
Proof.
  induction rows as [|r rows IH]; simpl; [tauto|].
  intros N Ha Hb E. inversion N as [|? ? Nin N']; subst.
  destruct Ha as [-> | Ha], Hb as [-> | Hb]; try reflexivity.
  - exfalso. apply Nin. rewrite E. apply in_map, Hb.
  - exfalso. apply Nin. rewrite <- E. apply in_map, Ha.
  - apply IH; assumption.
Qed.

End Rows.

(** ** Running a service method *)

Ltac run :=
  cbv beta iota zeta delta
    [bind ret throw tryCatch respond
     documentRepository.findOne accessGrantRepository.findOne accessGrantRepository.find
     accessGrantRepository.save accessGrantRepository.insert auditLogRepository.save
     VerificationDownloadService.findAccessGrantByTokenAndEmail
     VerificationDownloadService.document_of].

(** ** approveAccessRequest *)

Lemma grantOfDocument_saved (accessGrantId documentId : string) (g g' : AccessGrant.t) :
  DocumentService.grantOfDocument accessGrantId documentId g = true ->
  AccessGrant.id g' = AccessGrant.id g ->
  AccessGrant.documentId g' = AccessGrant.documentId g ->
  DocumentService.grantOfDocument accessGrantId documentId g' = true.
Proof.
  unfold DocumentService.grantOfDocument. intros H -> ->. exact H.
Qed.

Section ApprovedGrant.

Variables (rt : Runtime) (approveDto : ApproveAccessRequestDto.t) (g : AccessGrant.t).

Let g' := DocumentService.approved rt approveDto g.

Lemma approved_id : AccessGrant.id g' = AccessGrant.id g.
Proof.
  unfold g', DocumentService.approved.
  destruct (truthy (ApproveAccessRequestDto.message approveDto)); reflexivity.
Qed.

Lemma approved_documentId : AccessGrant.documentId g' = AccessGrant.documentId g.
Proof.
  unfold g', DocumentService.approved.
  destruct (truthy (ApproveAccessRequestDto.message approveDto)); reflexivity.
Qed.

Lemma approved_status : AccessGrant.status g' = APPROVED.
Proof.
  unfold g', DocumentService.approved.
  destruct (truthy (ApproveAccessRequestDto.message approveDto)); reflexivity.
Qed.

Lemma approved_expiryDate :
  AccessGrant.expiryDate g' = Some (ApproveAccessRequestDto.expiryDate approveDto).
Proof.
  unfold g', DocumentService.approved.
  destruct (truthy (ApproveAccessRequestDto.message approveDto)); reflexivity.
Qed.

Lemma approved_approvalMessage :
  AccessGrant.approvalMessage g'
  = (if truthy (ApproveAccessRequestDto.message approveDto)
     then ApproveAccessRequestDto.message approveDto
     else AccessGrant.approvalMessage g).
Proof.
  unfold g', DocumentService.approved.
  destruct (truthy (ApproveAccessRequestDto.message approveDto)); reflexivity.
Qed.

Lemma approved_actionCompletedAt : AccessGrant.actionCompletedAt g' = Some (now rt).
Proof.
  unfold g', DocumentService.approved.
  destruct (truthy (ApproveAccessRequestDto.message approveDto)); reflexivity.
Qed.

Lemma approved_otpAttempts : AccessGrant.otpAttempts g' = AccessGrant.otpAttempts g.
Proof.
  unfold g', DocumentService.approved.
  destruct (truthy (ApproveAccessRequestDto.message approveDto)); reflexivity.
Qed.

End ApprovedGrant.

(** C7. With the document and the grant found, [approveAccessRequest]
    throws BadRequest when the grant is not PENDING and when the expiry
    date is not after the clock, both without writing; for a PENDING grant
    and a later expiry date it saves the grant as APPROVED with that expiry
    date, the message if one is given and [actionCompletedAt] at the clock,
    after which every further approval of this grant throws BadRequest. *)
Theorem approveAccessRequest_once_per_pending_grant
    (rt : Runtime) (db : Tables) (documentId accessGrantId ownerId : string)
    (approveDto : ApproveAccessRequestDto.t)
    (document : DocumentFile.t) (g : AccessGrant.t) :
  List.find (DocumentService.ownedDocument documentId ownerId) (documents db) = Some document ->
  List.find (DocumentService.grantOfDocument accessGrantId documentId) (accessGrants db)
    = Some g ->
  let call := DocumentService.approveAccessRequest rt documentId accessGrantId ownerId
                approveDto db in
  (AccessGrant.status g <> PENDING -> throwsBadRequest (fst call) /\ snd call = db)
  /\ (ApproveAccessRequestDto.expiryDate approveDto <= now rt ->
      throwsBadRequest (fst call) /\ snd call = db)
  /\ (AccessGrant.status g = PENDING ->
      now rt < ApproveAccessRequestDto.expiryDate approveDto ->
      exists g',
        call = (Ok (DocumentService.mapToAccessRequestResponseDto g' document),
                withAccessGrants (accessGrantRepository.update_rows g' (accessGrants db)) db)
        /\ g' = DocumentService.approved rt approveDto g
        /\ AccessGrant.status g' = APPROVED
        /\ AccessGrant.expiryDate g' = Some (ApproveAccessRequestDto.expiryDate approveDto)
        /\ AccessGrant.approvalMessage g'
           = (if truthy (ApproveAccessRequestDto.message approveDto)
              then ApproveAccessRequestDto.message approveDto
              else AccessGrant.approvalMessage g)
        /\ AccessGrant.actionCompletedAt g' = Some (now rt)
        /\ forall (rt' : Runtime) (approveDto' : ApproveAccessRequestDto.t),
             let again := DocumentService.approveAccessRequest rt' documentId accessGrantId
                            ownerId approveDto' (snd call) in
             throwsBadRequest (fst again) /\ snd again = snd call).
Proof.
  intros Hd Hg call.
  assert (NP : forall (rt0 : Runtime) (dto0 : ApproveAccessRequestDto.t) (db0 : Tables)
                      (g0 : AccessGrant.t),
             List.find (DocumentService.ownedDocument documentId ownerId) (documents db0)
               = Some document ->
             List.find (DocumentService.grantOfDocument accessGrantId documentId)
               (accessGrants db0) = Some g0 ->
             AccessGrant.status g0 <> PENDING ->
             let c := DocumentService.approveAccessRequest rt0 documentId accessGrantId
                        ownerId dto0 db0 in
             throwsBadRequest (fst c) /\ snd c = db0).
  { intros rt0 dto0 db0 g0 Hd0 Hg0 N. unfold DocumentService.approveAccessRequest. run.
    rewrite Hd0, Hg0. apply AccessStatus_eqb_neq in N. rewrite N. simpl.
    split; [eexists; reflexivity | reflexivity]. }
  split; [exact (NP rt approveDto db g Hd Hg)|]. split.
  - intros Le. destruct (AccessStatus_eqb (AccessGrant.status g) PENDING) eqn:S.
    + subst call. unfold DocumentService.approveAccessRequest. run.
      rewrite Hd, Hg, S. simpl. apply Z.leb_le in Le. rewrite Le.
      split; [eexists; reflexivity | reflexivity].
    + apply AccessStatus_eqb_neq in S. exact (NP rt approveDto db g Hd Hg S).
  - intros P Lt. exists (DocumentService.approved rt approveDto g).
    assert (C : call = (Ok (DocumentService.mapToAccessRequestResponseDto
                              (DocumentService.approved rt approveDto g) document),
                        withAccessGrants
                          (accessGrantRepository.update_rows
                             (DocumentService.approved rt approveDto g) (accessGrants db)) db)).
    { subst call. unfold DocumentService.approveAccessRequest. run.
      rewrite Hd, Hg, P. simpl. apply Z.leb_gt in Lt. rewrite Lt. reflexivity. }
    split; [exact C|]. split; [reflexivity|].
    rewrite approved_status, approved_expiryDate, approved_approvalMessage,
      approved_actionCompletedAt.
    do 4 (split; [reflexivity|]).
    intros rt' dto'. rewrite C. simpl.
    apply NP with (g0 := DocumentService.approved rt approveDto g).
    + exact Hd.
    + simpl. apply find_update_rows with (g := g).
      * exact Hg.
      * apply grantOfDocument_saved with (g := g).
        -- apply (find_some _ _ Hg).
        -- apply approved_id.
        -- apply approved_documentId.
      * apply approved_id.
    + rewrite approved_status. discriminate.
Qed.

Lemma approveAccessRequest_once_witness :
  let db := Scenario.tables [Scenario.grant "grant-1" PENDING None] in
  let approveDto := ApproveAccessRequestDto.mk 5000 (Some "approved for the review") in
  let call := DocumentService.approveAccessRequest (Scenario.runtime 1000) "doc-1" "grant-1"
                "owner-1" approveDto db in
  exists g',
    call = (Ok (DocumentService.mapToAccessRequestResponseDto g' Scenario.document),
            withAccessGrants (accessGrantRepository.update_rows g' (accessGrants db)) db)
    /\ AccessGrant.status g' = APPROVED
    /\ AccessGrant.expiryDate g' = Some 5000
    /\ throwsBadRequest
         (fst (DocumentService.approveAccessRequest (Scenario.runtime 2000) "doc-1" "grant-1"
                 "owner-1" approveDto (snd call))).
Proof.
  intros db approveDto call.
  destruct (proj2 (proj2 (approveAccessRequest_once_per_pending_grant
                            (Scenario.runtime 1000) db "doc-1" "grant-1" "owner-1" approveDto
                            Scenario.document (Scenario.grant "grant-1" PENDING None)
                            eq_refl eq_refl))
              eq_refl eq_refl)
    as (g' & C & _ & S & E & _ & _ & Again).
  exists g'. split; [exact C|]. split; [exact S|]. split; [exact E|].
  exact (proj1 (Again (Scenario.runtime 2000) approveDto)).
Defined.

(** ** submitAccessRequest *)

Lemma isPendingRequest_true (documentId requestorEmail : string) (g : AccessGrant.t) :
  ExternalRequestorService.isPendingRequest documentId requestorEmail g = true
  <-> AccessGrant.documentId g = documentId
      /\ AccessGrant.requestorEmail g = requestorEmail
      /\ AccessGrant.status g = PENDING.
Proof.
  unfold ExternalRequestorService.isPendingRequest.
  rewrite !andb_true_iff, !String.eqb_eq, AccessStatus_eqb_eq. tauto.
Qed.

Lemma existsb_id_false (i : string) (rows : list AccessGrant.t) :
  ~ In i (map AccessGrant.id rows) ->
  existsb (fun r => String.eqb (AccessGrant.id r) i) rows = false.
Proof.
  intros N. destruct (existsb _ rows) eqn:E; [|reflexivity].
  apply existsb_exists in E. destruct E as (r & I & E). apply String.eqb_eq in E.
  exfalso. apply N. rewrite <- E. apply in_map, I.
Qed.

(** C8. A submission against a document that is not public and undeleted
    throws NotFound. Against a public document it throws Conflict exactly
    when the table holds a PENDING grant of the same document and
    requestor email (grants of the pair in any other status do not count);
    without one, and the generated key being new, it appends a PENDING
    grant whose access token is the fresh UUID that the response returns. *)
Theorem submitAccessRequest_conflict_iff_pending
    (rt : Runtime) (db : Tables) (documentId : string) (submitDto : SubmitAccessRequestDto.t) :
  let call := ExternalRequestorService.submitAccessRequest rt documentId submitDto db in
  let email := SubmitAccessRequestDto.requestorEmail submitDto in
  (List.find (ExternalRequestorService.isPublicDocument documentId) (documents db) = None ->
   throwsNotFound (fst call) /\ snd call = db)
  /\ (forall document : DocumentFile.t,
      List.find (ExternalRequestorService.isPublicDocument documentId) (documents db)
        = Some document ->
      (throwsConflict (fst call)
       <-> exists g, In g (accessGrants db)
                     /\ AccessGrant.documentId g = documentId
                     /\ AccessGrant.requestorEmail g = email
                     /\ AccessGrant.status g = PENDING)
      /\ ((forall g, In g (accessGrants db) ->
                     AccessGrant.documentId g = documentId ->
                     AccessGrant.requestorEmail g = email ->
                     AccessGrant.status g <> PENDING) ->
          ~ In (generatedId rt) (map AccessGrant.id (accessGrants db)) ->
          exists (g' : AccessGrant.t) (r : AccessRequestSubmissionResponseDto.t),
            call = (Ok r, withAccessGrants (accessGrants db ++ [g']) db)
            /\ g' = ExternalRequestorService.create rt documentId submitDto (uuidv4 rt)
            /\ AccessGrant.status g' = PENDING
            /\ AccessGrant.accessToken g' = Some (uuidv4 rt)
            /\ AccessGrant.documentId g' = documentId
            /\ AccessGrant.requestorEmail g' = email
            /\ AccessRequestSubmissionResponseDto.requestUUID r = uuidv4 rt
            /\ AccessRequestSubmissionResponseDto.id r = AccessGrant.id g'
            /\ AccessRequestSubmissionResponseDto.status r = PENDING)).
Proof.
  intros call email. split.
  - intros Hd. subst call. unfold ExternalRequestorService.submitAccessRequest. run.
    rewrite Hd. simpl. split; [eexists; reflexivity | reflexivity].
  - intros document Hd. subst call. unfold ExternalRequestorService.submitAccessRequest. run.
    rewrite Hd. fold email.
    destruct (List.find (ExternalRequestorService.isPendingRequest documentId email)
                (accessGrants db)) as [p|] eqn:Hp.
    + apply find_some in Hp. destruct Hp as [Ip Pp]. apply isPendingRequest_true in Pp.
      simpl. split.
      * split; [intros _; exists p; tauto | intros _; eexists; reflexivity].
      * intros None_pending _. exfalso. destruct Pp as (D & E & S).
        exact (None_pending p Ip D E S).
    + split.
      * split.
        -- intros [m C]. destruct (existsb _ (accessGrants db)); simpl in C; discriminate.
        -- intros (g & I & D & E & S). exfalso.
           pose proof (find_none _ _ Hp g I) as F.
           assert (T : ExternalRequestorService.isPendingRequest documentId email g = true)
             by (apply isPendingRequest_true; tauto).
           congruence.
      * intros _ Fresh.
        change (AccessGrant.id
                  (ExternalRequestorService.create rt documentId submitDto (uuidv4 rt)))
          with (generatedId rt).
        rewrite (existsb_id_false _ _ Fresh).
        eexists. eexists. split; [reflexivity|]. repeat split.
Qed.

Lemma submitAccessRequest_conflict_witness :
  let db := Scenario.tables [Scenario.grant "grant-1" PENDING None] in
  let submitDto := SubmitAccessRequestDto.mk "alice@x.com" None None "second look" in
  List.find (ExternalRequestorService.isPublicDocument "doc-1") (documents db)
    = Some Scenario.document
  /\ throwsConflict
       (fst (ExternalRequestorService.submitAccessRequest (Scenario.runtime 1000) "doc-1"
               submitDto db)).
Proof.
  intros db submitDto. split; [reflexivity|].
  apply (proj1 (proj2 (submitAccessRequest_conflict_iff_pending (Scenario.runtime 1000) db
                         "doc-1" submitDto) Scenario.document eq_refl)).
  exists (Scenario.grant "grant-1" PENDING None).
  split; [left; reflexivity|]. repeat split.
Defined.

(** ** bulkRevokeAccess *)

Section RevokedGrant.

Variables (rt : Runtime) (message : option string) (g : AccessGrant.t).

Let g' := DocumentService.revoked rt message g.

Lemma revoked_id : AccessGrant.id g' = AccessGrant.id g.
Proof. unfold g', DocumentService.revoked. destruct (truthy message); reflexivity. Qed.

Lemma revoked_status : AccessGrant.status g' = REVOKED.
Proof. unfold g', DocumentService.revoked. destruct (truthy message); reflexivity. Qed.

Lemma revoked_actionCompletedAt : AccessGrant.actionCompletedAt g' = Some (now rt).
Proof. unfold g', DocumentService.revoked. destruct (truthy message); reflexivity. Qed.

Lemma revoked_revocationMessage :
  AccessGrant.revocationMessage g'
  = (if truthy message then message else AccessGrant.revocationMessage g).
Proof. unfold g', DocumentService.revoked. destruct (truthy message); reflexivity. Qed.

Lemma revoked_otpAttempts : AccessGrant.otpAttempts g' = AccessGrant.otpAttempts g.
Proof. unfold g', DocumentService.revoked. destruct (truthy message); reflexivity. Qed.

(** Revocation assigns three fields and nothing else. *)
Lemma revoked_assigns :
  g' = AccessGrant.set_actionCompletedAt (Some (now rt))
         (AccessGrant.set_revocationMessage
            (if truthy message then message else AccessGrant.revocationMessage g)
            (AccessGrant.set_status REVOKED g)).
Proof. unfold g', DocumentService.revoked. destruct (truthy message); reflexivity. Qed.

End RevokedGrant.

Section SaveEach.

Import accessGrantRepository.

Variable f : AccessGrant.t -> AccessGrant.t.
Hypothesis f_id : forall g, AccessGrant.id (f g) = AccessGrant.id g.

Lemma forEach_save (gs : list AccessGrant.t) (db : Tables) :
  forEach gs (fun grant => bind (save (f grant)) (fun _ => ret tt)) db
  = (Ok tt,
     withAccessGrants (fold_left (fun acc g => update_rows (f g) acc) gs (accessGrants db)) db).
Proof.
  revert db. induction gs as [|g gs IH]; intros db; simpl.
  - destruct db; reflexivity.
  - unfold bind at 1. unfold bind at 1. unfold save at 1. unfold ret at 1.
    rewrite IH. reflexivity.
Qed.

Lemma fold_update_rows (gs rows : list AccessGrant.t) :
  fold_left (fun acc g => update_rows (f g) acc) gs rows = map (savedRow f gs) rows.
Proof.
  revert rows. induction gs as [|g gs IH]; intros rows; simpl.
  - unfold savedRow. simpl. symmetry. apply map_id.
  - rewrite IH. unfold update_rows. rewrite map_map. reflexivity.
Qed.

Variable rows : list AccessGrant.t.
Hypothesis primary_key : NoDup (map AccessGrant.id rows).

Lemma savedRow_fixed (gs : list AccessGrant.t) (r : AccessGrant.t) :
  (forall g, In g gs -> In g rows) -> In r rows ->
  savedRow f gs (f r) = f r.
Proof.
  intros Sub Ir. induction gs as [|g gs IH]; [reflexivity|].
  unfold savedRow in *. simpl.
  destruct (String.eqb (AccessGrant.id (f r)) (AccessGrant.id (f g))) eqn:E.
  - apply String.eqb_eq in E. rewrite !f_id in E.
    assert (r = g) as <-
      by (apply (key_determines_row rows); auto; apply Sub; left; reflexivity).
    apply IH. intros g' I. apply Sub. right. exact I.
  - apply IH. intros g' I. apply Sub. right. exact I.
Qed.

Lemma savedRow_spec (gs : list AccessGrant.t) (r : AccessGrant.t) :
  (forall g, In g gs -> In g rows) -> In r rows ->
  (In r gs -> savedRow f gs r = f r) /\ (~ In r gs -> savedRow f gs r = r).
Proof.
  intros Sub Ir. induction gs as [|g gs IH].
  - split; [intros [] | reflexivity].
  - assert (Sub' : forall g', In g' gs -> In g' rows) by (intros g' I; apply Sub; right; exact I).
    specialize (IH Sub'). unfold savedRow in *. simpl.
    destruct (String.eqb (AccessGrant.id r) (AccessGrant.id (f g))) eqn:E.
    + apply String.eqb_eq in E. rewrite f_id in E.
      assert (r = g) as <-
        by (apply (key_determines_row rows); auto; apply Sub; left; reflexivity).
      split.
      * intros _. apply (savedRow_fixed gs r Sub' Ir).
      * intros N. exfalso. apply N. left. reflexivity.
    + assert (g <> r).
      { intros ->. rewrite f_id, String.eqb_refl in E. discriminate. }
      split.
      * intros [-> | I]; [congruence | apply IH, I].
      * intros N. apply IH. intros I. apply N. right. exact I.
Qed.

(** Saving [f g] for every selected row of the table rewrites exactly the
    selected rows. *)
Lemma save_selected (sel : AccessGrant.t -> bool) :
  fold_left (fun acc g => update_rows (f g) acc) (filter sel rows) rows
  = map (fun r => if sel r then f r else r) rows.
Proof.
  rewrite fold_update_rows. apply map_ext_in. intros r Ir.
  destruct (savedRow_spec (filter sel rows) r) as [Y N]; auto.
  { intros g I. apply filter_In in I. tauto. }
  destruct (sel r) eqn:S.
  - apply Y. apply filter_In. tauto.
  - apply N. intros I. apply filter_In in I. destruct I; congruence.
Qed.

End SaveEach.

Lemma filter_filter {A} (p q : A -> bool) (l : list A) :
  filter q (filter p l) = filter (fun a => p a && q a) l.
Proof.
  induction l as [|a l IH]; simpl; [reflexivity|].
  destruct (p a); simpl; [destruct (q a)|]; rewrite IH; reflexivity.
Qed.

Lemma bulkRevokeAccess_rows
    (rt : Runtime) (db : Tables) (documentId ownerId : string)
    (bulkRevokeDto : option BulkRevokeAccessDto.t) (document : DocumentFile.t) :
  NoDup (map AccessGrant.id (accessGrants db)) ->
  List.find (DocumentService.ownedDocument documentId ownerId) (documents db) = Some document ->
  DocumentService.bulkRevokeAccess rt documentId ownerId bulkRevokeDto db
  = (Ok tt,
     withAccessGrants
       (map (fun g => if bulkSelected rt documentId g
                      then DocumentService.revoked rt
                             (DocumentService.optField BulkRevokeAccessDto.message bulkRevokeDto) g
                      else g)
            (accessGrants db)) db).
Proof.
  intros N Hd. unfold DocumentService.bulkRevokeAccess. run. rewrite Hd.
  rewrite filter_filter.
  rewrite (forEach_save (DocumentService.revoked rt
             (DocumentService.optField BulkRevokeAccessDto.message bulkRevokeDto))).
  rewrite (save_selected _ (revoked_id rt _) (accessGrants db) N).
  reflexivity.
Qed.

(** C6. For a document of the owner, [bulkRevokeAccess] rewrites the
    grants table row by row: a grant of the document that is APPROVED and
    not expired becomes REVOKED, with [actionCompletedAt] at the clock and
    the revocation message if one is given; every other row, in particular
    an APPROVED grant that has expired and any PENDING, DENIED or REVOKED
    grant, is the row it was. *)
Theorem bulkRevokeAccess_revokes_unexpired_approved
    (rt : Runtime) (db : Tables) (documentId ownerId : string)
    (bulkRevokeDto : option BulkRevokeAccessDto.t) (document : DocumentFile.t) :
  NoDup (map AccessGrant.id (accessGrants db)) ->
  List.find (DocumentService.ownedDocument documentId ownerId) (documents db) = Some document ->
  let message := DocumentService.optField BulkRevokeAccessDto.message bulkRevokeDto in
  let after := snd (DocumentService.bulkRevokeAccess rt documentId ownerId bulkRevokeDto db) in
  DocumentService.bulkRevokeAccess rt documentId ownerId bulkRevokeDto db
  = (Ok tt,
     withAccessGrants
       (map (fun g => if bulkSelected rt documentId g
                      then DocumentService.revoked rt message g else g)
            (accessGrants db)) db)
  /\ forall (k : nat) (g : AccessGrant.t),
       nth_error (accessGrants db) k = Some g ->
       (AccessGrant.documentId g = documentId ->
        AccessGrant.status g = APPROVED ->
        AccessGrant.isExpired (now rt) g = false ->
        exists g', nth_error (accessGrants after) k = Some g'
                   /\ g' = DocumentService.revoked rt message g
                   /\ AccessGrant.status g' = REVOKED
                   /\ AccessGrant.actionCompletedAt g' = Some (now rt)
                   /\ AccessGrant.revocationMessage g'
                      = (if truthy message then message else AccessGrant.revocationMessage g))
       /\ (AccessGrant.isExpired (now rt) g = true ->
           nth_error (accessGrants after) k = Some g /\ AccessGrant.status g = APPROVED)
       /\ (AccessGrant.status g <> APPROVED -> nth_error (accessGrants after) k = Some g)
       /\ (AccessGrant.documentId g <> documentId -> nth_error (accessGrants after) k = Some g).
Proof.
  intros N Hd message after.
  pose proof (bulkRevokeAccess_rows rt db documentId ownerId bulkRevokeDto document N Hd) as C.
  fold message in C.
  split; [exact C|].
  intros k g K. subst after. rewrite C. simpl.
  rewrite nth_error_map, K. simpl. unfold bulkSelected, DocumentService.approvedGrantOfDocument.
  repeat split.
  - intros D S E. rewrite D, String.eqb_refl, S, E. simpl.
    eexists. split; [reflexivity|]. split; [reflexivity|].
    rewrite revoked_status, revoked_actionCompletedAt, revoked_revocationMessage. auto.
  - rewrite H, andb_false_r. reflexivity.
  - unfold AccessGrant.isExpired in H.
    destruct (AccessStatus_eqb (AccessGrant.status g) APPROVED) eqn:S; [|discriminate].
    apply AccessStatus_eqb_eq, S.
  - intros S. apply AccessStatus_eqb_neq in S. rewrite S, andb_false_r. reflexivity.
  - intros D. apply String.eqb_neq in D. rewrite D. reflexivity.
Qed.

Lemma bulkRevokeAccess_witness :
  let unexpired := Scenario.grant "grant-1" APPROVED (Some 5000) in
  let expired := Scenario.grant "grant-2" APPROVED (Some 500) in
  let db := Scenario.tables [unexpired; expired] in
  let rt := Scenario.runtime 1000 in
  NoDup (map AccessGrant.id (accessGrants db))
  /\ DocumentService.bulkRevokeAccess rt "doc-1" "owner-1" None db
     = (Ok tt,
        withAccessGrants
          (map (fun g => if bulkSelected rt "doc-1" g
                         then DocumentService.revoked rt None g else g)
               (accessGrants db)) db)
  /\ map AccessGrant.status
       (accessGrants (snd (DocumentService.bulkRevokeAccess rt "doc-1" "owner-1" None db)))
     = [REVOKED; APPROVED].
Proof.
  intros unexpired expired db rt.
  assert (N : NoDup (map AccessGrant.id (accessGrants db))).
  { constructor; [simpl; intros [H | []]; discriminate|].
    constructor; [intros [] | constructor]. }
  split; [exact N|].
  pose proof (proj1 (bulkRevokeAccess_revokes_unexpired_approved rt db "doc-1" "owner-1" None
                       Scenario.document N eq_refl)) as C.
  split; [exact C|]. rewrite C. reflexivity.
Defined.

(** ** Audit rows are written on a best-effort basis *)

Lemma createAuditLog_ok (rt : Runtime) (accessGrant : AccessGrant.t) (action : DownloadAction)
    (details : string) (ipAddress userAgent : option string) (bytesDownloaded : option Z)
    (db : Tables) :
  exists logs,
    VerificationDownloadService.createAuditLog rt accessGrant action details ipAddress
      userAgent bytesDownloaded db
    = (Ok tt, withAuditLogs logs db).
Proof.
  unfold VerificationDownloadService.createAuditLog. run.
  destruct (auditWriteFails rt).
  - exists (auditLogs db). destruct db; reflexivity.
  - eexists. reflexivity.
Qed.

Ltac audit :=
  match goal with
  | |- context [VerificationDownloadService.createAuditLog ?rt ?g ?a ?d ?i ?u ?b ?db] =>
    let logs := fresh "logs" in
    let E := fresh "E" in
    destruct (createAuditLog_ok rt g a d i u b db) as [logs E]; rewrite E; clear E;
    cbv beta iota
  end.

(** ** verifyOtp *)

Section VerifyOtp.

Import VerificationDownloadService.

Variables (rt : Runtime) (db : Tables) (dto : VerifyOtpDto.t) (g : AccessGrant.t).

Hypothesis grant_found :
  List.find (byTokenAndEmail (VerifyOtpDto.requestUUID dto) (VerifyOtpDto.requestorEmail dto))
    (accessGrants db) = Some g.

Lemma canVerifyOtp_locked :
  3 <= AccessGrant.otpAttempts g -> AccessGrant.canVerifyOtp (now rt) g = false.
Proof.
  intros L. unfold AccessGrant.canVerifyOtp.
  destruct (negb (truthy (AccessGrant.otp g))); [reflexivity|].
  destruct (AccessGrant.isOtpExpired (now rt) g); [reflexivity|].
  apply Z.geb_le in L. rewrite L. reflexivity.
Qed.

Lemma verifyOtp_locked :
  3 <= AccessGrant.otpAttempts g ->
  fst (verifyOtp rt dto db)
  = Throw (ConflictException "Too many incorrect attempts. Please request a new OTP.")
  /\ accessGrants (snd (verifyOtp rt dto db)) = accessGrants db.
Proof.
  intros L. unfold verifyOtp. run. rewrite grant_found, (canVerifyOtp_locked L).
  cbv beta iota delta [negb]. unfold OTP_MAX_ATTEMPTS.
  apply Z.geb_le in L. rewrite L. audit. split; reflexivity.
Qed.

Lemma verifyOtp_wrong :
  AccessGrant.canVerifyOtp (now rt) g = true ->
  eqOpt (AccessGrant.otp g) (VerifyOtpDto.otp dto) = false ->
  fst (verifyOtp rt dto db)
  = Throw (BadRequestException
             ("Invalid OTP. " ++ toString (3 - (AccessGrant.otpAttempts g + 1))
              ++ " attempts remaining.")%string)
  /\ accessGrants (snd (verifyOtp rt dto db))
     = accessGrantRepository.update_rows
         (AccessGrant.set_otpAttempts (AccessGrant.otpAttempts g + 1) g) (accessGrants db).
Proof.
  intros V W. unfold verifyOtp. run. rewrite grant_found, V, W.
  cbv beta iota delta [negb]. audit. split; reflexivity.
Qed.

Lemma verifyOtp_correct :
  AccessGrant.canVerifyOtp (now rt) g = true ->
  eqOpt (AccessGrant.otp g) (VerifyOtpDto.otp dto) = true ->
  fst (verifyOtp rt dto db)
  = Ok {| VerifyOtpResponseDto.success := true;
          VerifyOtpResponseDto.message :=
            "OTP verified successfully. You can now download your document.";
          VerifyOtpResponseDto.downloadSessionToken := uuidv4 rt;
          VerifyOtpResponseDto.expiresIn := 3600 |}
  /\ accessGrants (snd (verifyOtp rt dto db))
     = accessGrantRepository.update_rows (verified rt (uuidv4 rt) g) (accessGrants db).
Proof.
  intros V W. unfold verifyOtp. run. rewrite grant_found, V, W.
  cbv beta iota delta [negb]. audit. split; reflexivity.
Qed.

End VerifyOtp.

(** ** Every request changes the grants table row by row *)

Section TableChanges.

Variable R : AccessGrant.t -> AccessGrant.t -> Prop.

Lemma TableChange_rows (rows rows' : list AccessGrant.t) :
  NoDup (map AccessGrant.id rows) ->
  TableChange R rows rows' ->
  NoDup (map AccessGrant.id rows')
  /\ forall (k : nat) (g : AccessGrant.t),
       nth_error rows k = Some g ->
       exists g', nth_error rows' k = Some g'
                  /\ AccessGrant.id g' = AccessGrant.id g
                  /\ (g' = g \/ R g g').
Proof.
  intros N C. destruct C as [|g0 g0' I E Rg|g0 Fresh|f Hf].
  - split; [exact N|]. intros k g K. exists g. auto.
  - split; [rewrite update_rows_ids; exact N|].
    intros k g K. unfold accessGrantRepository.update_rows.
    rewrite nth_error_map, K. simpl.
    destruct (String.eqb (AccessGrant.id g) (AccessGrant.id g0')) eqn:Q.
    + apply String.eqb_eq in Q. exists g0'. split; [reflexivity|]. split; [congruence|].
      right. assert (g = g0) as ->; [|exact Rg].
      apply (key_determines_row rows); auto; [apply (nth_error_In _ _ K) | congruence].
    + exists g. auto.
  - split.
    + rewrite map_app. simpl. apply NoDup_app; auto.
      * constructor; [intros [] | constructor].
      * intros i I [<- | []]. exact (Fresh I).
    + intros k g K. exists g. split; [|auto].
      rewrite nth_error_app1; [exact K|]. apply nth_error_Some. congruence.
  - assert (Ids : map AccessGrant.id (map f rows) = map AccessGrant.id rows).
    { rewrite map_map. apply map_ext_in. intros r I.
      destruct (Hf r I) as [-> | [E _]]; auto. }
    split; [rewrite Ids; exact N|].
    intros k g K. rewrite nth_error_map, K. simpl. exists (f g).
    split; [reflexivity|].
    destruct (Hf g (nth_error_In _ _ K)) as [E | [E Rg]].
    + rewrite E. auto.
    + auto.
Qed.

End TableChanges.

Ltac split_cases :=
  repeat first
    [ audit
    | match goal with
      | |- context [match ?x with _ => _ end] =>
        lazymatch x with
        | context [match _ with _ => _ end] => fail
        | _ => destruct x eqn:?
        end
      end ].

Lemma existsb_id_fresh (i : string) (rows : list AccessGrant.t) :
  existsb (fun r => String.eqb (AccessGrant.id r) i) rows = false ->
  ~ In i (map AccessGrant.id rows).
Proof.
  intros E I. apply in_map_iff in I. destruct I as (r & <- & I).
  assert (T : existsb (fun r0 => String.eqb (AccessGrant.id r0) (AccessGrant.id r)) rows = true).
  { apply existsb_exists. exists r. split; [exact I | apply String.eqb_refl]. }
  congruence.
Qed.

Ltac table_leaf :=
  cbn [snd fst accessGrants withAccessGrants withAuditLogs documents auditLogs];
  first
    [ apply unchanged
    | apply inserted; apply existsb_id_fresh; assumption
    | match goal with
      | H : List.find _ (accessGrants _) = Some ?g
        |- TableChange _ _ (accessGrantRepository.update_rows ?g' _) =>
        apply (saved _ _ g g'); [exact (proj1 (find_some _ _ H)) | | ]
      end ].

Section DeniedGrant.

Variables (rt : Runtime) (reason : option string) (g : AccessGrant.t).

Let g' := DocumentService.denied rt reason g.

Lemma denied_id : AccessGrant.id g' = AccessGrant.id g.
Proof. unfold g', DocumentService.denied. destruct (truthy reason); reflexivity. Qed.

Lemma denied_status : AccessGrant.status g' = DENIED.
Proof. unfold g', DocumentService.denied. destruct (truthy reason); reflexivity. Qed.

Lemma denied_otpAttempts : AccessGrant.otpAttempts g' = AccessGrant.otpAttempts g.
Proof. unfold g', DocumentService.denied. destruct (truthy reason); reflexivity. Qed.

End DeniedGrant.

Ltac status_known :=
  repeat match goal with
         | H : negb (AccessStatus_eqb _ _) = false |- _ =>
           apply negb_false_iff, AccessStatus_eqb_eq in H
         end.

Lemma perform_TableChange (rt : Runtime) (op : Operation) (db : Tables) :
  NoDup (map AccessGrant.id (accessGrants db)) ->
  TableChange (RowUpdate rt op) (accessGrants db) (accessGrants (snd (perform rt op db))).
Proof.
  intros N. destruct op; unfold perform.
  - unfold ExternalRequestorService.submitAccessRequest. run. split_cases; table_leaf.
  - unfold DocumentService.approveAccessRequest. run. split_cases; table_leaf.
    + apply approved_id.
    + status_known. split; [assumption | reflexivity].
  - unfold DocumentService.denyAccessRequest. run. split_cases; table_leaf.
    + apply denied_id.
    + status_known. split; [assumption | reflexivity].
  - unfold DocumentService.revokeAccessGrant. run. split_cases; table_leaf.
    + apply revoked_id.
    + reflexivity.
  - destruct (List.find (DocumentService.ownedDocument documentId ownerId) (documents db))
      as [document|] eqn:Hd.
    + unfold respond, bind.
      rewrite (bulkRevokeAccess_rows rt db documentId ownerId bulkRevokeDto document N Hd).
      cbn [snd fst accessGrants withAccessGrants ret]. apply rewritten. intros r _.
      destruct (bulkSelected rt documentId r) eqn:S; [right | left; reflexivity].
      split; [apply revoked_id|]. split; [|reflexivity].
      unfold bulkSelected, DocumentService.approvedGrantOfDocument in S.
      apply andb_true_iff in S. destruct S as [S _].
      apply andb_true_iff in S. destruct S as [_ S]. apply AccessStatus_eqb_eq, S.
    + unfold DocumentService.bulkRevokeAccess. run. rewrite Hd. table_leaf.
  - unfold VerificationDownloadService.initiateVerification. run. split_cases; table_leaf.
  - unfold VerificationDownloadService.requestOtp. run. split_cases; table_leaf.
    all: try reflexivity.
    + eexists. split; [right; reflexivity | reflexivity].
    + eexists. split; [left; reflexivity | reflexivity].
  - unfold VerificationDownloadService.verifyOtp. run. split_cases; table_leaf.
    all: try reflexivity.
    + left. reflexivity.
    + right. reflexivity.
  - unfold VerificationDownloadService.validateDownloadSession. run. split_cases; table_leaf.
    all: reflexivity.
  - unfold VerificationDownloadService.getDocumentForDownload. run. split_cases; table_leaf.
    all: reflexivity.
  - unfold VerificationDownloadService.recordDownload. run. split_cases; table_leaf.
    all: reflexivity.
Qed.

Lemma perform_rows (rt : Runtime) (op : Operation) (db : Tables) :
  NoDup (map AccessGrant.id (accessGrants db)) ->
  NoDup (map AccessGrant.id (accessGrants (snd (perform rt op db))))
  /\ forall (k : nat) (g : AccessGrant.t),
       nth_error (accessGrants db) k = Some g ->
       exists g', nth_error (accessGrants (snd (perform rt op db))) k = Some g'
                  /\ AccessGrant.id g' = AccessGrant.id g
                  /\ (g' = g \/ RowUpdate rt op g g').
Proof.
  intros N. apply TableChange_rows; [exact N | apply perform_TableChange, N].
Qed.

Lemma performAll_primary_key (calls : list (Runtime * Operation)) (db : Tables) :
  NoDup (map AccessGrant.id (accessGrants db)) ->
  NoDup (map AccessGrant.id (accessGrants (performAll calls db))).
Proof.
  revert db. induction calls as [|[rt op] calls IH]; intros db N; simpl; [exact N|].
  apply IH, perform_rows, N.
Qed.

(** ** The status of a grant *)

Lemma RowUpdate_status (rt : Runtime) (op : Operation) (g g' : AccessGrant.t) :
  RowUpdate rt op g g' ->
  AccessGrant.status g' = AccessGrant.status g
  \/ StatusMove op (AccessGrant.status g) (AccessGrant.status g').
Proof.
  destruct op; simpl; intros U.
  - destruct U.
  - destruct U as [P ->]. right. rewrite approved_status. auto.
  - destruct U as [P ->]. right. rewrite denied_status. auto.
  - subst g'. right. apply revoked_status.
  - destruct U as [P ->]. right. rewrite revoked_status. auto.
  - destruct U.
  - destruct U as (g0 & [-> | ->] & ->); left; reflexivity.
  - destruct U as [-> | ->]; left; reflexivity.
  - subst g'. left. reflexivity.
  - subst g'. left. reflexivity.
  - subst g'. left. reflexivity.
Qed.

Lemma StatusMove_reaches (op : Operation) (s s' : AccessStatus) :
  StatusMove op s s' -> StatusReaches s s'.
Proof.
  unfold StatusReaches. destruct op; simpl; try tauto.
Qed.

Lemma StatusReaches_trans (a b c : AccessStatus) :
  StatusReaches a b -> StatusReaches b c -> StatusReaches a c.
Proof.
  unfold StatusReaches. destruct a, b, c; intuition congruence.
Qed.

Lemma perform_status (rt : Runtime) (op : Operation) (db : Tables) (k : nat)
    (g : AccessGrant.t) :
  NoDup (map AccessGrant.id (accessGrants db)) ->
  nth_error (accessGrants db) k = Some g ->
  exists g', nth_error (accessGrants (snd (perform rt op db))) k = Some g'
             /\ AccessGrant.id g' = AccessGrant.id g
             /\ (AccessGrant.status g' = AccessGrant.status g
                 \/ StatusMove op (AccessGrant.status g) (AccessGrant.status g')).
Proof.
  intros N K. destruct (perform_rows rt op db N) as [_ H].
  destruct (H k g K) as (g' & K' & I & [-> | U]).
  - exists g. auto.
  - exists g'. split; [exact K'|]. split; [exact I|]. apply (RowUpdate_status rt), U.
Qed.

Lemma performAll_status (calls : list (Runtime * Operation)) (db : Tables) (k : nat)
    (g : AccessGrant.t) :
  NoDup (map AccessGrant.id (accessGrants db)) ->
  nth_error (accessGrants db) k = Some g ->
  exists g', nth_error (accessGrants (performAll calls db)) k = Some g'
             /\ AccessGrant.id g' = AccessGrant.id g
             /\ StatusReaches (AccessGrant.status g) (AccessGrant.status g').
Proof.
  revert db g. induction calls as [|[rt op] calls IH]; intros db g N K; simpl.
  - exists g. unfold StatusReaches. auto.
  - destruct (perform_status rt op db k g N K) as (g1 & K1 & I1 & S1).
    destruct (IH _ g1 (proj1 (perform_rows rt op db N)) K1) as (g' & K' & I' & S').
    exists g'. split; [exact K'|]. split; [congruence|].
    apply StatusReaches_trans with (b := AccessGrant.status g1); [|exact S'].
    destruct S1 as [E | M]; [left; exact E | apply (StatusMove_reaches op), M].
Qed.

(** C1, as stated, fails: [revokeAccessGrant] has no guard on the status,
    so it takes the DENIED grant of this table to REVOKED, a move that is
    not on the lifecycle and that leaves DENIED. *)
Lemma revokeAccessGrant_moves_denied_grant :
  let db := Scenario.tables [Scenario.grant "grant-1" DENIED None] in
  let db' := snd (perform (Scenario.runtime 1000)
                    (RevokeAccessGrant "doc-1" "grant-1" "owner-1" None) db) in
  map AccessGrant.status (accessGrants db) = [DENIED]
  /\ map AccessGrant.status (accessGrants db') = [REVOKED]
  /\ ~ LifecycleMove DENIED REVOKED.
Proof.
  split; [reflexivity|]. split; [reflexivity|].
  unfold LifecycleMove. intros [[E _] | [E _]]; discriminate.
Qed.

(** C1, amended. In a grants table with a primary key, along every
    sequence of requests a grant keeps its row and its status comes to a
    status that [StatusReaches] allows; one request leaves the status as it
    is or moves it by [StatusMove]: approval PENDING -> APPROVED, denial
    PENDING -> DENIED, bulk revocation APPROVED -> REVOKED, and
    [revokeAccessGrant] to REVOKED from whatever status the grant has. Each
    move other than that of [revokeAccessGrant] is on the lifecycle, and no
    request moves a grant out of REVOKED. *)
Theorem status_moves_forward_and_revoked_is_final
    (calls : list (Runtime * Operation)) (db : Tables) :
  NoDup (map AccessGrant.id (accessGrants db)) ->
  let reached := performAll calls db in
  (forall (k : nat) (g : AccessGrant.t),
      nth_error (accessGrants db) k = Some g ->
      exists g', nth_error (accessGrants reached) k = Some g'
                 /\ AccessGrant.id g' = AccessGrant.id g
                 /\ StatusReaches (AccessGrant.status g) (AccessGrant.status g'))
  /\ (forall (rt : Runtime) (op : Operation) (k : nat) (g : AccessGrant.t),
      nth_error (accessGrants reached) k = Some g ->
      exists g', nth_error (accessGrants (snd (perform rt op reached))) k = Some g'
                 /\ AccessGrant.id g' = AccessGrant.id g
                 /\ (AccessGrant.status g' = AccessGrant.status g
                     \/ StatusMove op (AccessGrant.status g) (AccessGrant.status g'))
                 /\ ((forall d i o m, op <> RevokeAccessGrant d i o m) ->
                     AccessGrant.status g' = AccessGrant.status g
                     \/ LifecycleMove (AccessGrant.status g) (AccessGrant.status g'))
                 /\ (AccessGrant.status g = REVOKED -> AccessGrant.status g' = REVOKED)).
Proof.
  intros N reached. split.
  - intros k g K. apply performAll_status; assumption.
  - intros rt op k g K.
    destruct (perform_status rt op reached k g (performAll_primary_key calls db N) K)
      as (g' & K' & I & S).
    exists g'. split; [exact K'|]. split; [exact I|]. split; [exact S|]. split.
    + intros NR. destruct S as [E | M]; [left; exact E|]. right.
      unfold LifecycleMove. destruct op; simpl in M; try tauto.
      exfalso. exact (NR _ _ _ _ eq_refl).
    + intros Rv. destruct S as [E | M]; [congruence|].
      destruct op; simpl in M; try tauto; destruct M; congruence.
Qed.

Lemma status_moves_forward_witness :
  let db := Scenario.tables [Scenario.grant "grant-1" PENDING None] in
  let calls :=
    [(Scenario.runtime 1000,
      ApproveAccessRequest "doc-1" "grant-1" "owner-1"
        (ApproveAccessRequestDto.mk 5000 None));
     (Scenario.runtime 2000, RevokeAccessGrant "doc-1" "grant-1" "owner-1" None)] in
  NoDup (map AccessGrant.id (accessGrants db))
  /\ exists g', nth_error (accessGrants (performAll calls db)) 0 = Some g'
                /\ AccessGrant.id g' = "grant-1"
                /\ StatusReaches PENDING (AccessGrant.status g').
Proof.
  intros db calls.
  assert (N : NoDup (map AccessGrant.id (accessGrants db))).
  { constructor; [intros [] | constructor]. }
  split; [exact N|].
  exact (proj1 (status_moves_forward_and_revoked_is_final calls db N) 0%nat
           (Scenario.grant "grant-1" PENDING None) eq_refl).
Defined.

(** ** The download session *)

(** C2, as stated, fails: this grant is verified and not expired and has
    no [lastActivityAt], and [isSessionActive] returns true for it, so the
    session is active without a recorded activity. *)
Lemma isSessionActive_without_recorded_activity :
  let g := Scenario.withSession None (Scenario.grant "grant-1" APPROVED (Some 5000)) in
  AccessGrant.isVerified g = true
  /\ AccessGrant.isExpired 1000 g = false
  /\ AccessGrant.lastActivityAt g = None
  /\ AccessGrant.isSessionActive 1000 g = true
  /\ ~ (AccessGrant.isSessionActive 1000 g = true
        <-> AccessGrant.isVerified g = true
            /\ AccessGrant.isExpired 1000 g = false
            /\ exists last, AccessGrant.lastActivityAt g = Some last
                            /\ 1000 - last < 60 * 60 * 1000).
Proof.
  cbv zeta. do 4 (split; [reflexivity|]).
  intros [H _]. destruct (H eq_refl) as (_ & _ & last & L & _). discriminate.
Qed.

(** C2, amended. [isSessionActive] returns true exactly when the grant is
    verified, is not expired, and either has no [lastActivityAt] or has
    one less than 60 minutes before the clock; in particular it returns
    true for a verified, unexpired grant without [lastActivityAt]. *)
Theorem isSessionActive_iff (now : Date) (g : AccessGrant.t) :
  (AccessGrant.isSessionActive now g = true
   <-> AccessGrant.isVerified g = true
       /\ AccessGrant.isExpired now g = false
       /\ (AccessGrant.lastActivityAt g = None
           \/ exists last, AccessGrant.lastActivityAt g = Some last
                           /\ now - last < 60 * 60 * 1000))
  /\ (AccessGrant.isVerified g = true ->
      AccessGrant.isExpired now g = false ->
      AccessGrant.lastActivityAt g = None ->
      AccessGrant.isSessionActive now g = true).
Proof.
  split; [apply isSessionActive_true|].
  intros V E L. apply isSessionActive_true. auto.
Qed.

Lemma isSessionActive_iff_witness :
  let g := Scenario.withSession None (Scenario.grant "grant-1" APPROVED (Some 5000)) in
  AccessGrant.isVerified g = true
  /\ AccessGrant.isExpired 1000 g = false
  /\ AccessGrant.lastActivityAt g = None
  /\ AccessGrant.isSessionActive 1000 g = true.
Proof.
  intros g. do 3 (split; [reflexivity|]).
  exact (proj2 (isSessionActive_iff 1000 g) eq_refl eq_refl eq_refl).
Defined.

(** ** OTP verification *)

Lemma byTokenAndEmail_same (token email : string) (g g' : AccessGrant.t) :
  VerificationDownloadService.byTokenAndEmail token email g = true ->
  AccessGrant.accessToken g' = AccessGrant.accessToken g ->
  AccessGrant.requestorEmail g' = AccessGrant.requestorEmail g ->
  VerificationDownloadService.byTokenAndEmail token email g' = true.
Proof.
  unfold VerificationDownloadService.byTokenAndEmail. intros H -> ->. exact H.
Qed.

(** C3. When [canVerifyOtp] holds of the grant found and the code sent is
    the stored one, [verifyOtp] returns a download session token and saves
    the grant as verified, with that token and [lastActivityAt] at the
    clock. Nothing is assumed of the expiry of the grant: the same holds of
    an APPROVED grant whose expiry date has passed. *)
Theorem verifyOtp_ignores_grant_expiry
    (rt : Runtime) (db : Tables) (dto : VerifyOtpDto.t) (g : AccessGrant.t) :
  List.find (VerificationDownloadService.byTokenAndEmail
               (VerifyOtpDto.requestUUID dto) (VerifyOtpDto.requestorEmail dto))
    (accessGrants db) = Some g ->
  AccessGrant.canVerifyOtp (now rt) g = true ->
  AccessGrant.otp g = Some (VerifyOtpDto.otp dto) ->
  let call := VerificationDownloadService.verifyOtp rt dto db in
  (exists r, fst call = Ok r
             /\ VerifyOtpResponseDto.success r = true
             /\ VerifyOtpResponseDto.downloadSessionToken r = uuidv4 rt
             /\ VerifyOtpResponseDto.expiresIn r = 3600)
  /\ exists g',
      List.find (VerificationDownloadService.byTokenAndEmail
                   (VerifyOtpDto.requestUUID dto) (VerifyOtpDto.requestorEmail dto))
        (accessGrants (snd call)) = Some g'
      /\ g' = VerificationDownloadService.verified rt (uuidv4 rt) g
      /\ AccessGrant.isVerified g' = true
      /\ AccessGrant.downloadSessionToken g' = Some (uuidv4 rt)
      /\ AccessGrant.verifiedAt g' = Some (now rt)
      /\ AccessGrant.lastActivityAt g' = Some (now rt)
      /\ AccessGrant.otp g' = Some ""
      /\ AccessGrant.status g' = AccessGrant.status g
      /\ AccessGrant.expiryDate g' = AccessGrant.expiryDate g.
Proof.
  intros F V O call.
  assert (W : eqOpt (AccessGrant.otp g) (VerifyOtpDto.otp dto) = true).
  { rewrite O. simpl. apply String.eqb_refl. }
  destruct (verifyOtp_correct rt db dto g F V W) as [R T]. fold call in R, T.
  split.
  - eexists. split; [exact R|]. repeat split.
  - exists (VerificationDownloadService.verified rt (uuidv4 rt) g).
    split; [|repeat split].
    rewrite T. apply find_update_rows with (g := g); [exact F | | reflexivity].
    apply byTokenAndEmail_same with (g := g); [apply (find_some _ _ F) | reflexivity..].
Qed.

Lemma verifyOtp_ignores_grant_expiry_witness :
  let g := Scenario.withOtp (Scenario.grant "grant-1" APPROVED (Some 5000)) in
  let db := Scenario.tables [g] in
  let rt := Scenario.runtime 800000 in
  AccessGrant.isExpired (now rt) g = true
  /\ AccessGrant.canVerifyOtp (now rt) g = true
  /\ exists r, fst (VerificationDownloadService.verifyOtp rt (Scenario.verifyDto "123456") db)
               = Ok r
               /\ VerifyOtpResponseDto.success r = true
               /\ VerifyOtpResponseDto.downloadSessionToken r = uuidv4 rt
               /\ VerifyOtpResponseDto.expiresIn r = 3600.
Proof.
  intros g db rt. split; [reflexivity|]. split; [reflexivity|].
  exact (proj1 (verifyOtp_ignores_grant_expiry rt db (Scenario.verifyDto "123456") g
                  eq_refl eq_refl eq_refl)).
Defined.

(** ** The OTP attempt limit *)

Lemma toString_not_empty (n : Z) : toString n <> "".
Proof.
  unfold toString. destruct n as [|p|p]; simpl; try discriminate.
  - destruct (Pos.to_uint p); discriminate.
Qed.

Lemma canVerifyOtp_valid (now e : Date) (g : AccessGrant.t) :
  truthy (AccessGrant.otp g) = true ->
  AccessGrant.otpExpiryDate g = Some e ->
  now <= e ->
  AccessGrant.otpAttempts g < 3 ->
  AccessGrant.canVerifyOtp now g = true.
Proof.
  intros T E L A. unfold AccessGrant.canVerifyOtp, AccessGrant.isOtpExpired.
  rewrite T, E. simpl.
  assert ((e <? now) = false) as -> by (apply Z.ltb_ge; exact L).
  assert ((AccessGrant.otpAttempts g >=? 3) = false) as -> by (rewrite Z.geb_leb; apply Z.leb_gt; lia).
  reflexivity.
Qed.

Section WrongCodes.

Import VerificationDownloadService.

Variables (token email : string).

Let attempt (rt : Runtime) (code : string) (db : Tables) :=
  verifyOtp rt (VerifyOtpDto.mk token email code) db.

Lemma wrong_attempt (rt : Runtime) (code : string) (db : Tables) (g : AccessGrant.t)
    (e : Date) :
  List.find (byTokenAndEmail token email) (accessGrants db) = Some g ->
  truthy (AccessGrant.otp g) = true ->
  AccessGrant.otpExpiryDate g = Some e ->
  now rt <= e ->
  AccessGrant.otpAttempts g < 3 ->
  eqOpt (AccessGrant.otp g) code = false ->
  fst (attempt rt code db)
  = Throw (BadRequestException
             ("Invalid OTP. " ++ toString (3 - (AccessGrant.otpAttempts g + 1))
              ++ " attempts remaining.")%string)
  /\ List.find (byTokenAndEmail token email) (accessGrants (snd (attempt rt code db)))
     = Some (AccessGrant.set_otpAttempts (AccessGrant.otpAttempts g + 1) g).
Proof.
  intros F T E L A W.
  destruct (verifyOtp_wrong rt db (VerifyOtpDto.mk token email code) g F
              (canVerifyOtp_valid _ _ _ T E L A) W) as [R S].
  split; [exact R|]. unfold attempt. rewrite S.
  apply find_update_rows with (g := g); [exact F | | reflexivity].
  apply byTokenAndEmail_same with (g := g); [apply (find_some _ _ F) | reflexivity..].
Qed.

(** Three wrong codes against a fresh OTP: three BadRequests, after which
    the grant has used its three attempts. *)
Lemma three_wrong_attempts (rt1 rt2 rt3 : Runtime) (c1 c2 c3 : string) (db : Tables)
    (g : AccessGrant.t) (e : Date) :
  List.find (byTokenAndEmail token email) (accessGrants db) = Some g ->
  AccessGrant.otpAttempts g = 0 ->
  truthy (AccessGrant.otp g) = true ->
  AccessGrant.otpExpiryDate g = Some e ->
  now rt1 <= e -> now rt2 <= e -> now rt3 <= e ->
  eqOpt (AccessGrant.otp g) c1 = false ->
  eqOpt (AccessGrant.otp g) c2 = false ->
  eqOpt (AccessGrant.otp g) c3 = false ->
  let call1 := attempt rt1 c1 db in
  let call2 := attempt rt2 c2 (snd call1) in
  let call3 := attempt rt3 c3 (snd call2) in
  fst call1 = Throw (BadRequestException "Invalid OTP. 2 attempts remaining.")
  /\ fst call2 = Throw (BadRequestException "Invalid OTP. 1 attempts remaining.")
  /\ fst call3 = Throw (BadRequestException "Invalid OTP. 0 attempts remaining.")
  /\ List.find (byTokenAndEmail token email) (accessGrants (snd call3))
     = Some (AccessGrant.set_otpAttempts 3 g).
Proof.
  intros F A T E L1 L2 L3 W1 W2 W3 call1 call2 call3.
  destruct (wrong_attempt rt1 c1 db g e F T E L1 ltac:(lia) W1) as [R1 F1].
  fold call1 in R1, F1. rewrite A in R1, F1.
  destruct (wrong_attempt rt2 c2 (snd call1) _ e F1 T E L2 ltac:(simpl; lia) W2) as [R2 F2].
  fold call2 in R2, F2.
  destruct (wrong_attempt rt3 c3 (snd call2) _ e F2 T E L3 ltac:(simpl; lia) W3) as [R3 F3].
  fold call3 in R3, F3.
  repeat split; assumption.
Qed.

End WrongCodes.

(** C5, as stated, fails: on this grant with a fresh OTP the third wrong
    code is answered with BadRequest, not with Conflict. *)
Lemma third_wrong_code_is_bad_request :
  let g := Scenario.withOtp (Scenario.grant "grant-1" APPROVED (Some 5000000)) in
  let db := Scenario.tables [g] in
  let wrong := Scenario.verifyDto "000000" in
  let call1 := VerificationDownloadService.verifyOtp (Scenario.runtime 100000) wrong db in
  let call2 := VerificationDownloadService.verifyOtp (Scenario.runtime 200000) wrong
                 (snd call1) in
  let call3 := VerificationDownloadService.verifyOtp (Scenario.runtime 300000) wrong
                 (snd call2) in
  AccessGrant.otpAttempts g = 0
  /\ AccessGrant.canVerifyOtp 100000 g = true
  /\ fst call3 = Throw (BadRequestException "Invalid OTP. 0 attempts remaining.")
  /\ ~ throwsConflict (fst call3).
Proof.
  cbv zeta. split; [reflexivity|]. split; [reflexivity|].
  assert (E : fst (VerificationDownloadService.verifyOtp (Scenario.runtime 300000)
                     (Scenario.verifyDto "000000")
                     (snd (VerificationDownloadService.verifyOtp (Scenario.runtime 200000)
                             (Scenario.verifyDto "000000")
                             (snd (VerificationDownloadService.verifyOtp
                                     (Scenario.runtime 100000) (Scenario.verifyDto "000000")
                                     (Scenario.tables
                                        [Scenario.withOtp
                                           (Scenario.grant "grant-1" APPROVED
                                              (Some 5000000))]))))))
              = Throw (BadRequestException "Invalid OTP. 0 attempts remaining."))
    by (vm_compute; reflexivity).
  split; [exact E|]. rewrite E. intros [m C]. discriminate.
Qed.

(** C5, amended. From a grant with [otpAttempts = 0] and an OTP that has
    not expired, three [verifyOtp] calls in a row with a wrong code each
    throw BadRequest, counting the remaining attempts down to 0 and
    [otpAttempts] up to 3; it is the call after these, the fourth, that
    throws Conflict. *)
Theorem three_wrong_codes_then_conflict
    (rt1 rt2 rt3 rt4 : Runtime) (token email c1 c2 c3 c4 : string) (db : Tables)
    (g : AccessGrant.t) (e : Date) :
  List.find (VerificationDownloadService.byTokenAndEmail token email) (accessGrants db)
    = Some g ->
  AccessGrant.otpAttempts g = 0 ->
  truthy (AccessGrant.otp g) = true ->
  AccessGrant.otpExpiryDate g = Some e ->
  now rt1 <= e -> now rt2 <= e -> now rt3 <= e ->
  eqOpt (AccessGrant.otp g) c1 = false ->
  eqOpt (AccessGrant.otp g) c2 = false ->
  eqOpt (AccessGrant.otp g) c3 = false ->
  let attempt rt code := VerificationDownloadService.verifyOtp rt
                           (VerifyOtpDto.mk token email code) in
  let call1 := attempt rt1 c1 db in
  let call2 := attempt rt2 c2 (snd call1) in
  let call3 := attempt rt3 c3 (snd call2) in
  let call4 := attempt rt4 c4 (snd call3) in
  throwsBadRequest (fst call1)
  /\ throwsBadRequest (fst call2)
  /\ throwsBadRequest (fst call3)
  /\ List.find (VerificationDownloadService.byTokenAndEmail token email)
       (accessGrants (snd call3)) = Some (AccessGrant.set_otpAttempts 3 g)
  /\ throwsConflict (fst call4).
Proof.
  intros F A T E L1 L2 L3 W1 W2 W3 attempt call1 call2 call3 call4.
  destruct (three_wrong_attempts token email rt1 rt2 rt3 c1 c2 c3 db g e
              F A T E L1 L2 L3 W1 W2 W3) as (R1 & R2 & R3 & F3).
  fold (attempt rt1 c1) in R1, R2, R3, F3. fold call1 in R1, R2, R3, F3.
  fold (attempt rt2 c2) in R2, R3, F3. fold call2 in R2, R3, F3.
  fold (attempt rt3 c3) in R3, F3. fold call3 in R3, F3.
  split; [eexists; exact R1|]. split; [eexists; exact R2|]. split; [eexists; exact R3|].
  split; [exact F3|].
  destruct (verifyOtp_locked rt4 (snd call3) (VerifyOtpDto.mk token email c4) _ F3
              ltac:(simpl; lia)) as [R4 _].
  eexists. exact R4.
Qed.

Lemma three_wrong_codes_then_conflict_witness :
  let g := Scenario.withOtp (Scenario.grant "grant-1" APPROVED (Some 5000000)) in
  let db := Scenario.tables [g] in
  let attempt t code := VerificationDownloadService.verifyOtp (Scenario.runtime t)
                          (VerifyOtpDto.mk Scenario.token Scenario.email code) in
  let call1 := attempt 100000 "000000" db in
  let call2 := attempt 200000 "111111" (snd call1) in
  let call3 := attempt 300000 "222222" (snd call2) in
  let call4 := attempt 400000 "333333" (snd call3) in
  throwsBadRequest (fst call1)
  /\ throwsBadRequest (fst call2)
  /\ throwsBadRequest (fst call3)
  /\ List.find (VerificationDownloadService.byTokenAndEmail Scenario.token Scenario.email)
       (accessGrants (snd call3)) = Some (AccessGrant.set_otpAttempts 3 g)
  /\ throwsConflict (fst call4).
Proof.
  intros g db.
  apply (three_wrong_codes_then_conflict
           (Scenario.runtime 100000) (Scenario.runtime 200000) (Scenario.runtime 300000)
           (Scenario.runtime 400000) Scenario.token Scenario.email
           "000000" "111111" "222222" "333333" db g 900000);
    first [reflexivity | discriminate].
Defined.

Lemma RowUpdate_otpAttempts (rt : Runtime) (op : Operation) (g g' : AccessGrant.t) :
  RowUpdate rt op g g' ->
  (forall dto, op <> RequestOtp dto) ->
  AccessGrant.otpAttempts g' = AccessGrant.otpAttempts g
  \/ AccessGrant.otpAttempts g' = AccessGrant.otpAttempts g + 1.
Proof.
  destruct op; simpl; intros U NR.
  - destruct U.
  - destruct U as [_ ->]. left. apply approved_otpAttempts.
  - destruct U as [_ ->]. left. apply denied_otpAttempts.
  - subst g'. left. apply revoked_otpAttempts.
  - destruct U as [_ ->]. left. apply revoked_otpAttempts.
  - destruct U.
  - exfalso. exact (NR dto eq_refl).
  - destruct U as [-> | ->]; [right | left]; reflexivity.
  - subst g'. left. reflexivity.
  - subst g'. left. reflexivity.
  - subst g'. left. reflexivity.
Qed.

Lemma requestOtp_issues (rt : Runtime) (db : Tables) (dto : RequestOtpDto.t)
    (g : AccessGrant.t) (document : DocumentFile.t) :
  List.find (VerificationDownloadService.byTokenAndEmail
               (RequestOtpDto.requestUUID dto) (RequestOtpDto.requestorEmail dto))
    (accessGrants db) = Some g ->
  AccessGrant.canRequestOtp (now rt) g = true ->
  List.find (fun d => String.eqb (DocumentFile.id d) (AccessGrant.documentId g)) (documents db)
    = Some document ->
  DocumentFile.visibilityStatus document = PUBLIC ->
  let call := VerificationDownloadService.requestOtp rt dto db in
  (exists r, fst call = Ok r
             /\ RequestOtpResponseDto.otpSentTo r = AccessGrant.requestorEmail g
             /\ RequestOtpResponseDto.expiresIn r = 900)
  /\ exists g',
      List.find (VerificationDownloadService.byTokenAndEmail
                   (RequestOtpDto.requestUUID dto) (RequestOtpDto.requestorEmail dto))
        (accessGrants (snd call)) = Some g'
      /\ AccessGrant.otpAttempts g' = 0
      /\ AccessGrant.otp g' = Some (VerificationDownloadService.generateOtp rt)
      /\ AccessGrant.otpExpiryDate g' = Some (now rt + 15 * 60 * 1000).
Proof.
  intros F C D P call. subst call. unfold VerificationDownloadService.requestOtp. run.
  rewrite F, C. cbn [negb]. rewrite D, P. cbn [negb VisibilityStatus_eqb].
  destruct (AccessGrant.isVerified g && negb (AccessGrant.isSessionActive (now rt) g)).
  - repeat audit. cbn [fst snd accessGrants withAccessGrants withAuditLogs]. split.
    + eexists. split; [reflexivity|]. split; reflexivity.
    + eexists. split.
      { apply find_update_rows with (g := g); [exact F | | reflexivity].
        apply byTokenAndEmail_same with (g := g); [apply (find_some _ _ F) | reflexivity..]. }
      split; [|split]; reflexivity.
  - repeat audit. cbn [fst snd accessGrants withAccessGrants withAuditLogs]. split.
    + eexists. split; [reflexivity|]. split; reflexivity.
    + eexists. split.
      { apply find_update_rows with (g := g); [exact F | | reflexivity].
        apply byTokenAndEmail_same with (g := g); [apply (find_some _ _ F) | reflexivity..]. }
      split; [|split]; reflexivity.
Qed.

(** C4. After three wrong codes in a row against a fresh OTP the grant
    has [otpAttempts = 3], and the next call is answered with Conflict
    although it sends the stored code; so is every [verifyOtp] on a grant
    with three or more attempts, and it changes no grant. No request other
    than [requestOtp] lowers [otpAttempts] of any grant; a [requestOtp]
    that succeeds sets it to 0, stores a newly generated code and lets it
    expire 15 minutes after the clock. The new code is not empty, so the
    grant can verify again, and a [verifyOtp] that sends it within the 15
    minutes returns. *)
Theorem otp_locked_until_new_request
    (rt1 rt2 rt3 rt4 : Runtime) (token email c1 c2 c3 code : string) (db : Tables)
    (g : AccessGrant.t) (e : Date) :
  List.find (VerificationDownloadService.byTokenAndEmail token email) (accessGrants db)
    = Some g ->
  AccessGrant.otpAttempts g = 0 ->
  AccessGrant.otp g = Some code ->
  code <> "" ->
  AccessGrant.otpExpiryDate g = Some e ->
  now rt1 <= e -> now rt2 <= e -> now rt3 <= e ->
  c1 <> code -> c2 <> code -> c3 <> code ->
  let attempt rt c := VerificationDownloadService.verifyOtp rt
                        (VerifyOtpDto.mk token email c) in
  let db3 := snd (attempt rt3 c3 (snd (attempt rt2 c2 (snd (attempt rt1 c1 db))))) in
  (exists g3,
      List.find (VerificationDownloadService.byTokenAndEmail token email) (accessGrants db3)
        = Some g3
      /\ AccessGrant.otpAttempts g3 = 3
      /\ AccessGrant.otp g3 = Some code
      /\ throwsConflict (fst (attempt rt4 code db3))
      /\ accessGrants (snd (attempt rt4 code db3)) = accessGrants db3)
  /\ (forall (rt : Runtime) (db' : Tables) (dto : VerifyOtpDto.t) (g' : AccessGrant.t),
      List.find (VerificationDownloadService.byTokenAndEmail
                   (VerifyOtpDto.requestUUID dto) (VerifyOtpDto.requestorEmail dto))
        (accessGrants db') = Some g' ->
      3 <= AccessGrant.otpAttempts g' ->
      throwsConflict (fst (VerificationDownloadService.verifyOtp rt dto db'))
      /\ accessGrants (snd (VerificationDownloadService.verifyOtp rt dto db'))
         = accessGrants db')
  /\ (forall (rt : Runtime) (op : Operation) (db' : Tables) (k : nat) (g' : AccessGrant.t),
      NoDup (map AccessGrant.id (accessGrants db')) ->
      (forall dto, op <> RequestOtp dto) ->
      nth_error (accessGrants db') k = Some g' ->
      exists g'', nth_error (accessGrants (snd (perform rt op db'))) k = Some g''
                  /\ AccessGrant.id g'' = AccessGrant.id g'
                  /\ AccessGrant.otpAttempts g' <= AccessGrant.otpAttempts g'')
  /\ (forall (rt : Runtime) (db' : Tables) (dto : RequestOtpDto.t) (g' : AccessGrant.t)
             (document : DocumentFile.t),
      List.find (VerificationDownloadService.byTokenAndEmail
                   (RequestOtpDto.requestUUID dto) (RequestOtpDto.requestorEmail dto))
        (accessGrants db') = Some g' ->
      AccessGrant.canRequestOtp (now rt) g' = true ->
      List.find (fun d => String.eqb (DocumentFile.id d) (AccessGrant.documentId g'))
        (documents db') = Some document ->
      DocumentFile.visibilityStatus document = PUBLIC ->
      let call := VerificationDownloadService.requestOtp rt dto db' in
      exists r g'',
        fst call = Ok r
        /\ RequestOtpResponseDto.expiresIn r = 900
        /\ List.find (VerificationDownloadService.byTokenAndEmail
                        (RequestOtpDto.requestUUID dto) (RequestOtpDto.requestorEmail dto))
             (accessGrants (snd call)) = Some g''
        /\ AccessGrant.otpAttempts g'' = 0
        /\ AccessGrant.otp g'' = Some (VerificationDownloadService.generateOtp rt)
        /\ AccessGrant.otpExpiryDate g'' = Some (now rt + 15 * 60 * 1000)
        /\ VerificationDownloadService.generateOtp rt <> ""
        /\ AccessGrant.canVerifyOtp (now rt) g'' = true
        /\ forall rt' : Runtime,
             now rt' <= now rt + 15 * 60 * 1000 ->
             exists r',
               fst (VerificationDownloadService.verifyOtp rt'
                      (VerifyOtpDto.mk (RequestOtpDto.requestUUID dto)
                         (RequestOtpDto.requestorEmail dto)
                         (VerificationDownloadService.generateOtp rt)) (snd call))
               = Ok r').
Proof.
  intros F A O NE E L1 L2 L3 W1 W2 W3 attempt db3.
  assert (T : truthy (AccessGrant.otp g) = true).
  { rewrite O. simpl. apply negb_true_iff, String.eqb_neq, NE. }
  assert (Wr : forall c, c <> code -> eqOpt (AccessGrant.otp g) c = false).
  { intros c N. rewrite O. simpl. apply String.eqb_neq. congruence. }
  assert (Lock : forall (rt : Runtime) (db' : Tables) (dto : VerifyOtpDto.t)
                        (g' : AccessGrant.t),
             List.find (VerificationDownloadService.byTokenAndEmail
                          (VerifyOtpDto.requestUUID dto) (VerifyOtpDto.requestorEmail dto))
               (accessGrants db') = Some g' ->
             3 <= AccessGrant.otpAttempts g' ->
             throwsConflict (fst (VerificationDownloadService.verifyOtp rt dto db'))
             /\ accessGrants (snd (VerificationDownloadService.verifyOtp rt dto db'))
                = accessGrants db').
  { intros rt db' dto g' F' L'. destruct (verifyOtp_locked rt db' dto g' F' L') as [R S].
    split; [eexists; exact R | exact S]. }
  split; [|split; [exact Lock|split]].
  - destruct (three_wrong_attempts token email rt1 rt2 rt3 c1 c2 c3 db g e
                F A T E L1 L2 L3 (Wr _ W1) (Wr _ W2) (Wr _ W3)) as (_ & _ & _ & F3).
    exists (AccessGrant.set_otpAttempts 3 g).
    split; [exact F3|]. split; [reflexivity|]. split; [exact O|].
    apply (Lock rt4 db3 (VerifyOtpDto.mk token email code) _ F3). simpl. lia.
  - intros rt op db' k g' N NR K.
    destruct (perform_rows rt op db' N) as [_ H].
    destruct (H k g' K) as (g'' & K' & I & [-> | U]).
    + exists g'. split; [exact K'|]. split; [reflexivity | lia].
    + exists g''. split; [exact K'|]. split; [exact I|].
      destruct (RowUpdate_otpAttempts rt op g' g'' U NR); lia.
  - intros rt db' dto g' document F' C D P call.
    destruct (requestOtp_issues rt db' dto g' document F' C D P)
      as [(r & R & _ & X) (g'' & F'' & A'' & O'' & E'')].
    fold call in R, F''.
    assert (Full : VerificationDownloadService.generateOtp rt <> "")
      by apply toString_not_empty.
    assert (Tr : truthy (AccessGrant.otp g'') = true).
    { rewrite O''. simpl. apply negb_true_iff, String.eqb_neq, Full. }
    assert (Open : forall t, t <= now rt + 15 * 60 * 1000 ->
                             AccessGrant.canVerifyOtp t g'' = true).
    { intros t Lt. apply (canVerifyOtp_valid t (now rt + 15 * 60 * 1000) g'' Tr E'' Lt).
      rewrite A''. reflexivity. }
    exists r, g''.
    split; [exact R|]. split; [exact X|]. split; [exact F''|]. split; [exact A''|].
    split; [exact O''|]. split; [exact E''|]. split; [exact Full|].
    split; [apply Open; lia|].
    intros rt' Lt. eexists.
    refine (proj1 (verifyOtp_correct rt' (snd call)
                     (VerifyOtpDto.mk (RequestOtpDto.requestUUID dto)
                        (RequestOtpDto.requestorEmail dto)
                        (VerificationDownloadService.generateOtp rt))
                     g'' F'' (Open _ Lt) _)).
    rewrite O''. simpl. apply String.eqb_refl.
Qed.

Lemma otp_locked_until_new_request_witness :
  let g := Scenario.withOtp (Scenario.grant "grant-1" APPROVED (Some 5000000)) in
  let db := Scenario.tables [g] in
  let attempt t c := VerificationDownloadService.verifyOtp (Scenario.runtime t)
                       (VerifyOtpDto.mk Scenario.token Scenario.email c) in
  let db3 := snd (attempt 300000 "222222"
                    (snd (attempt 200000 "111111" (snd (attempt 100000 "000000" db))))) in
  let db4 := snd (VerificationDownloadService.requestOtp (Scenario.runtime 500000)
                    (RequestOtpDto.mk Scenario.token Scenario.email) db3) in
  (exists g3,
      List.find (VerificationDownloadService.byTokenAndEmail Scenario.token Scenario.email)
        (accessGrants db3) = Some g3
      /\ AccessGrant.otpAttempts g3 = 3
      /\ AccessGrant.otp g3 = Some "123456"
      /\ throwsConflict (fst (attempt 400000 "123456" db3))
      /\ accessGrants (snd (attempt 400000 "123456" db3)) = accessGrants db3)
  /\ exists r, fst (attempt 600000 "325000" db4) = Ok r.
Proof.
  intros g db attempt db3 db4.
  assert (T : forall t, t <= 900000 -> now (Scenario.runtime t) <= 900000)
    by (intros t L; exact L).
  destruct (otp_locked_until_new_request
              (Scenario.runtime 100000) (Scenario.runtime 200000)
              (Scenario.runtime 300000) (Scenario.runtime 400000)
              Scenario.token Scenario.email "000000" "111111" "222222" "123456"
              db g 900000 eq_refl eq_refl eq_refl ltac:(discriminate) eq_refl
              (T 100000 ltac:(discriminate)) (T 200000 ltac:(discriminate))
              (T 300000 ltac:(discriminate))
              ltac:(discriminate) ltac:(discriminate) ltac:(discriminate))
    as (Locked & _ & _ & Renewed).
  split; [exact Locked|].
  destruct (Renewed (Scenario.runtime 500000) db3
              (RequestOtpDto.mk Scenario.token Scenario.email)
              (AccessGrant.set_otpAttempts 3 g) Scenario.document
              eq_refl eq_refl eq_refl eq_refl)
    as (r & g4 & _ & _ & _ & _ & _ & _ & _ & _ & Verifies).
  apply (Verifies (Scenario.runtime 600000)). discriminate.
Defined.

(** ** Using a download session *)

Section ActiveSession.

Import VerificationDownloadService.

Variables (rt : Runtime) (db : Tables) (downloadSessionToken : string).
Variables (g : AccessGrant.t) (document : DocumentFile.t).

Hypothesis session_found :
  List.find (bySessionToken downloadSessionToken) (accessGrants db) = Some g.
Hypothesis session_active : AccessGrant.isSessionActive (now rt) g = true.

Let touched := AccessGrant.set_lastActivityAt (Some (now rt)) g.

Lemma recordDownload_active (bytesDownloaded : Z) (ipAddress userAgent : string) :
  let call := recordDownload rt downloadSessionToken bytesDownloaded ipAddress userAgent db in
  fst call = Ok tt
  /\ accessGrants (snd call) = accessGrantRepository.update_rows touched (accessGrants db)
  /\ (auditWriteFails rt = true -> auditLogs (snd call) = auditLogs db).
Proof.
  intros call. subst call. unfold recordDownload. run.
  rewrite session_found, session_active. cbn [negb].
  unfold createAuditLog. run. destruct (auditWriteFails rt) eqn:A; simpl.
  - repeat split.
  - repeat split. discriminate.
Qed.

Hypothesis document_loaded :
  List.find (fun d => String.eqb (DocumentFile.id d) (AccessGrant.documentId g)) (documents db)
  = Some document.
Hypothesis document_public : DocumentFile.visibilityStatus document = PUBLIC.

Lemma validateDownloadSession_active :
  let call := validateDownloadSession rt (DownloadSessionCheckDto.mk downloadSessionToken) db in
  fst call = Ok {| SessionStatusDto.isValid := true;
                   SessionStatusDto.expiresIn := 3600;
                   SessionStatusDto.requestorEmail := AccessGrant.requestorEmail g;
                   SessionStatusDto.documentName := DocumentFile.filename document |}
  /\ accessGrants (snd call) = accessGrantRepository.update_rows touched (accessGrants db).
Proof.
  intros call. subst call. unfold validateDownloadSession. run.
  cbn [DownloadSessionCheckDto.downloadSessionToken].
  rewrite session_found, session_active. cbn [negb].
  rewrite document_loaded, document_public. cbn [negb VisibilityStatus_eqb].
  split; reflexivity.
Qed.

Lemma getDocumentForDownload_active :
  let call := getDocumentForDownload rt downloadSessionToken db in
  fst call = Ok (touched, document)
  /\ accessGrants (snd call) = accessGrantRepository.update_rows touched (accessGrants db).
Proof.
  intros call. subst call. unfold getDocumentForDownload. run.
  rewrite session_found, session_active. cbn [negb].
  rewrite document_loaded, document_public. cbn [negb VisibilityStatus_eqb].
  split; reflexivity.
Qed.

End ActiveSession.

(** ** Audit failures do not surface *)

Ltac same_runtime :=
  unfold VerificationDownloadService.generateOtp, ExternalRequestorService.create,
    ExternalRequestorService.frontendUrl, DocumentService.approved, DocumentService.denied,
    DocumentService.revoked, VerificationDownloadService.verified;
  cbn [now uuidv4 random generatedId FRONTEND_URL toISOString setAuditWriteFails].

Ltac project_tables :=
  cbn [fst snd documents accessGrants auditLogs withAccessGrants withAuditLogs].

Ltac split_audited :=
  repeat first
    [ audit
    | progress project_tables
    | match goal with
      | |- context [match ?x with _ => _ end] =>
        lazymatch x with
        | context [match _ with _ => _ end] => fail
        | _ => destruct x eqn:?
        end
      end ].

Lemma perform_audit_independent (rt : Runtime) (op : Operation) (db : Tables) (fails : bool) :
  fst (perform (setAuditWriteFails fails rt) op db) = fst (perform rt op db)
  /\ accessGrants (snd (perform (setAuditWriteFails fails rt) op db))
     = accessGrants (snd (perform rt op db))
  /\ documents (snd (perform (setAuditWriteFails fails rt) op db))
     = documents (snd (perform rt op db)).
Proof.
  destruct op; unfold perform.
  - unfold ExternalRequestorService.submitAccessRequest. run. same_runtime.
    repeat split.
  - unfold DocumentService.approveAccessRequest. run. same_runtime. repeat split.
  - unfold DocumentService.denyAccessRequest. run. same_runtime. repeat split.
  - unfold DocumentService.revokeAccessGrant. run. same_runtime. repeat split.
  - unfold DocumentService.bulkRevokeAccess. run. same_runtime. repeat split.
  - unfold VerificationDownloadService.initiateVerification. run. same_runtime.
    split_audited; repeat split.
  - unfold VerificationDownloadService.requestOtp. run. same_runtime.
    split_audited; repeat split.
  - unfold VerificationDownloadService.verifyOtp. run. same_runtime.
    split_audited; repeat split.
  - unfold VerificationDownloadService.validateDownloadSession. run. same_runtime.
    split_audited; repeat split.
  - unfold VerificationDownloadService.getDocumentForDownload. run. same_runtime.
    split_audited; repeat split.
  - unfold VerificationDownloadService.recordDownload. run. same_runtime.
    split_audited; repeat split.
Qed.

Lemma createAuditLog_swallows (rt : Runtime) (accessGrant : AccessGrant.t)
    (action : DownloadAction) (details : string) (ipAddress userAgent : option string)
    (bytesDownloaded : option Z) (db : Tables) :
  exists db',
    VerificationDownloadService.createAuditLog rt accessGrant action details ipAddress
      userAgent bytesDownloaded db = (Ok tt, db')
    /\ documents db' = documents db
    /\ accessGrants db' = accessGrants db
    /\ (auditWriteFails rt = true -> auditLogs db' = auditLogs db).
Proof.
  unfold VerificationDownloadService.createAuditLog. run.
  destruct (auditWriteFails rt).
  - exists db. repeat split.
  - eexists. split; [reflexivity|]. repeat split. discriminate.
Qed.

(** C9. [createAuditLog] returns normally whether or not the write of the
    audit row fails, and touches neither documents nor grants. For every
    request, the outcome (the value returned or the exception thrown) and
    the documents and grants tables it leaves are the same with and without
    audit-write failures. In particular [recordDownload], for a session
    token whose verified grant is found and whose session is active,
    returns normally and refreshes [lastActivityAt] even when its
    DOWNLOAD_COMPLETED row cannot be written. *)
Theorem audit_failures_never_surface :
  (forall (rt : Runtime) (accessGrant : AccessGrant.t) (action : DownloadAction)
          (details : string) (ipAddress userAgent : option string)
          (bytesDownloaded : option Z) (db : Tables),
      exists db',
        VerificationDownloadService.createAuditLog rt accessGrant action details ipAddress
          userAgent bytesDownloaded db = (Ok tt, db')
        /\ documents db' = documents db
        /\ accessGrants db' = accessGrants db)
  /\ (forall (rt : Runtime) (op : Operation) (db : Tables) (fails : bool),
      fst (perform (setAuditWriteFails fails rt) op db) = fst (perform rt op db)
      /\ accessGrants (snd (perform (setAuditWriteFails fails rt) op db))
         = accessGrants (snd (perform rt op db))
      /\ documents (snd (perform (setAuditWriteFails fails rt) op db))
         = documents (snd (perform rt op db)))
  /\ (forall (rt : Runtime) (db : Tables) (downloadSessionToken : string)
             (bytesDownloaded : Z) (ipAddress userAgent : string) (g : AccessGrant.t),
      auditWriteFails rt = true ->
      List.find (VerificationDownloadService.bySessionToken downloadSessionToken)
        (accessGrants db) = Some g ->
      AccessGrant.isSessionActive (now rt) g = true ->
      let call := VerificationDownloadService.recordDownload rt downloadSessionToken
                    bytesDownloaded ipAddress userAgent db in
      fst call = Ok tt
      /\ accessGrants (snd call)
         = accessGrantRepository.update_rows
             (AccessGrant.set_lastActivityAt (Some (now rt)) g) (accessGrants db)
      /\ auditLogs (snd call) = auditLogs db).
Proof.
  split; [|split].
  - intros rt accessGrant action details ipAddress userAgent bytesDownloaded db.
    destruct (createAuditLog_swallows rt accessGrant action details ipAddress userAgent
                bytesDownloaded db) as (db' & E & D & G & _).
    exists db'. auto.
  - intros rt op db fails. apply perform_audit_independent.
  - intros rt db downloadSessionToken bytesDownloaded ipAddress userAgent g A F S call.
    destruct (recordDownload_active rt db downloadSessionToken g F S bytesDownloaded
                ipAddress userAgent) as (R & T & L).
    fold call in R, T, L. auto.
Qed.

Lemma audit_failures_never_surface_witness :
  let g := Scenario.withSession (Some 1000)
             (Scenario.grant "grant-1" APPROVED (Some 5000000)) in
  let db := Scenario.tables [g] in
  let rt := setAuditWriteFails true (Scenario.runtime 61000) in
  let call := VerificationDownloadService.recordDownload rt Scenario.session 2048
                "203.0.113.7" "curl" db in
  auditWriteFails rt = true
  /\ AccessGrant.isSessionActive (now rt) g = true
  /\ fst call = Ok tt
  /\ accessGrants (snd call)
     = accessGrantRepository.update_rows
         (AccessGrant.set_lastActivityAt (Some (now rt)) g) (accessGrants db)
  /\ auditLogs (snd call) = auditLogs db.
Proof.
  intros g db rt. split; [reflexivity|]. split; [reflexivity|].
  exact (proj2 (proj2 audit_failures_never_surface) rt db Scenario.session 2048
           "203.0.113.7" "curl" g eq_refl eq_refl eq_refl).
Defined.

(** ** Revocation and the download session *)

Lemma revokeAccessGrant_saves (rt : Runtime) (db : Tables)
    (documentId accessGrantId ownerId : string) (revokeDto : option RevokeAccessGrantDto.t)
    (document : DocumentFile.t) (g : AccessGrant.t) :
  List.find (DocumentService.ownedDocument documentId ownerId) (documents db) = Some document ->
  List.find (DocumentService.grantOfDocument accessGrantId documentId) (accessGrants db)
    = Some g ->
  DocumentService.revokeAccessGrant rt documentId accessGrantId ownerId revokeDto db
  = (Ok tt,
     withAccessGrants
       (accessGrantRepository.update_rows
          (DocumentService.revoked rt
             (DocumentService.optField RevokeAccessGrantDto.message revokeDto) g)
          (accessGrants db)) db).
Proof.
  intros Hd Hg. unfold DocumentService.revokeAccessGrant. run. rewrite Hd, Hg. reflexivity.
Qed.

Lemma isExpired_only_approved (now : Date) (g : AccessGrant.t) :
  AccessGrant.status g <> APPROVED -> AccessGrant.isExpired now g = false.
Proof.
  intros N. unfold AccessGrant.isExpired.
  apply AccessStatus_eqb_neq in N. rewrite N. reflexivity.
Qed.

Lemma bySessionToken_same (token : string) (g g' : AccessGrant.t) :
  VerificationDownloadService.bySessionToken token g = true ->
  AccessGrant.downloadSessionToken g' = AccessGrant.downloadSessionToken g ->
  AccessGrant.isVerified g' = AccessGrant.isVerified g ->
  VerificationDownloadService.bySessionToken token g' = true.
Proof.
  unfold VerificationDownloadService.bySessionToken. intros H -> ->. exact H.
Qed.

(** C10. [revokeAccessGrant], for a grant found on a document of the
    owner, saves the grant with new values of [status], [revocationMessage]
    and [actionCompletedAt] and of no other field, so the session fields
    and [expiryDate] are what they were. The revoked grant is never
    expired; if it was verified with [lastActivityAt] less than 60 minutes
    before the clock its session is still active, and, the document being
    public, [validateDownloadSession], [getDocumentForDownload] and
    [recordDownload] with its session token succeed after the revocation. *)
Theorem revocation_keeps_download_session
    (rt : Runtime) (db : Tables) (documentId accessGrantId ownerId : string)
    (revokeDto : option RevokeAccessGrantDto.t)
    (document : DocumentFile.t) (g : AccessGrant.t) :
  List.find (DocumentService.ownedDocument documentId ownerId) (documents db) = Some document ->
  List.find (DocumentService.grantOfDocument accessGrantId documentId) (accessGrants db)
    = Some g ->
  let message := DocumentService.optField RevokeAccessGrantDto.message revokeDto in
  let g' := DocumentService.revoked rt message g in
  let call := DocumentService.revokeAccessGrant rt documentId accessGrantId ownerId
                revokeDto db in
  call = (Ok tt, withAccessGrants (accessGrantRepository.update_rows g' (accessGrants db)) db)
  /\ g' = AccessGrant.set_actionCompletedAt (Some (now rt))
            (AccessGrant.set_revocationMessage
               (if truthy message then message else AccessGrant.revocationMessage g)
               (AccessGrant.set_status REVOKED g))
  /\ (AccessGrant.isVerified g' = AccessGrant.isVerified g
      /\ AccessGrant.verifiedAt g' = AccessGrant.verifiedAt g
      /\ AccessGrant.downloadSessionToken g' = AccessGrant.downloadSessionToken g
      /\ AccessGrant.lastActivityAt g' = AccessGrant.lastActivityAt g
      /\ AccessGrant.expiryDate g' = AccessGrant.expiryDate g)
  /\ (forall now' : Date, AccessGrant.isExpired now' g' = false)
  /\ (forall now' last : Date,
      AccessGrant.isVerified g = true ->
      AccessGrant.lastActivityAt g = Some last ->
      now' - last < 60 * 60 * 1000 ->
      AccessGrant.isSessionActive now' g' = true)
  /\ (forall (rt' : Runtime) (token : string) (last : Date) (loaded : DocumentFile.t)
             (bytesDownloaded : Z) (ipAddress userAgent : string),
      List.find (VerificationDownloadService.bySessionToken token) (accessGrants db)
        = Some g ->
      AccessGrant.lastActivityAt g = Some last ->
      now rt' - last < 60 * 60 * 1000 ->
      List.find (fun d => String.eqb (DocumentFile.id d) (AccessGrant.documentId g))
        (documents db) = Some loaded ->
      DocumentFile.visibilityStatus loaded = PUBLIC ->
      (exists r,
          fst (VerificationDownloadService.validateDownloadSession rt'
                 (DownloadSessionCheckDto.mk token) (snd call)) = Ok r
          /\ SessionStatusDto.isValid r = true)
      /\ (exists r,
             fst (VerificationDownloadService.getDocumentForDownload rt' token (snd call))
             = Ok r
             /\ snd r = loaded)
      /\ fst (VerificationDownloadService.recordDownload rt' token bytesDownloaded
                ipAddress userAgent (snd call)) = Ok tt).
Proof.
  intros Hd Hg message g' call.
  assert (C : call = (Ok tt,
                      withAccessGrants
                        (accessGrantRepository.update_rows g' (accessGrants db)) db))
    by (apply revokeAccessGrant_saves with (document := document); assumption).
  assert (A : g' = AccessGrant.set_actionCompletedAt (Some (now rt))
                     (AccessGrant.set_revocationMessage
                        (if truthy message then message else AccessGrant.revocationMessage g)
                        (AccessGrant.set_status REVOKED g)))
    by apply revoked_assigns.
  assert (X : forall now' : Date, AccessGrant.isExpired now' g' = false).
  { intros now'. apply isExpired_only_approved. unfold g'. rewrite revoked_status.
    discriminate. }
  assert (S : forall now' last : Date,
             AccessGrant.isVerified g = true ->
             AccessGrant.lastActivityAt g = Some last ->
             now' - last < 60 * 60 * 1000 ->
             AccessGrant.isSessionActive now' g' = true).
  { intros now' last V L T. apply isSessionActive_true.
    split; [rewrite A; exact V|]. split; [apply X|].
    right. exists last. split; [rewrite A; exact L | exact T]. }
  split; [exact C|]. split; [exact A|].
  split; [rewrite A; repeat split|]. split; [exact X|]. split; [exact S|].
  intros rt' token last loaded bytesDownloaded ipAddress userAgent F L T D P.
  assert (V : AccessGrant.isVerified g = true).
  { destruct (find_some _ _ F) as [_ B].
    unfold VerificationDownloadService.bySessionToken in B.
    apply andb_true_iff in B. destruct B as [_ B].
    destruct (AccessGrant.isVerified g); [reflexivity | discriminate]. }
  assert (F' : List.find (VerificationDownloadService.bySessionToken token)
                 (accessGrants (snd call)) = Some g').
  { rewrite C. cbn [snd accessGrants withAccessGrants].
    apply find_update_rows with (g := g); [exact F | | apply revoked_id].
    apply bySessionToken_same with (g := g);
      [apply (find_some _ _ F) | rewrite A; reflexivity..]. }
  assert (D' : List.find (fun d => String.eqb (DocumentFile.id d) (AccessGrant.documentId g'))
                 (documents (snd call)) = Some loaded).
  { rewrite C, A. exact D. }
  pose proof (S (now rt') last V L T) as Act.
  split; [|split].
  - eexists. split.
    + exact (proj1 (validateDownloadSession_active rt' (snd call) token g' loaded
                      F' Act D' P)).
    + reflexivity.
  - eexists. split.
    + exact (proj1 (getDocumentForDownload_active rt' (snd call) token g' loaded
                      F' Act D' P)).
    + reflexivity.
  - exact (proj1 (recordDownload_active rt' (snd call) token g' F' Act bytesDownloaded
                    ipAddress userAgent)).
Qed.

Lemma revocation_keeps_download_session_witness :
  let g := Scenario.withSession (Some 1000)
             (Scenario.grant "grant-1" APPROVED (Some 5000000)) in
  let db := Scenario.tables [g] in
  let call := DocumentService.revokeAccessGrant (Scenario.runtime 2000) "doc-1" "grant-1"
                "owner-1" None db in
  map AccessGrant.status (accessGrants (snd call)) = [REVOKED]
  /\ exists r,
      fst (VerificationDownloadService.validateDownloadSession (Scenario.runtime 3000)
             (DownloadSessionCheckDto.mk Scenario.session) (snd call)) = Ok r
      /\ SessionStatusDto.isValid r = true.
Proof.
  intros g db call. split; [reflexivity|].
  destruct (revocation_keeps_download_session (Scenario.runtime 2000) db "doc-1" "grant-1"
              "owner-1" None Scenario.document g eq_refl eq_refl)
    as (_ & _ & _ & _ & _ & Use).
  exact (proj1 (Use (Scenario.runtime 3000) Scenario.session 1000 Scenario.document 0
                  "203.0.113.7" "curl" eq_refl eq_refl eq_refl eq_refl eq_refl)).
Defined.

(** * Further properties *)

(** ** The entity predicates over time *)

Lemma entity_predicates_split (now : Date) (g : AccessGrant.t) :
  AccessGrant.canRequestOtp now g = AccessGrant.isActive now g
  /\ AccessGrant.isActive now g
     = AccessStatus_eqb (AccessGrant.status g) APPROVED && negb (AccessGrant.isExpired now g)
  /\ AccessGrant.isExpired now g
     = AccessStatus_eqb (AccessGrant.status g) APPROVED && negb (AccessGrant.isActive now g).
Proof.
  unfold AccessGrant.canRequestOtp, AccessGrant.isActive, AccessGrant.isExpired.
  destruct (AccessStatus_eqb (AccessGrant.status g) APPROVED); simpl; [|auto].
  destruct (AccessGrant.expiryDate g) as [e|]; [destruct (e <? now)|]; auto.
Qed.

(** X1. [canRequestOtp] is [isActive]; a grant is active exactly when it
    is APPROVED and not expired, and expired exactly when it is APPROVED
    and not active, so no grant is both and a grant that is not APPROVED is
    neither. An expiry date equal to the clock value is not yet expired. *)
Theorem active_and_expired_split_approved (now : Date) (g : AccessGrant.t) :
  AccessGrant.canRequestOtp now g = AccessGrant.isActive now g
  /\ AccessGrant.isActive now g
     = AccessStatus_eqb (AccessGrant.status g) APPROVED && negb (AccessGrant.isExpired now g)
  /\ AccessGrant.isExpired now g
     = AccessStatus_eqb (AccessGrant.status g) APPROVED && negb (AccessGrant.isActive now g)
  /\ AccessGrant.isExpired now (AccessGrant.set_expiryDate (Some now) g) = false.
Proof.
  destruct (entity_predicates_split now g) as (A & B & C).
  split; [exact A|]. split; [exact B|]. split; [exact C|].
  unfold AccessGrant.isExpired. simpl.
  destruct (negb (AccessStatus_eqb (AccessGrant.status g) APPROVED)); [reflexivity|].
  rewrite Z.ltb_irrefl. reflexivity.
Qed.

Lemma isExpired_later (now now' : Date) (g : AccessGrant.t) :
  now <= now' -> AccessGrant.isExpired now g = true -> AccessGrant.isExpired now' g = true.
Proof.
  unfold AccessGrant.isExpired. intros L.
  destruct (negb (AccessStatus_eqb (AccessGrant.status g) APPROVED)); [auto|].
  destruct (AccessGrant.expiryDate g) as [e|]; [|auto].
  destruct (e <? now) eqn:E; [|discriminate]. intros _.
  apply Z.ltb_lt in E. assert ((e <? now') = true) as -> by (apply Z.ltb_lt; lia).
  reflexivity.
Qed.

Lemma isExpired_earlier (now now' : Date) (g : AccessGrant.t) :
  now <= now' -> AccessGrant.isExpired now' g = false -> AccessGrant.isExpired now g = false.
Proof.
  intros L F. destruct (AccessGrant.isExpired now g) eqn:E; [|reflexivity].
  rewrite (isExpired_later now now' g L E) in F. discriminate.
Qed.

(** X2. The passage of time alone only takes rights away: a grant that is
    active, may request or verify an OTP, or has an active session at a
    clock value had the same at every earlier one; an expired grant and an
    expired OTP stay expired. *)
Theorem time_only_lapses (now now' : Date) (g : AccessGrant.t) :
  now <= now' ->
  (AccessGrant.isActive now' g = true -> AccessGrant.isActive now g = true)
  /\ (AccessGrant.canRequestOtp now' g = true -> AccessGrant.canRequestOtp now g = true)
  /\ (AccessGrant.canVerifyOtp now' g = true -> AccessGrant.canVerifyOtp now g = true)
  /\ (AccessGrant.isSessionActive now' g = true -> AccessGrant.isSessionActive now g = true)
  /\ (AccessGrant.isExpired now g = true -> AccessGrant.isExpired now' g = true)
  /\ (AccessGrant.isOtpExpired now g = true -> AccessGrant.isOtpExpired now' g = true).
Proof.
  intros L.
  assert (A : AccessGrant.isActive now' g = true -> AccessGrant.isActive now g = true).
  { destruct (entity_predicates_split now g) as (_ & -> & _).
    destruct (entity_predicates_split now' g) as (_ & -> & _).
    rewrite !andb_true_iff, !negb_true_iff. intros [S E].
    split; [exact S | apply (isExpired_earlier now now' g L E)]. }
  assert (O : AccessGrant.isOtpExpired now g = true -> AccessGrant.isOtpExpired now' g = true).
  { unfold AccessGrant.isOtpExpired. destruct (AccessGrant.otpExpiryDate g) as [e|]; [|auto].
    rewrite !Z.ltb_lt. lia. }
  split; [exact A|]. split.
  { destruct (entity_predicates_split now g) as (-> & _).
    destruct (entity_predicates_split now' g) as (-> & _). exact A. }
  split.
  { unfold AccessGrant.canVerifyOtp.
    destruct (negb (truthy (AccessGrant.otp g))); [auto|].
    destruct (AccessGrant.isOtpExpired now g) eqn:E; [rewrite (O eq_refl); auto|].
    destruct (AccessGrant.isOtpExpired now' g); [discriminate | auto]. }
  split.
  { rewrite !isSessionActive_true. intros (V & E & [N | (last & La & T)]).
    - split; [exact V|]. split; [apply (isExpired_earlier now now' g L E) | left; exact N].
    - split; [exact V|]. split; [apply (isExpired_earlier now now' g L E)|].
      right. exists last. split; [exact La | lia]. }
  split; [apply isExpired_later, L | exact O].
Qed.

Lemma time_only_lapses_witness :
  let g := Scenario.withSession (Some 1000) (Scenario.grant "grant-1" APPROVED (Some 5000000)) in
  AccessGrant.isSessionActive 2000000 g = true
  /\ AccessGrant.isSessionActive 1500000 g = true.
Proof.
  intros g. split; [reflexivity|].
  destruct (time_only_lapses 1500000 2000000 g ltac:(discriminate)) as (_ & _ & _ & S & _).
  exact (S eq_refl).
Defined.

(** ** Number arithmetic *)

Section NumberArithmetic.

Import Number.

Lemma pow2_pos (e : Z) : (0 < pow2 e)%Q.
Proof. apply Qpower_0_lt. reflexivity. Qed.

Lemma pow2_add (a b : Z) : (pow2 (a + b) == pow2 a * pow2 b)%Q.
Proof. apply Qpower_plus. discriminate. Qed.

Lemma pow2_le (a b : Z) : a <= b -> (pow2 a <= pow2 b)%Q.
Proof. intros L. apply Qpower_le_compat_l; [exact L | discriminate]. Qed.

Lemma pow2_lt_inv (a b : Z) : (pow2 a < pow2 b)%Q -> a < b.
Proof. intros L. apply (Qpower_lt_compat_l_inv (2 # 1)); [exact L | reflexivity]. Qed.

Lemma pow2_nonneg (n : Z) : 0 <= n -> (pow2 n == inject_Z (2 ^ n))%Q.
Proof. intros L. unfold pow2. rewrite Zpower_Qpower by exact L. reflexivity. Qed.

Lemma pow2_sub (a b : Z) : 0 <= a -> 0 <= b ->
  (pow2 (a - b) == inject_Z (2 ^ a) / inject_Z (2 ^ b))%Q.
Proof.
  intros A B. unfold pow2. rewrite Qpower_minus by discriminate.
  fold (pow2 a). fold (pow2 b). rewrite !pow2_nonneg by assumption. reflexivity.
Qed.

Lemma exponent_spec (x : Q) :
  (0 < x)%Q -> (pow2 (exponent x) <= x)%Q /\ (x < pow2 (exponent x + 1))%Q.
Proof.
  destruct x as [n d]. intros P.
  assert (Pn : 0 < n) by (unfold Qlt in P; simpl in P; lia).
  unfold exponent. cbn [Qnum Qden].
  pose proof (Z.log2_spec n Pn) as [A1 A2].
  pose proof (Z.log2_spec (Zpos d) (Pos2Z.is_pos d)) as [B1 B2].
  pose proof (Z.log2_nonneg n) as An. pose proof (Z.log2_nonneg (Zpos d)) as Bn.
  set (a := Z.log2 n) in *. set (b := Z.log2 (Zpos d)) in *.
  assert (Pa : 0 < 2 ^ a) by (apply Z.pow_pos_nonneg; lia).
  assert (Pb : 0 < 2 ^ b) by (apply Z.pow_pos_nonneg; lia).
  assert (Sa : 2 ^ Z.succ a = 2 * 2 ^ a) by (apply Z.pow_succ_r; lia).
  assert (Sb : 2 ^ Z.succ b = 2 * 2 ^ b) by (apply Z.pow_succ_r; lia).
  assert (Qa : (0 < inject_Z (2 ^ a))%Q) by (unfold Qlt; simpl; lia).
  assert (Qb : (0 < inject_Z (2 ^ b))%Q) by (unfold Qlt; simpl; lia).
  assert (Qsb : (0 < inject_Z (2 ^ Z.succ b))%Q) by (unfold Qlt; simpl; lia).
  destruct (Z.leb_spec (Zpos d * 2 ^ a) (n * 2 ^ b)) as [L|L].
  - split.
    + rewrite pow2_sub by lia. apply Qle_shift_div_r; [exact Qb|].
      unfold Qle, Qmult, inject_Z. simpl. lia.
    + replace (a - b + 1) with (Z.succ a - b) by lia. rewrite pow2_sub by lia.
      apply Qlt_shift_div_l; [exact Qb|].
      unfold Qlt, Qmult, inject_Z. simpl. nia.
  - split.
    + replace (a - b - 1) with (a - Z.succ b) by lia. rewrite pow2_sub by lia.
      apply Qle_shift_div_r; [exact Qsb|].
      unfold Qle, Qmult, inject_Z. simpl. nia.
    + replace (a - b - 1 + 1) with (a - b) by lia. rewrite pow2_sub by lia.
      apply Qlt_shift_div_l; [exact Qb|].
      unfold Qlt, Qmult, inject_Z. simpl. lia.
Qed.

Lemma exponent_lt (x : Q) (n : Z) : (0 < x)%Q -> (x < pow2 n)%Q -> exponent x < n.
Proof.
  intros P U. destruct (exponent_spec x P) as [L _].
  apply pow2_lt_inv. apply (Qle_lt_trans _ x); assumption.
Qed.

Lemma exponent_ge (x : Q) (n : Z) : (0 < x)%Q -> (pow2 n <= x)%Q -> n <= exponent x.
Proof.
  intros P L. destruct (exponent_spec x P) as [_ U].
  assert (n < exponent x + 1); [|lia].
  apply pow2_lt_inv. apply (Qle_lt_trans _ x); assumption.
Qed.

Lemma roundTiesToEven_ge (q : Q) (n : Z) : (inject_Z n <= q)%Q -> n <= roundTiesToEven q.
Proof.
  intros L. assert (F : n <= Qfloor q).
  { rewrite <- (Qfloor_Z n). apply Qfloor_resp_le, L. }
  unfold roundTiesToEven. destruct (_ ?= _)%Q; [destruct (Z.even _)|..]; lia.
Qed.

Lemma roundTiesToEven_le (q : Q) (n : Z) :
  (q < inject_Z n + (1 # 2))%Q -> roundTiesToEven q <= n.
Proof.
  intros U. pose proof (Qfloor_le q) as F.
  assert (Fn : Qfloor q <= n).
  { assert (T : (inject_Z (Qfloor q) < inject_Z (n + 1))%Q).
    { rewrite inject_Z_plus. change (inject_Z 1) with 1%Q. lra. }
    rewrite <- Zlt_Qlt in T. lia. }
  unfold roundTiesToEven.
  destruct (Z.eq_dec (Qfloor q) n) as [E|E].
  - assert (C : (q - inject_Z (Qfloor q) ?= 1 # 2)%Q = Lt).
    { apply (proj1 (Qlt_alt _ _)). rewrite E. lra. }
    rewrite C. lia.
  - destruct (_ ?= _)%Q; [destruct (Z.even _)|..]; lia.
Qed.

Lemma Qabs_nonneg_eq (x : Q) : (0 <= x)%Q -> Qabs x = x.
Proof.
  destruct x as [n d]. intros P. unfold Qle in P. simpl in P.
  unfold Qabs. rewrite Z.abs_eq by lia. reflexivity.
Qed.

Lemma round_nonzero (x : Q) :
  ~ (x == 0)%Q -> round x = (inject_Z (roundTiesToEven (x / quantum x)) * quantum x)%Q.
Proof.
  intros N. unfold round. destruct (Qeq_bool x 0) eqn:E; [|reflexivity].
  apply Qeq_bool_iff in E. contradiction.
Qed.

(** A value between two points of a grid that is at least as coarse as the
    grid of the doubles around it rounds to a double between them. *)
Lemma round_between (x : Q) (K a b : Z) :
  (0 <= x)%Q -> -1074 <= K -> (x < pow2 (K + 53))%Q ->
  (inject_Z a * pow2 K <= x)%Q -> (x <= inject_Z b * pow2 K)%Q ->
  (inject_Z a * pow2 K <= round x)%Q /\ (round x <= inject_Z b * pow2 K)%Q.
Proof.
  intros P LK U A B.
  destruct (Qeq_bool x 0) eqn:E.
  { unfold round. rewrite E. apply Qeq_bool_iff in E. rewrite E in A, B. split; assumption. }
  assert (N : ~ (x == 0)%Q) by (apply Qeq_bool_neq, E).
  assert (Px : (0 < x)%Q) by (apply Qle_lteq in P; destruct P as [P|P]; [exact P | symmetry in P; contradiction]).
  rewrite (round_nonzero x N). unfold quantum. rewrite (Qabs_nonneg_eq x P).
  set (k := Z.max (exponent x - 52) (-1074)).
  assert (Lk : k <= K).
  { pose proof (exponent_lt x (K + 53) Px U). unfold k. lia. }
  assert (G : forall c, (inject_Z c * pow2 K == inject_Z (c * 2 ^ (K - k)) * pow2 k)%Q).
  { intros c. rewrite inject_Z_mult, <- Qmult_assoc. rewrite <- pow2_nonneg by lia.
    rewrite <- pow2_add. replace (K - k + k) with K by lia. reflexivity. }
  pose proof (pow2_pos k) as Pk.
  rewrite (G a) in A |- *. rewrite (G b) in B |- *.
  split.
  - apply Qmult_le_compat_r; [|apply Qlt_le_weak, Pk].
    rewrite <- Zle_Qle. apply roundTiesToEven_ge.
    apply Qle_shift_div_l; assumption.
  - apply Qmult_le_compat_r; [|apply Qlt_le_weak, Pk].
    rewrite <- Zle_Qle. apply roundTiesToEven_le.
    apply Qle_lt_trans with (inject_Z (b * 2 ^ (K - k))); [|lra].
    apply Qle_shift_div_r; assumption.
Qed.

(** A value that lies below the midpoint above a double rounds to that
    double or a lower one. *)
Lemma round_below_midpoint (x : Q) (e n : Z) :
  -1022 <= e -> (pow2 e <= x)%Q -> (x < pow2 (e + 1))%Q ->
  (x < (inject_Z n + (1 # 2)) * pow2 (e - 52))%Q ->
  (round x <= inject_Z n * pow2 (e - 52))%Q.
Proof.
  intros Le L U M.
  assert (Px : (0 < x)%Q) by (apply Qlt_le_trans with (pow2 e); [apply pow2_pos | exact L]).
  assert (N : ~ (x == 0)%Q) by (intros Z; rewrite Z in Px; discriminate).
  rewrite (round_nonzero x N). unfold quantum. rewrite (Qabs_nonneg_eq x (Qlt_le_weak _ _ Px)).
  assert (E : exponent x = e).
  { pose proof (exponent_lt x (e + 1) Px U). pose proof (exponent_ge x e Px L). lia. }
  rewrite E. replace (Z.max (e - 52) (-1074)) with (e - 52) by lia.
  pose proof (pow2_pos (e - 52)) as Pk.
  apply Qmult_le_compat_r; [|apply Qlt_le_weak, Pk].
  rewrite <- Zle_Qle. apply roundTiesToEven_le.
  apply Qlt_shift_div_r; assumption.
Qed.

Lemma double_below_one (r : Q) :
  IsDouble r -> (r < 1)%Q -> (r <= 1 - pow2 (-53))%Q.
Proof.
  intros (m & e & M & E & R) U.
  assert (H53 : (pow2 (-53) == 1 # 9007199254740992)%Q) by reflexivity.
  destruct (Z_lt_le_dec e (-53)) as [S|S].
  - assert (B : (r <= inject_Z (2 ^ 53) * pow2 (-54))%Q).
    { rewrite R. destruct (Z_lt_le_dec m 0) as [Neg|Pos].
      - apply Qle_trans with 0%Q.
        + setoid_replace 0%Q with (0 * pow2 e)%Q by ring.
          apply Qmult_le_compat_r; [|apply Qlt_le_weak, pow2_pos].
          change 0%Q with (inject_Z 0). rewrite <- Zle_Qle. lia.
        + apply Qmult_le_0_compat; [discriminate | apply Qlt_le_weak, pow2_pos].
      - apply Qle_trans with (inject_Z (2 ^ 53) * pow2 e)%Q.
        + apply Qmult_le_compat_r; [|apply Qlt_le_weak, pow2_pos].
          rewrite <- Zle_Qle. lia.
        + rewrite !(Qmult_comm (inject_Z (2 ^ 53))).
          apply Qmult_le_compat_r; [|discriminate].
          apply pow2_le. lia. }
    assert (H54 : (inject_Z (2 ^ 53) * pow2 (-54) == 1 # 2)%Q) by reflexivity.
    lra.
  - assert (G : (pow2 e == inject_Z (2 ^ (e + 53)) * pow2 (-53))%Q).
    { rewrite <- pow2_nonneg by lia. rewrite <- pow2_add.
      replace (e + 53 + -53) with e by lia. reflexivity. }
    rewrite G, Qmult_assoc, <- inject_Z_mult in R. rewrite H53 in R.
    set (k := m * 2 ^ (e + 53)) in *.
    assert (K : k < 2 ^ 53).
    { assert (T : (inject_Z k < inject_Z (2 ^ 53))%Q).
      { change (inject_Z (2 ^ 53)) with (9007199254740992 # 1). lra. }
      rewrite <- Zlt_Qlt in T. exact T. }
    assert (K' : (inject_Z k <= inject_Z (2 ^ 53 - 1))%Q) by (rewrite <- Zle_Qle; lia).
    change (inject_Z (2 ^ 53 - 1)) with (9007199254740991 # 1) in K'.
    lra.
Qed.

Lemma generated_number_in_range (r : Q) :
  IsDouble r -> (0 <= r)%Q -> (r < 1)%Q ->
  100000 <= Qfloor (round (inject_Z 100000 + round (r * inject_Z 900000))) <= 999999.
Proof.
  intros D L U.
  pose proof (double_below_one r D U) as B.
  assert (H53 : (pow2 (-53) == 1 # 9007199254740992)%Q) by reflexivity.
  assert (H33 : (pow2 (-33) == 1 # 8589934592)%Q) by reflexivity.
  assert (H19 : (pow2 19 == 524288 # 1)%Q) by reflexivity.
  assert (H20 : (pow2 20 == 1048576 # 1)%Q) by reflexivity.
  change (inject_Z 900000) with (900000 # 1). change (inject_Z 100000) with (100000 # 1).
  set (x := (r * (900000 # 1))%Q).
  assert (Lx : (0 <= x)%Q) by (unfold x; lra).
  assert (Ux : (x <= (900000 # 1) - (900000 # 1) * pow2 (-53))%Q) by (unfold x; lra).
  set (N := 7730941132800000).
  assert (P : (0 <= round x)%Q /\ (round x <= inject_Z (N - 1) * pow2 (-33))%Q).
  { destruct (round_between x (-33) 0 N) as [P0 _]; try lia.
    - exact Lx.
    - change (-33 + 53) with 20. lra.
    - change (inject_Z 0) with 0%Q. lra.
    - change (inject_Z N) with (7730941132800000 # 1). lra.
    - split; [change (inject_Z 0) with 0%Q in P0; lra|].
      destruct (Qlt_le_dec (inject_Z (N - 1) * pow2 (-33)) x) as [Hi|Lo].
      + change (inject_Z (N - 1)) with (7730941132799999 # 1) in Hi |- *.
        apply (round_below_midpoint x 19 (N - 1)); try lia.
        * lra.
        * change (19 + 1) with 20. lra.
        * change (19 - 52) with (-33).
          change (inject_Z (N - 1)) with (7730941132799999 # 1). lra.
      + apply (round_between x (-33) 0 (N - 1)); try lia.
        * exact Lx.
        * change (-33 + 53) with 20. lra.
        * change (inject_Z 0) with 0%Q. lra.
        * exact Lo. }
  destruct P as [P0 P1].
  change (inject_Z (N - 1)) with (7730941132799999 # 1) in P1.
  set (s := ((100000 # 1) + round x)%Q).
  destruct (round_between s (-33) (100000 * 2 ^ 33) (1000000 * 2 ^ 33 - 1)) as [S0 S1];
    try lia.
  - unfold s. lra.
  - change (-33 + 53) with 20. unfold s. lra.
  - change (inject_Z (100000 * 2 ^ 33)) with (858993459200000 # 1). unfold s. lra.
  - change (inject_Z (1000000 * 2 ^ 33 - 1)) with (8589934591999999 # 1). unfold s. lra.
  - change (inject_Z (100000 * 2 ^ 33)) with (858993459200000 # 1) in S0.
    change (inject_Z (1000000 * 2 ^ 33 - 1)) with (8589934591999999 # 1) in S1.
    split.
    + rewrite <- (Qfloor_Z 100000). apply Qfloor_resp_le.
      change (inject_Z 100000) with (100000 # 1). lra.
    + pose proof (Qfloor_le (round s)) as F.
      assert (T : (inject_Z (Qfloor (round s)) < inject_Z 1000000)%Q).
      { change (inject_Z 1000000) with (1000000 # 1). lra. }
      rewrite <- Zlt_Qlt in T. lia.
Qed.

End NumberArithmetic.

Lemma round_agrees_with_binary64 : forallb roundsAsBinary64 draws = true.
Proof. vm_compute. reflexivity. Qed.

(** ** The generated code *)

(** X3. For a draw of [Math.random()], a double of [0, 1), the generated
    OTP is the decimal numeral of an integer from 100000 to 999999, also
    after the rounding of the product and of the sum, and it is a truthy
    string. *)
Theorem generateOtp_in_range (rt : Runtime) :
  Number.IsDouble (random rt) -> (0 <= random rt)%Q -> (random rt < 1)%Q ->
  (exists n : Z,
      VerificationDownloadService.generateOtp rt = toString n /\ 100000 <= n <= 999999)
  /\ truthy (Some (VerificationDownloadService.generateOtp rt)) = true.
Proof.
  intros D L U. split.
  - eexists. split; [reflexivity|]. apply generated_number_in_range; assumption.
  - simpl. apply negb_true_iff, String.eqb_neq, toString_not_empty.
Qed.

Lemma generateOtp_in_range_witness :
  exists n : Z,
    VerificationDownloadService.generateOtp (Scenario.runtime 1000) = toString n
    /\ 100000 <= n <= 999999.
Proof.
  refine (proj1 (generateOtp_in_range (Scenario.runtime 1000) _ _ _)).
  - exists 1, (-2). split; [reflexivity|]. split; [lia | reflexivity].
  - discriminate.
  - reflexivity.
Defined.

(** ** What a request writes to the grants table *)

Ltac guards :=
  repeat match goal with
         | H : negb _ = false |- _ => apply negb_false_iff in H
         | H : negb _ = true |- _ => apply negb_true_iff in H
         end.

Ltac step_leaf :=
  cbn [snd fst accessGrants withAccessGrants withAuditLogs documents auditLogs];
  first
    [ apply step_unchanged
    | eapply step_inserted; [reflexivity | eassumption | apply existsb_id_fresh; assumption]
    | match goal with
      | H : List.find _ (accessGrants _) = Some ?g
        |- TableStep _ _ _ (accessGrantRepository.update_rows ?g' _) =>
        apply (step_saved _ _ _ g g'); [exact (proj1 (find_some _ _ H)) | | ]
      end ].

Lemma perform_TableStep (rt : Runtime) (op : Operation) (db : Tables) :
  NoDup (map AccessGrant.id (accessGrants db)) ->
  TableStep rt op (accessGrants db) (accessGrants (snd (perform rt op db))).
Proof.
  intros N. destruct op; unfold perform.
  - unfold ExternalRequestorService.submitAccessRequest. run. split_cases; step_leaf.
  - unfold DocumentService.approveAccessRequest. run. split_cases; step_leaf.
    + apply approved_id.
    + guards. simpl. split; [apply AccessStatus_eqb_eq; assumption|].
      split; [apply Z.leb_gt; assumption | reflexivity].
  - unfold DocumentService.denyAccessRequest. run. split_cases; step_leaf.
    + apply denied_id.
    + guards. simpl. split; [apply AccessStatus_eqb_eq; assumption | reflexivity].
  - unfold DocumentService.revokeAccessGrant. run. split_cases; step_leaf.
    + apply revoked_id.
    + reflexivity.
  - destruct (List.find (DocumentService.ownedDocument documentId ownerId) (documents db))
      as [document|] eqn:Hd.
    + unfold respond, bind.
      rewrite (bulkRevokeAccess_rows rt db documentId ownerId bulkRevokeDto document N Hd).
      cbn [snd fst accessGrants withAccessGrants ret]. apply step_rewritten. intros r _.
      destruct (bulkSelected rt documentId r) eqn:S; [right | left; reflexivity].
      split; [apply revoked_id|]. simpl. split; [exact S | reflexivity].
    + unfold DocumentService.bulkRevokeAccess. run. rewrite Hd. step_leaf.
  - unfold VerificationDownloadService.initiateVerification. run. split_cases; step_leaf.
  - unfold VerificationDownloadService.requestOtp. run. split_cases; step_leaf.
    all: try reflexivity.
    all: guards; simpl; split; [assumption|];
      match goal with H : (_ && _)%bool = _ |- _ => rewrite H end; reflexivity.
  - unfold VerificationDownloadService.verifyOtp. run. split_cases; step_leaf.
    all: try reflexivity.
    all: guards; simpl; split; [assumption|]; auto.
  - unfold VerificationDownloadService.validateDownloadSession. run. split_cases; step_leaf.
    all: try reflexivity.
    all: guards; simpl; split; [assumption | reflexivity].
  - unfold VerificationDownloadService.getDocumentForDownload. run. split_cases; step_leaf.
    all: try reflexivity.
    all: guards; simpl; split; [assumption | reflexivity].
  - unfold VerificationDownloadService.recordDownload. run. split_cases; step_leaf.
    all: try reflexivity.
    all: guards; simpl; split; [assumption | reflexivity].
Qed.

Lemma Forall2_map_in {A} (R : A -> A -> Prop) (h : A -> A) (l : list A) :
  (forall a, In a l -> R a (h a)) -> Forall2 R l (map h l).
Proof.
  induction l as [|a l IH]; intros H; simpl; constructor.
  - apply H. left. reflexivity.
  - apply IH. intros b I. apply H. right. exact I.
Qed.

Lemma TableStep_rows (rt : Runtime) (op : Operation) (rows rows' : list AccessGrant.t) :
  NoDup (map AccessGrant.id rows) ->
  TableStep rt op rows rows' ->
  exists updated extra,
    rows' = updated ++ extra
    /\ Forall2 (fun r r' => r' = r \/ (AccessGrant.id r' = AccessGrant.id r
                                       /\ GrantWrite rt op r r')) rows updated
    /\ (extra = []
        \/ exists documentId submitDto,
             op = SubmitAccessRequest documentId submitDto
             /\ List.find (ExternalRequestorService.isPendingRequest documentId
                             (SubmitAccessRequestDto.requestorEmail submitDto)) rows = None
             /\ extra = [ExternalRequestorService.create rt documentId submitDto (uuidv4 rt)]).
Proof.
  intros N S. destruct S as [|g g' I E W|documentId submitDto O P Fresh|f Hf].
  - exists rows, []. split; [symmetry; apply app_nil_r|]. split; [|left; reflexivity].
    rewrite <- (map_id rows) at 2. apply Forall2_map_in. intros r _. left. reflexivity.
  - exists (accessGrantRepository.update_rows g' rows), [].
    split; [symmetry; apply app_nil_r|]. split; [|left; reflexivity].
    apply Forall2_map_in. intros r Ir.
    destruct (String.eqb (AccessGrant.id r) (AccessGrant.id g')) eqn:Q; [|left; reflexivity].
    apply String.eqb_eq in Q. right.
    assert (r = g) as -> by (apply (key_determines_row rows); auto; congruence).
    split; [exact E | exact W].
  - exists rows, [ExternalRequestorService.create rt documentId submitDto (uuidv4 rt)].
    split; [reflexivity|]. split.
    + rewrite <- (map_id rows) at 2. apply Forall2_map_in. intros r _. left. reflexivity.
    + right. exists documentId, submitDto. auto.
  - exists (map f rows), []. split; [symmetry; apply app_nil_r|]. split; [|left; reflexivity].
    apply Forall2_map_in. intros r Ir. destruct (Hf r Ir) as [-> | H]; auto.
Qed.

(** ** Invariants of the grants table *)

Lemma GrantWrite_invariant (rt : Runtime) (op : Operation) (g g' : AccessGrant.t) :
  GrantInvariant g -> GrantWrite rt op g g' -> GrantInvariant g'.
Proof.
  unfold GrantInvariant. intros (A & V & P & Ap) W. destruct op; simpl in W.
  - destruct W.
  - destruct W as (S & _ & ->).
    rewrite approved_otpAttempts, approved_status, approved_expiryDate.
    split; [exact A|]. split.
    + unfold DocumentService.approved.
      destruct (truthy (ApproveAccessRequestDto.message approveDto)); exact V.
    + split; discriminate.
  - destruct W as (S & ->). rewrite denied_otpAttempts, denied_status.
    split; [exact A|]. split.
    + unfold DocumentService.denied.
      destruct (truthy (DocumentService.optField DenyAccessRequestDto.reason denyDto)); exact V.
    + split; discriminate.
  - subst g'. rewrite revoked_otpAttempts, revoked_status.
    split; [exact A|]. split.
    + rewrite revoked_assigns. exact V.
    + split; discriminate.
  - destruct W as (_ & ->). rewrite revoked_otpAttempts, revoked_status.
    split; [exact A|]. split.
    + rewrite revoked_assigns. exact V.
    + split; discriminate.
  - destruct W.
  - destruct W as (_ & ->).
    destruct (AccessGrant.isVerified g && negb (AccessGrant.isSessionActive (now rt) g));
      simpl; (split; [lia|]); (split; [|split; assumption]).
    + discriminate.
    + exact V.
  - destruct W as (C & [(_ & ->) | (_ & ->)]); simpl.
    + unfold AccessGrant.canVerifyOtp in C.
      destruct (negb (truthy (AccessGrant.otp g))); [discriminate|].
      destruct (AccessGrant.isOtpExpired (now rt) g); [discriminate|].
      destruct (AccessGrant.otpAttempts g >=? 3) eqn:G; [discriminate|].
      rewrite Z.geb_leb in G. apply Z.leb_gt in G.
      split; [lia|]. split; [exact V | split; assumption].
    + split; [exact A|]. split; [intros _; repeat split; discriminate | split; assumption].
  - destruct W as (S & ->). simpl. apply isSessionActive_true in S. destruct S as (T & _).
    split; [exact A|]. split; [|split; assumption].
    intros _. destruct (V T) as (X & Y & _). repeat split; try assumption. discriminate.
  - destruct W as (S & ->). simpl. apply isSessionActive_true in S. destruct S as (T & _).
    split; [exact A|]. split; [|split; assumption].
    intros _. destruct (V T) as (X & Y & _). repeat split; try assumption. discriminate.
  - destruct W as (S & ->). simpl. apply isSessionActive_true in S. destruct S as (T & _).
    split; [exact A|]. split; [|split; assumption].
    intros _. destruct (V T) as (X & Y & _). repeat split; try assumption. discriminate.
Qed.

Lemma create_invariant (rt : Runtime) (documentId : string)
    (submitDto : SubmitAccessRequestDto.t) (requestUUID : string) :
  GrantInvariant (ExternalRequestorService.create rt documentId submitDto requestUUID).
Proof.
  unfold GrantInvariant. simpl. split; [lia|]. repeat split; discriminate.
Qed.

Lemma perform_invariant (rt : Runtime) (op : Operation) (db : Tables) :
  NoDup (map AccessGrant.id (accessGrants db)) ->
  Forall GrantInvariant (accessGrants db) ->
  Forall GrantInvariant (accessGrants (snd (perform rt op db))).
Proof.
  intros N F.
  destruct (TableStep_rows rt op _ _ N (perform_TableStep rt op db N))
    as (updated & extra & -> & U & X).
  apply Forall_app. split.
  - clear X. induction U as [|r r' rows updated [-> | [_ W]] U IH].
    + constructor.
    + inversion F; subst. constructor; [assumption | apply IH; [inversion N|]; assumption].
    + inversion F; subst. constructor.
      * apply (GrantWrite_invariant rt op r); assumption.
      * apply IH; [inversion N|]; assumption.
  - destruct X as [-> | (d & dto & _ & _ & ->)]; constructor.
    + apply create_invariant.
    + constructor.
Qed.

(** X4. Along every sequence of requests on a grants table with a primary
    key, every grant keeps [0 <= otpAttempts <= 3], a verified grant has
    [verifiedAt], [downloadSessionToken] and [lastActivityAt], a PENDING
    grant has no expiry date and an APPROVED grant has one. *)
Theorem requests_keep_grant_invariant (calls : list (Runtime * Operation)) (db : Tables) :
  NoDup (map AccessGrant.id (accessGrants db)) ->
  Forall GrantInvariant (accessGrants db) ->
  Forall GrantInvariant (accessGrants (performAll calls db)).
Proof.
  revert db. induction calls as [|[rt op] calls IH]; intros db N F; simpl; [exact F|].
  apply IH; [apply perform_rows, N | apply perform_invariant; assumption].
Qed.

Lemma requests_keep_grant_invariant_witness :
  let db := Scenario.tables [Scenario.grant "grant-1" PENDING None] in
  let calls :=
    [(Scenario.runtime 1000,
      ApproveAccessRequest "doc-1" "grant-1" "owner-1" (ApproveAccessRequestDto.mk 5000000 None));
     (Scenario.runtime 2000, RequestOtp (RequestOtpDto.mk Scenario.token Scenario.email));
     (Scenario.runtime 3000, VerifyOtp (Scenario.verifyDto "000000"))] in
  map AccessGrant.otpAttempts (accessGrants (performAll calls db)) = [1]
  /\ Forall GrantInvariant (accessGrants (performAll calls db)).
Proof.
  intros db calls. split; [reflexivity|].
  apply (requests_keep_grant_invariant calls db).
  - constructor; [intros [] | constructor].
  - constructor; [|constructor]. unfold GrantInvariant. simpl.
    split; [split; discriminate|]. repeat split; discriminate.
Defined.

(** ** One pending request per requestor and document *)

Lemma filter_length_Forall2 {A} (p : A -> bool) (R : A -> A -> Prop) (l l' : list A) :
  (forall a a', R a a' -> p a' = true -> p a = true) ->
  Forall2 R l l' ->
  (List.length (filter p l') <= List.length (filter p l))%nat.
Proof.
  intros H F. induction F as [|a a' l l' Ra F IH]; simpl; [lia|].
  destruct (p a') eqn:P'.
  - rewrite (H a a' Ra P'). simpl. lia.
  - destruct (p a); simpl; lia.
Qed.

Lemma find_none_filter {A} (p : A -> bool) (l : list A) :
  List.find p l = None -> filter p l = [].
Proof.
  induction l as [|a l IH]; simpl; [reflexivity|].
  destruct (p a); [discriminate | exact IH].
Qed.

Lemma GrantWrite_pending (rt : Runtime) (op : Operation) (g g' : AccessGrant.t)
    (documentId requestorEmail : string) :
  GrantWrite rt op g g' ->
  ExternalRequestorService.isPendingRequest documentId requestorEmail g' = true ->
  ExternalRequestorService.isPendingRequest documentId requestorEmail g = true.
Proof.
  intros W. rewrite !isPendingRequest_true. destruct op; simpl in W.
  - destruct W.
  - destruct W as (_ & _ & ->). rewrite approved_status. intros (_ & _ & S). discriminate.
  - destruct W as (_ & ->). rewrite denied_status. intros (_ & _ & S). discriminate.
  - subst g'. rewrite revoked_status. intros (_ & _ & S). discriminate.
  - destruct W as (_ & ->). rewrite revoked_status. intros (_ & _ & S). discriminate.
  - destruct W.
  - destruct W as (_ & ->).
    destruct (AccessGrant.isVerified g && negb (AccessGrant.isSessionActive (now rt) g));
      simpl; auto.
  - destruct W as (_ & [(_ & ->) | (_ & ->)]); simpl; auto.
  - destruct W as (_ & ->). simpl. auto.
  - destruct W as (_ & ->). simpl. auto.
  - destruct W as (_ & ->). simpl. auto.
Qed.

Lemma perform_pending (rt : Runtime) (op : Operation) (db : Tables) :
  NoDup (map AccessGrant.id (accessGrants db)) ->
  AtMostOnePending (accessGrants db) ->
  AtMostOnePending (accessGrants (snd (perform rt op db))).
Proof.
  intros N P documentId requestorEmail.
  destruct (TableStep_rows rt op _ _ N (perform_TableStep rt op db N))
    as (updated & extra & -> & U & X).
  assert (L : (List.length (filter (ExternalRequestorService.isPendingRequest documentId
                                      requestorEmail) updated)
               <= List.length (filter (ExternalRequestorService.isPendingRequest documentId
                                         requestorEmail) (accessGrants db)))%nat).
  { apply filter_length_Forall2 with (2 := U).
    intros r r' [-> | [_ W]]; [auto | apply (GrantWrite_pending rt op), W]. }
  rewrite filter_app, length_app.
  destruct X as [-> | (d & dto & _ & F & ->)].
  - simpl. specialize (P documentId requestorEmail). lia.
  - simpl.
    destruct (ExternalRequestorService.isPendingRequest documentId requestorEmail
                (ExternalRequestorService.create rt d dto (uuidv4 rt))) eqn:Q; simpl.
    + apply isPendingRequest_true in Q. simpl in Q. destruct Q as (<- & <- & _).
      rewrite (find_none_filter _ _ F) in L. simpl in L. lia.
    + specialize (P documentId requestorEmail). lia.
Qed.

(** X5. A grants table with a primary key that holds at most one PENDING
    grant for each pair of document and requestor email still does after
    every sequence of requests. *)
Theorem requests_keep_one_pending (calls : list (Runtime * Operation)) (db : Tables) :
  NoDup (map AccessGrant.id (accessGrants db)) ->
  AtMostOnePending (accessGrants db) ->
  AtMostOnePending (accessGrants (performAll calls db)).
Proof.
  revert db. induction calls as [|[rt op] calls IH]; intros db N P; simpl; [exact P|].
  apply IH; [apply perform_rows, N | apply perform_pending; assumption].
Qed.

Lemma requests_keep_one_pending_witness :
  let db := Scenario.tables [] in
  let submitDto := SubmitAccessRequestDto.mk "alice@x.com" None None "review" in
  let calls :=
    [(Scenario.runtime 1000, SubmitAccessRequest "doc-1" submitDto);
     (Scenario.runtime 2000, SubmitAccessRequest "doc-1" submitDto)] in
  map AccessGrant.status (accessGrants (performAll calls db)) = [PENDING]
  /\ AtMostOnePending (accessGrants (performAll calls db)).
Proof.
  intros db submitDto calls. split; [reflexivity|].
  apply (requests_keep_one_pending calls db).
  - constructor.
  - intros d e. apply le_S, le_n.
Defined.

(** ** The checks of verification *)

Lemma initiateVerification_outcome (rt : Runtime) (dto : InitiateVerificationDto.t)
    (db : Tables) :
  outcome (fst (VerificationDownloadService.initiateVerification rt dto db))
  = admission rt (InitiateVerificationDto.requestUUID dto)
      (InitiateVerificationDto.requestorEmail dto) db
  /\ accessGrants (snd (VerificationDownloadService.initiateVerification rt dto db))
     = accessGrants db
  /\ documents (snd (VerificationDownloadService.initiateVerification rt dto db))
     = documents db.
Proof.
  unfold VerificationDownloadService.initiateVerification, admission. run.
  destruct (List.find _ (accessGrants db)) as [g|]; [|repeat split].
  destruct (entity_predicates_split (now rt) g) as (_ & -> & _).
  destruct (AccessStatus_eqb (AccessGrant.status g) APPROVED); cbn [negb andb];
    [|repeat split].
  destruct (AccessGrant.isExpired (now rt) g); cbn [negb]; [repeat split|].
  destruct (List.find _ (documents db)) as [d|]; [|repeat split].
  destruct (VisibilityStatus_eqb (DocumentFile.visibilityStatus d) PUBLIC); cbn [negb];
    [|repeat split].
  audit. repeat split.
Qed.

Lemma requestOtp_outcome (rt : Runtime) (dto : RequestOtpDto.t) (db : Tables) :
  outcome (fst (VerificationDownloadService.requestOtp rt dto db))
  = admission rt (RequestOtpDto.requestUUID dto) (RequestOtpDto.requestorEmail dto) db
  /\ documents (snd (VerificationDownloadService.requestOtp rt dto db)) = documents db.
Proof.
  unfold VerificationDownloadService.requestOtp, admission. run.
  destruct (List.find _ (accessGrants db)) as [g|]; [|repeat split].
  destruct (entity_predicates_split (now rt) g) as (-> & _).
  destruct (AccessGrant.isActive (now rt) g); cbn [negb]; [|repeat split].
  destruct (List.find _ (documents db)) as [d|]; [|repeat split].
  destruct (VisibilityStatus_eqb (DocumentFile.visibilityStatus d) PUBLIC); cbn [negb];
    [|repeat split].
  destruct (AccessGrant.isVerified g && negb (AccessGrant.isSessionActive (now rt) g));
    repeat audit; repeat split.
Qed.

(** X6. [initiateVerification] writes neither grants nor documents. It
    returns exactly when a grant matches the UUID and email, the grant is
    active and its document is public; it throws NotFound exactly when no
    grant matches both, BadRequest exactly when the matching grant is not
    active, and Forbidden when the grant is active and the document is not
    public. *)
Theorem initiateVerification_is_a_read_only_gate
    (rt : Runtime) (dto : InitiateVerificationDto.t) (db : Tables) :
  let call := VerificationDownloadService.initiateVerification rt dto db in
  let found := List.find (VerificationDownloadService.byTokenAndEmail
                            (InitiateVerificationDto.requestUUID dto)
                            (InitiateVerificationDto.requestorEmail dto)) (accessGrants db) in
  accessGrants (snd call) = accessGrants db
  /\ documents (snd call) = documents db
  /\ (outcome (fst call) = NotFound <-> found = None)
  /\ (outcome (fst call) = BadRequest
      <-> exists g, found = Some g /\ AccessGrant.isActive (now rt) g = false)
  /\ (outcome (fst call) = Returned
      <-> exists g d, found = Some g
                      /\ AccessGrant.isActive (now rt) g = true
                      /\ List.find (fun d => String.eqb (DocumentFile.id d)
                                                (AccessGrant.documentId g)) (documents db)
                         = Some d
                      /\ DocumentFile.visibilityStatus d = PUBLIC)
  /\ (outcome (fst call) = Forbidden
      <-> exists g d, found = Some g
                      /\ AccessGrant.isActive (now rt) g = true
                      /\ List.find (fun d => String.eqb (DocumentFile.id d)
                                                (AccessGrant.documentId g)) (documents db)
                         = Some d
                      /\ DocumentFile.visibilityStatus d <> PUBLIC).
Proof.
  intros call found.
  destruct (initiateVerification_outcome rt dto db) as (O & G & D).
  fold call in O, G, D. split; [exact G|]. split; [exact D|].
  rewrite O. unfold admission. fold found.
  destruct found as [g|].
  2: { split; [split; reflexivity|].
       split; [split; [discriminate | intros (g & E & _); discriminate]|].
       split; split; first [discriminate | intros (g & d & E & _); discriminate]. }
  destruct (AccessGrant.isActive (now rt) g) eqn:A.
  2: { repeat split; try discriminate.
       - intros _. exists g. auto.
       - intros (g0 & d & E & A0 & _). injection E as <-. congruence.
       - intros (g0 & d & E & A0 & _). injection E as <-. congruence. }
  destruct (List.find (fun d => String.eqb (DocumentFile.id d) (AccessGrant.documentId g))
              (documents db)) as [d|] eqn:Fd.
  2: { repeat split; try discriminate.
       - intros (g0 & E & A0). injection E as <-. congruence.
       - intros (g0 & d & E & _ & F & _). injection E as <-. congruence.
       - intros (g0 & d & E & _ & F & _). injection E as <-. congruence. }
  destruct (DocumentFile.visibilityStatus d) eqn:V; simpl.
  - repeat split; try discriminate.
    + intros (g0 & E & A0). injection E as <-. congruence.
    + intros _. exists g, d. auto.
    + intros (g0 & d0 & E & _ & F & P). injection E as <-.
      rewrite Fd in F. injection F as <-. congruence.
  - repeat split; try discriminate.
    + intros (g0 & E & A0). injection E as <-. congruence.
    + intros (g0 & d0 & E & _ & F & P). injection E as <-.
      rewrite Fd in F. injection F as <-. congruence.
    + intros _. exists g, d. repeat split; auto. rewrite V. discriminate.
Qed.

(** X7. [initiateVerification] and [requestOtp], asked at the same clock
    value for the same request UUID and email, have outcomes of the same
    class: the one returns exactly when the other does, and they throw the
    same kind of exception. *)
Theorem initiateVerification_agrees_with_requestOtp
    (rt : Runtime) (requestUUID requestorEmail : string) (db : Tables) :
  outcome (fst (VerificationDownloadService.initiateVerification rt
                  (InitiateVerificationDto.mk requestUUID requestorEmail) db))
  = outcome (fst (VerificationDownloadService.requestOtp rt
                    (RequestOtpDto.mk requestUUID requestorEmail) db)).
Proof.
  destruct (initiateVerification_outcome rt
              (InitiateVerificationDto.mk requestUUID requestorEmail) db) as (-> & _).
  destruct (requestOtp_outcome rt (RequestOtpDto.mk requestUUID requestorEmail) db)
    as (-> & _).
  reflexivity.
Qed.

(** ** The checks of a download session *)

Lemma validateDownloadSession_outcome (rt : Runtime) (dto : DownloadSessionCheckDto.t)
    (db : Tables) :
  let call := VerificationDownloadService.validateDownloadSession rt dto db in
  let token := DownloadSessionCheckDto.downloadSessionToken dto in
  outcome (fst call) = sessionGate rt token db
  /\ accessGrants (snd call)
     = (if match sessionGate rt token db with Returned => true | _ => false end
        then sessionTouched rt token db else accessGrants db)
  /\ documents (snd call) = documents db.
Proof.
  unfold VerificationDownloadService.validateDownloadSession, sessionGate, sessionTouched. run.
  destruct (List.find _ (accessGrants db)) as [g|]; [|repeat split].
  destruct (AccessGrant.isSessionActive (now rt) g); cbn [negb]; [|audit; repeat split].
  destruct (List.find _ (documents db)) as [d|]; [|repeat split].
  destruct (VisibilityStatus_eqb (DocumentFile.visibilityStatus d) PUBLIC); cbn [negb];
    [|audit]; repeat split.
Qed.

Lemma getDocumentForDownload_outcome (rt : Runtime) (token : string) (db : Tables) :
  let call := VerificationDownloadService.getDocumentForDownload rt token db in
  outcome (fst call) = sessionGate rt token db
  /\ accessGrants (snd call)
     = (if match sessionGate rt token db with Returned => true | _ => false end
        then sessionTouched rt token db else accessGrants db)
  /\ documents (snd call) = documents db.
Proof.
  unfold VerificationDownloadService.getDocumentForDownload, sessionGate, sessionTouched. run.
  destruct (List.find _ (accessGrants db)) as [g|]; [|repeat split].
  destruct (AccessGrant.isSessionActive (now rt) g); cbn [negb]; [|audit; repeat split].
  destruct (List.find _ (documents db)) as [d|]; [|repeat split].
  destruct (VisibilityStatus_eqb (DocumentFile.visibilityStatus d) PUBLIC); cbn [negb];
    [|audit]; repeat split.
Qed.

Lemma recordDownload_outcome (rt : Runtime) (token : string) (bytesDownloaded : Z)
    (ipAddress userAgent : string) (db : Tables) :
  let call := VerificationDownloadService.recordDownload rt token bytesDownloaded ipAddress
                userAgent db in
  match List.find (VerificationDownloadService.bySessionToken token) (accessGrants db) with
  | None => outcome (fst call) = NotFound /\ accessGrants (snd call) = accessGrants db
  | Some g =>
    if AccessGrant.isSessionActive (now rt) g
    then outcome (fst call) = Returned /\ accessGrants (snd call) = sessionTouched rt token db
    else outcome (fst call) = Forbidden /\ accessGrants (snd call) = accessGrants db
  end.
Proof.
  unfold VerificationDownloadService.recordDownload, sessionTouched. run.
  destruct (List.find _ (accessGrants db)) as [g|]; [|repeat split].
  destruct (AccessGrant.isSessionActive (now rt) g); cbn [negb]; [audit|]; repeat split.
Qed.

(** X8. [validateDownloadSession] and [getDocumentForDownload] make the
    same checks: for every session token their outcomes are of the same
    class and they leave the same grants. [recordDownload] returns exactly
    when the verified grant of the token is found and its session is
    active, without looking at the document: it returns whenever the other
    two do, and refreshes the same activity. *)
Theorem session_checks_agree (rt : Runtime) (token : string) (bytesDownloaded : Z)
    (ipAddress userAgent : string) (db : Tables) :
  let validated := VerificationDownloadService.validateDownloadSession rt
                     (DownloadSessionCheckDto.mk token) db in
  let fetched := VerificationDownloadService.getDocumentForDownload rt token db in
  let recorded := VerificationDownloadService.recordDownload rt token bytesDownloaded
                    ipAddress userAgent db in
  outcome (fst validated) = outcome (fst fetched)
  /\ accessGrants (snd validated) = accessGrants (snd fetched)
  /\ (outcome (fst recorded) = Returned
      <-> exists g, List.find (VerificationDownloadService.bySessionToken token)
                      (accessGrants db) = Some g
                    /\ AccessGrant.isSessionActive (now rt) g = true)
  /\ (outcome (fst validated) = Returned ->
      outcome (fst recorded) = Returned
      /\ accessGrants (snd recorded) = accessGrants (snd validated)).
Proof.
  intros validated fetched recorded.
  destruct (validateDownloadSession_outcome rt (DownloadSessionCheckDto.mk token) db)
    as (Vo & Vg & _).
  destruct (getDocumentForDownload_outcome rt token db) as (Fo & Fg & _).
  pose proof (recordDownload_outcome rt token bytesDownloaded ipAddress userAgent db) as Rc.
  cbv zeta in Vo, Vg, Fo, Fg, Rc. cbn [DownloadSessionCheckDto.downloadSessionToken] in Vo, Vg.
  fold validated in Vo, Vg. fold fetched in Fo, Fg. fold recorded in Rc.
  split; [congruence|]. split; [congruence|].
  rewrite Vo, Vg. unfold sessionGate.
  destruct (List.find (VerificationDownloadService.bySessionToken token) (accessGrants db))
    as [g|] eqn:F.
  2: { destruct Rc as [Ro _]. rewrite Ro. split.
       - split; [discriminate | intros (g & E & _); discriminate].
       - discriminate. }
  destruct (AccessGrant.isSessionActive (now rt) g) eqn:A; destruct Rc as [Ro Rg]; rewrite Ro.
  - split; [split; [intros _; exists g; auto | reflexivity]|].
    intros Ret. split; [reflexivity|]. rewrite Rg.
    destruct (List.find _ (documents db)) as [d|]; [|discriminate].
    destruct (VisibilityStatus_eqb (DocumentFile.visibilityStatus d) PUBLIC);
      [reflexivity | discriminate].
  - split; [|discriminate].
    split; [discriminate | intros (g0 & E & A0); injection E as <-; congruence].
Qed.

(** ** The life of a download session *)

Lemma find_update_rows_unique (p : AccessGrant.t -> bool) (rows : list AccessGrant.t)
    (g g' : AccessGrant.t) :
  In g rows ->
  AccessGrant.id g' = AccessGrant.id g ->
  p g' = true ->
  (forall r, In r rows -> p r = true -> AccessGrant.id r = AccessGrant.id g) ->
  List.find p (accessGrantRepository.update_rows g' rows) = Some g'.
Proof.
  intros I E P U. induction rows as [|r rows IH]; simpl in *; [contradiction|].
  destruct (String.eqb (AccessGrant.id r) (AccessGrant.id g')) eqn:Q.
  - rewrite P. reflexivity.
  - destruct (p r) eqn:Pr.
    + rewrite (U r (or_introl eq_refl) Pr), E, String.eqb_refl in Q. discriminate.
    + apply IH.
      * destruct I as [-> | I]; [|exact I].
        rewrite E, String.eqb_refl in Q. discriminate.
      * intros r0 I0. apply U. right. exact I0.
Qed.

Lemma find_update_rows_none (p : AccessGrant.t -> bool) (rows : list AccessGrant.t)
    (g' : AccessGrant.t) :
  p g' = false ->
  (forall r, In r rows -> p r = true -> AccessGrant.id r = AccessGrant.id g') ->
  List.find p (accessGrantRepository.update_rows g' rows) = None.
Proof.
  intros P U. induction rows as [|r rows IH]; simpl in *; [reflexivity|].
  destruct (String.eqb (AccessGrant.id r) (AccessGrant.id g')) eqn:Q.
  - rewrite P. apply IH. intros r0 I0. apply U. right. exact I0.
  - destruct (p r) eqn:Pr.
    + rewrite (U r (or_introl eq_refl) Pr), String.eqb_refl in Q. discriminate.
    + apply IH. intros r0 I0. apply U. right. exact I0.
Qed.

Lemma isSessionActive_touched (now now' : Date) (g : AccessGrant.t) :
  AccessGrant.isVerified g = true ->
  AccessGrant.isSessionActive now' (AccessGrant.set_lastActivityAt (Some now) g)
  = negb (AccessGrant.isExpired now' g) && (now' - now <? 60 * 60 * 1000).
Proof.
  intros V.
  destruct (AccessGrant.isSessionActive now' (AccessGrant.set_lastActivityAt (Some now) g))
    eqn:S.
  - apply isSessionActive_true in S. destruct S as (_ & E & [N | (last & L & T)]);
      [discriminate|].
    simpl in L. injection L as <-.
    change (AccessGrant.isExpired now' g = false) in E. rewrite E. cbn [negb andb].
    symmetry. apply Z.ltb_lt, T.
  - destruct (AccessGrant.isExpired now' g) eqn:E; [reflexivity|]. cbn [negb andb].
    destruct (now' - now <? 60 * 60 * 1000) eqn:T; [|reflexivity].
    apply Z.ltb_lt in T.
    assert (A : AccessGrant.isSessionActive now' (AccessGrant.set_lastActivityAt (Some now) g)
                = true).
    { apply isSessionActive_true. split; [exact V|]. split; [exact E|].
      right. exists now. split; [reflexivity | exact T]. }
    congruence.
Qed.

Lemma bySessionToken_verified (token : string) (g : AccessGrant.t) :
  VerificationDownloadService.bySessionToken token g = true ->
  AccessGrant.isVerified g = true.
Proof.
  unfold VerificationDownloadService.bySessionToken. intros B.
  apply andb_true_iff in B. destruct B as [_ B].
  destruct (AccessGrant.isVerified g); [reflexivity | discriminate].
Qed.

(** X9. A use of the session that returns slides its window: after
    [validateDownloadSession] has returned at one clock value, the grant
    of the token has [lastActivityAt] at that value, and a later
    [validateDownloadSession] of the same token, the document still being
    public, returns exactly when the grant has not expired and less than
    60 minutes have passed since the first; otherwise it throws Forbidden. *)
Theorem validateDownloadSession_slides_the_window
    (rt1 rt2 : Runtime) (token : string) (db : Tables)
    (g : AccessGrant.t) (d : DocumentFile.t) :
  List.find (VerificationDownloadService.bySessionToken token) (accessGrants db) = Some g ->
  AccessGrant.isSessionActive (now rt1) g = true ->
  List.find (fun d => String.eqb (DocumentFile.id d) (AccessGrant.documentId g)) (documents db)
    = Some d ->
  DocumentFile.visibilityStatus d = PUBLIC ->
  let dto := DownloadSessionCheckDto.mk token in
  let first := VerificationDownloadService.validateDownloadSession rt1 dto db in
  let second := VerificationDownloadService.validateDownloadSession rt2 dto (snd first) in
  outcome (fst first) = Returned
  /\ List.find (VerificationDownloadService.bySessionToken token) (accessGrants (snd first))
     = Some (AccessGrant.set_lastActivityAt (Some (now rt1)) g)
  /\ (outcome (fst second) = Returned
      <-> AccessGrant.isExpired (now rt2) g = false /\ now rt2 - now rt1 < 60 * 60 * 1000)
  /\ (outcome (fst second) <> Returned -> outcome (fst second) = Forbidden).
Proof.
  intros F A D P dto first second.
  destruct (validateDownloadSession_outcome rt1 dto db) as (O1 & G1 & D1).
  cbv zeta in O1, G1, D1. cbn [DownloadSessionCheckDto.downloadSessionToken dto] in O1, G1.
  fold first in O1, G1, D1.
  assert (Gate1 : sessionGate rt1 token db = Returned).
  { unfold sessionGate. rewrite F, A, D, P. reflexivity. }
  rewrite Gate1 in O1, G1. unfold sessionTouched in G1. rewrite F in G1.
  assert (F1 : List.find (VerificationDownloadService.bySessionToken token)
                 (accessGrants (snd first))
               = Some (AccessGrant.set_lastActivityAt (Some (now rt1)) g)).
  { rewrite G1. apply find_update_rows with (g := g); [exact F | | reflexivity].
    apply bySessionToken_same with (g := g); [apply (find_some _ _ F) | reflexivity..]. }
  split; [exact O1|]. split; [exact F1|].
  destruct (validateDownloadSession_outcome rt2 dto (snd first)) as (O2 & _).
  cbv zeta in O2. cbn [DownloadSessionCheckDto.downloadSessionToken dto] in O2.
  fold second in O2. rewrite O2. unfold sessionGate. rewrite F1, D1.
  rewrite (isSessionActive_touched (now rt1) (now rt2) g
             (bySessionToken_verified token g (proj2 (find_some _ _ F)))).
  cbn [AccessGrant.documentId AccessGrant.set_lastActivityAt]. rewrite D, P.
  cbn [VisibilityStatus_eqb].
  destruct (AccessGrant.isExpired (now rt2) g); cbn [negb andb].
  - split; [|reflexivity]. split; [discriminate | intros [E _]; discriminate].
  - destruct (now rt2 - now rt1 <? 60 * 60 * 1000) eqn:T.
    + apply Z.ltb_lt in T. split; [tauto | intros N; contradiction].
    + apply Z.ltb_ge in T. split; [|reflexivity].
      split; [discriminate | intros [_ L]; lia].
Qed.

Lemma validateDownloadSession_slides_witness :
  let g := Scenario.withSession (Some 1000) (Scenario.grant "grant-1" APPROVED (Some 90000000)) in
  let db := Scenario.tables [g] in
  let dto := DownloadSessionCheckDto.mk Scenario.session in
  let first := VerificationDownloadService.validateDownloadSession (Scenario.runtime 3000000)
                 dto db in
  outcome (fst first) = Returned
  /\ outcome (fst (VerificationDownloadService.validateDownloadSession
                     (Scenario.runtime 6000000) dto (snd first))) = Returned.
Proof.
  intros g db dto first.
  destruct (validateDownloadSession_slides_the_window (Scenario.runtime 3000000)
              (Scenario.runtime 6000000) Scenario.session db g Scenario.document
              eq_refl eq_refl eq_refl eq_refl) as (O & _ & S & _).
  split; [exact O|]. apply (proj2 S). split; reflexivity.
Defined.

Lemma isSessionActive_window (now' last : Date) (g g' : AccessGrant.t) :
  AccessGrant.isVerified g' = true ->
  AccessGrant.lastActivityAt g' = Some last ->
  AccessGrant.status g' = AccessGrant.status g ->
  AccessGrant.expiryDate g' = AccessGrant.expiryDate g ->
  AccessGrant.isSessionActive now' g'
  = negb (AccessGrant.isExpired now' g) && (now' - last <? 60 * 60 * 1000).
Proof.
  intros V L S X.
  assert (E : AccessGrant.isExpired now' g' = AccessGrant.isExpired now' g)
    by (unfold AccessGrant.isExpired; rewrite S, X; reflexivity).
  destruct (AccessGrant.isSessionActive now' g') eqn:A.
  - apply isSessionActive_true in A. destruct A as (_ & E' & [N | (l & L' & T)]);
      [congruence|].
    rewrite <- E, E'. cbn [negb andb]. symmetry. apply Z.ltb_lt. congruence.
  - rewrite <- E. destruct (AccessGrant.isExpired now' g') eqn:E'; [reflexivity|].
    cbn [negb andb]. destruct (now' - last <? 60 * 60 * 1000) eqn:T; [|reflexivity].
    apply Z.ltb_lt in T.
    assert (A' : AccessGrant.isSessionActive now' g' = true).
    { apply isSessionActive_true. split; [exact V|]. split; [exact E'|].
      right. exists last. split; [exact L | exact T]. }
    congruence.
Qed.

Lemma verifyOtp_documents (rt : Runtime) (dto : VerifyOtpDto.t) (db : Tables) :
  documents (snd (VerificationDownloadService.verifyOtp rt dto db)) = documents db.
Proof.
  unfold VerificationDownloadService.verifyOtp. run.
  split_audited; reflexivity.
Qed.

(** X10. The session that [verifyOtp] issues lives with the grant: when
    the new token is no other grant's session token and the document is
    public, [validateDownloadSession] of the token returns at a clock value
    exactly when the grant is not expired then and less than 60 minutes
    have passed since the verification, and throws Forbidden otherwise. In
    particular the token issued to a grant that had already expired is
    refused from then on. *)
Theorem verifyOtp_session_lives_with_the_grant
    (rt rt' : Runtime) (dto : VerifyOtpDto.t) (db : Tables)
    (g : AccessGrant.t) (d : DocumentFile.t) :
  List.find (VerificationDownloadService.byTokenAndEmail
               (VerifyOtpDto.requestUUID dto) (VerifyOtpDto.requestorEmail dto))
    (accessGrants db) = Some g ->
  AccessGrant.canVerifyOtp (now rt) g = true ->
  AccessGrant.otp g = Some (VerifyOtpDto.otp dto) ->
  (forall r, In r (accessGrants db) ->
             VerificationDownloadService.bySessionToken (uuidv4 rt) r = true ->
             AccessGrant.id r = AccessGrant.id g) ->
  List.find (fun d => String.eqb (DocumentFile.id d) (AccessGrant.documentId g)) (documents db)
    = Some d ->
  DocumentFile.visibilityStatus d = PUBLIC ->
  let verified := VerificationDownloadService.verifyOtp rt dto db in
  let validated := VerificationDownloadService.validateDownloadSession rt'
                     (DownloadSessionCheckDto.mk (uuidv4 rt)) (snd verified) in
  outcome (fst verified) = Returned
  /\ (outcome (fst validated) = Returned
      <-> AccessGrant.isExpired (now rt') g = false /\ now rt' - now rt < 60 * 60 * 1000)
  /\ (outcome (fst validated) <> Returned -> outcome (fst validated) = Forbidden)
  /\ (AccessGrant.isExpired (now rt) g = true -> now rt <= now rt' ->
      outcome (fst validated) = Forbidden).
Proof.
  intros F C O U D P verified validated.
  assert (W : eqOpt (AccessGrant.otp g) (VerifyOtpDto.otp dto) = true).
  { rewrite O. simpl. apply String.eqb_refl. }
  destruct (verifyOtp_correct rt db dto g F C W) as [R T]. fold verified in R, T.
  assert (F' : List.find (VerificationDownloadService.bySessionToken (uuidv4 rt))
                 (accessGrants (snd verified))
               = Some (VerificationDownloadService.verified rt (uuidv4 rt) g)).
  { rewrite T. apply find_update_rows_unique with (g := g).
    - apply (find_some _ _ F).
    - reflexivity.
    - unfold VerificationDownloadService.bySessionToken. simpl.
      rewrite String.eqb_refl. reflexivity.
    - exact U. }
  destruct (validateDownloadSession_outcome rt' (DownloadSessionCheckDto.mk (uuidv4 rt))
              (snd verified)) as (Vo & _).
  cbv zeta in Vo. cbn [DownloadSessionCheckDto.downloadSessionToken] in Vo.
  fold validated in Vo.
  assert (Gate : outcome (fst validated)
                 = if negb (AccessGrant.isExpired (now rt') g)
                      && (now rt' - now rt <? 60 * 60 * 1000)
                   then Returned else Forbidden).
  { rewrite Vo. unfold sessionGate. rewrite F'. unfold verified at 1.
    rewrite verifyOtp_documents.
    rewrite (isSessionActive_window (now rt') (now rt) g); try reflexivity.
    change (AccessGrant.documentId (VerificationDownloadService.verified rt (uuidv4 rt) g))
      with (AccessGrant.documentId g).
    rewrite D, P. reflexivity. }
  split; [rewrite R; reflexivity|]. rewrite Gate.
  destruct (AccessGrant.isExpired (now rt') g) eqn:E; cbn [negb andb].
  - split; [split; [discriminate | intros [X _]; discriminate]|].
    split; reflexivity.
  - destruct (now rt' - now rt <? 60 * 60 * 1000) eqn:L.
    + apply Z.ltb_lt in L. split; [tauto|]. split; [intros N; contradiction|].
      intros X Le. rewrite (isExpired_later (now rt) (now rt') g Le X) in E. discriminate.
    + apply Z.ltb_ge in L. split; [split; [discriminate | intros [_ X]; lia]|].
      split; reflexivity.
Qed.

Lemma verifyOtp_session_witness :
  let g := Scenario.withOtp (Scenario.grant "grant-1" APPROVED (Some 5000)) in
  let db := Scenario.tables [g] in
  let rt := Scenario.runtime 800000 in
  let verified := VerificationDownloadService.verifyOtp rt (Scenario.verifyDto "123456") db in
  AccessGrant.isExpired (now rt) g = true
  /\ outcome (fst verified) = Returned
  /\ outcome (fst (VerificationDownloadService.validateDownloadSession
                     (Scenario.runtime 800001) (DownloadSessionCheckDto.mk (uuidv4 rt))
                     (snd verified))) = Forbidden.
Proof.
  intros g db rt verified. split; [reflexivity|].
  assert (U : forall r, In r (accessGrants db) ->
                        VerificationDownloadService.bySessionToken (uuidv4 rt) r = true ->
                        AccessGrant.id r = AccessGrant.id g).
  { intros r [<- | []] _. reflexivity. }
  destruct (verifyOtp_session_lives_with_the_grant rt (Scenario.runtime 800001)
              (Scenario.verifyDto "123456") db g Scenario.document
              eq_refl eq_refl eq_refl U eq_refl eq_refl) as (R & _ & _ & X).
  split; [exact R|]. apply X; [reflexivity | discriminate].
Defined.

Lemma requestOtp_saves (rt : Runtime) (db : Tables) (dto : RequestOtpDto.t)
    (g : AccessGrant.t) (d : DocumentFile.t) :
  List.find (VerificationDownloadService.byTokenAndEmail
               (RequestOtpDto.requestUUID dto) (RequestOtpDto.requestorEmail dto))
    (accessGrants db) = Some g ->
  AccessGrant.canRequestOtp (now rt) g = true ->
  List.find (fun d => String.eqb (DocumentFile.id d) (AccessGrant.documentId g)) (documents db)
    = Some d ->
  DocumentFile.visibilityStatus d = PUBLIC ->
  accessGrants (snd (VerificationDownloadService.requestOtp rt dto db))
  = accessGrantRepository.update_rows
      (VerificationDownloadService.withNewOtp (VerificationDownloadService.generateOtp rt)
         (now rt + 15 * 60 * 1000)
         (if AccessGrant.isVerified g && negb (AccessGrant.isSessionActive (now rt) g)
          then VerificationDownloadService.resetVerification g else g))
      (accessGrants db)
  /\ documents (snd (VerificationDownloadService.requestOtp rt dto db)) = documents db.
Proof.
  intros F C D P. unfold VerificationDownloadService.requestOtp. run.
  rewrite F, C. cbn [negb]. rewrite D, P. cbn [negb VisibilityStatus_eqb].
  destruct (AccessGrant.isVerified g && negb (AccessGrant.isSessionActive (now rt) g));
    repeat audit; split; reflexivity.
Qed.

(** X11. A [requestOtp] that passes its checks deals with the previous
    session according to its state at the clock: a verified grant whose
    session is no longer active is saved unverified, without [verifiedAt],
    session token and [lastActivityAt], and, the token having been that
    grant's alone, [validateDownloadSession] of the old token then throws
    NotFound; a session that is still active is kept as it is and stays
    active. In both cases the status and the expiry date are untouched. *)
Theorem requestOtp_resets_a_stale_session
    (rt : Runtime) (db : Tables) (dto : RequestOtpDto.t)
    (g : AccessGrant.t) (d : DocumentFile.t) :
  List.find (VerificationDownloadService.byTokenAndEmail
               (RequestOtpDto.requestUUID dto) (RequestOtpDto.requestorEmail dto))
    (accessGrants db) = Some g ->
  AccessGrant.canRequestOtp (now rt) g = true ->
  List.find (fun d => String.eqb (DocumentFile.id d) (AccessGrant.documentId g)) (documents db)
    = Some d ->
  DocumentFile.visibilityStatus d = PUBLIC ->
  let call := VerificationDownloadService.requestOtp rt dto db in
  exists g',
    List.find (VerificationDownloadService.byTokenAndEmail
                 (RequestOtpDto.requestUUID dto) (RequestOtpDto.requestorEmail dto))
      (accessGrants (snd call)) = Some g'
    /\ AccessGrant.status g' = AccessGrant.status g
    /\ AccessGrant.expiryDate g' = AccessGrant.expiryDate g
    /\ (AccessGrant.isVerified g = true ->
        AccessGrant.isSessionActive (now rt) g = false ->
        AccessGrant.isVerified g' = false
        /\ AccessGrant.verifiedAt g' = None
        /\ AccessGrant.downloadSessionToken g' = None
        /\ AccessGrant.lastActivityAt g' = None
        /\ forall (rt' : Runtime) (token : string),
             (forall r, In r (accessGrants db) ->
                        VerificationDownloadService.bySessionToken token r = true ->
                        AccessGrant.id r = AccessGrant.id g) ->
             outcome (fst (VerificationDownloadService.validateDownloadSession rt'
                             (DownloadSessionCheckDto.mk token) (snd call))) = NotFound)
    /\ (AccessGrant.isSessionActive (now rt) g = true ->
        AccessGrant.isVerified g' = true
        /\ AccessGrant.verifiedAt g' = AccessGrant.verifiedAt g
        /\ AccessGrant.downloadSessionToken g' = AccessGrant.downloadSessionToken g
        /\ AccessGrant.lastActivityAt g' = AccessGrant.lastActivityAt g
        /\ AccessGrant.isSessionActive (now rt) g' = true).
Proof.
  intros F C D P call.
  destruct (requestOtp_saves rt db dto g d F C D P) as [T _]. fold call in T.
  set (g0 := if AccessGrant.isVerified g && negb (AccessGrant.isSessionActive (now rt) g)
             then VerificationDownloadService.resetVerification g else g) in T.
  exists (VerificationDownloadService.withNewOtp (VerificationDownloadService.generateOtp rt)
            (now rt + 15 * 60 * 1000) g0).
  assert (I0 : AccessGrant.id g0 = AccessGrant.id g) by (unfold g0; destruct (_ && _); reflexivity).
  split.
  { rewrite T. apply find_update_rows with (g := g); [exact F | | exact I0].
    apply byTokenAndEmail_same with (g := g); [apply (find_some _ _ F) | |];
      unfold g0; destruct (_ && _); reflexivity. }
  split; [unfold g0; destruct (_ && _); reflexivity|].
  split; [unfold g0; destruct (_ && _); reflexivity|].
  split.
  - intros V S. unfold g0. rewrite V, S. cbn [negb andb]. do 4 (split; [reflexivity|]).
    intros rt' token U.
    destruct (validateDownloadSession_outcome rt' (DownloadSessionCheckDto.mk token)
                (snd call)) as (-> & _).
    cbn [DownloadSessionCheckDto.downloadSessionToken]. unfold sessionGate. rewrite T.
    rewrite find_update_rows_none; [reflexivity | |].
    + unfold VerificationDownloadService.bySessionToken. unfold g0. rewrite V, S. reflexivity.
    + intros r Ir B. rewrite (U r Ir B). symmetry. exact I0.
  - intros S. assert (V : AccessGrant.isVerified g = true)
      by (apply isSessionActive_true in S; tauto).
    unfold g0. rewrite V, S. cbn [negb andb]. split; [exact V|].
    do 3 (split; [reflexivity|]). exact S.
Qed.

Lemma requestOtp_resets_a_stale_session_witness :
  let g := Scenario.withSession (Some 1000) (Scenario.grant "grant-1" APPROVED (Some 90000000)) in
  let db := Scenario.tables [g] in
  let rt := Scenario.runtime 4000000 in
  let call := VerificationDownloadService.requestOtp rt
                (RequestOtpDto.mk Scenario.token Scenario.email) db in
  AccessGrant.isSessionActive (now rt) g = false
  /\ map AccessGrant.isVerified (accessGrants (snd call)) = [false]
  /\ outcome (fst (VerificationDownloadService.validateDownloadSession (Scenario.runtime 4000001)
                     (DownloadSessionCheckDto.mk Scenario.session) (snd call))) = NotFound.
Proof.
  intros g db rt call. split; [reflexivity|]. split; [reflexivity|].
  destruct (requestOtp_resets_a_stale_session rt db
              (RequestOtpDto.mk Scenario.token Scenario.email) g Scenario.document
              eq_refl eq_refl eq_refl eq_refl) as (g' & _ & _ & _ & Stale & _).
  destruct (Stale eq_refl eq_refl) as (_ & _ & _ & _ & Old).
  apply Old. intros r [<- | []] _. reflexivity.
Defined.

(** ** The owner's operations on the document *)

Ltac run_documents :=
  cbv beta iota zeta delta
    [bind ret throw respond
     documentRepository.findOne documentRepository.save
     accessGrantRepository.findOne accessGrantRepository.find].

Lemma ownedDocument_id (documentId ownerId : string) (rows : list DocumentFile.t)
    (document : DocumentFile.t) :
  List.find (DocumentService.ownedDocument documentId ownerId) rows = Some document ->
  In document rows /\ DocumentFile.id document = documentId.
Proof.
  intros F. apply find_some in F. destruct F as [I O]. split; [exact I|].
  unfold DocumentService.ownedDocument in O. apply andb_true_iff in O.
  apply String.eqb_eq, O.
Qed.

(** After the save of a document, the row found under its key is the saved
    one. *)
Lemma find_saved_document (rows : list DocumentFile.t) (d d' : DocumentFile.t) :
  In d rows ->
  DocumentFile.id d' = DocumentFile.id d ->
  List.find (fun r => String.eqb (DocumentFile.id r) (DocumentFile.id d))
    (documentRepository.update_rows d' rows) = Some d'.
Proof.
  intros I E. induction rows as [|r rows IH]; simpl in *; [contradiction|].
  destruct (String.eqb (DocumentFile.id r) (DocumentFile.id d')) eqn:Q.
  - rewrite E, String.eqb_refl. reflexivity.
  - destruct I as [-> | I]; [rewrite E, String.eqb_refl in Q; discriminate|].
    rewrite E in Q. rewrite Q. apply IH, I.
Qed.

(** A query that only matches rows under the key of a saved document, and
    not the saved one, finds nothing. *)
Lemma find_other_document (p : DocumentFile.t -> bool) (rows : list DocumentFile.t)
    (d' : DocumentFile.t) :
  (forall r, p r = true -> DocumentFile.id r = DocumentFile.id d') ->
  p d' = false ->
  List.find p (documentRepository.update_rows d' rows) = None.
Proof.
  intros K Q. induction rows as [|r rows IH]; simpl; [reflexivity|].
  destruct (String.eqb (DocumentFile.id r) (DocumentFile.id d')) eqn:E.
  - rewrite Q. exact IH.
  - destruct (p r) eqn:Pr; [|exact IH].
    rewrite (K r Pr), String.eqb_refl in E. discriminate.
Qed.

Lemma updateDocumentVisibility_saves (rt : Runtime) (db : Tables)
    (documentId ownerId : string) (updateDto : UpdateDocumentVisibilityDto.t)
    (document : DocumentFile.t) :
  List.find (DocumentService.ownedDocument documentId ownerId) (documents db) = Some document ->
  DocumentFile.deletedAt document = None ->
  let saved := DocumentFile.set_visibilityStatus
                 (UpdateDocumentVisibilityDto.visibilityStatus updateDto) document in
  DocumentService.updateDocumentVisibility rt documentId ownerId updateDto db
  = (Ok (DocumentService.mapToDocumentResponseDto rt saved None),
     withDocuments (documentRepository.update_rows saved (documents db)) db).
Proof.
  intros F A saved. unfold DocumentService.updateDocumentVisibility. run_documents.
  rewrite F. unfold DocumentFile.isActive. rewrite A. reflexivity.
Qed.

(** X12. [updateDocumentVisibility] throws NotFound when the owner has no
    such document and BadRequest when the document is soft-deleted, in
    both cases without writing. Otherwise it saves the new visibility and
    touches no grant; from then on the steps of verification for an active
    grant of the document, and the session checks for an active session on
    it, return exactly when the new visibility is PUBLIC and throw
    Forbidden when it is not, while [recordDownload] ignores the
    visibility; and a submission for a document made HIDDEN throws
    NotFound. *)
Theorem updateDocumentVisibility_opens_and_closes_the_document
    (rt : Runtime) (db : Tables) (documentId ownerId : string)
    (updateDto : UpdateDocumentVisibilityDto.t) :
  let call := DocumentService.updateDocumentVisibility rt documentId ownerId updateDto db in
  let visibility := UpdateDocumentVisibilityDto.visibilityStatus updateDto in
  let answer := if VisibilityStatus_eqb visibility PUBLIC then Returned else Forbidden in
  match List.find (DocumentService.ownedDocument documentId ownerId) (documents db) with
  | None => outcome (fst call) = NotFound /\ snd call = db
  | Some document =>
    match DocumentFile.deletedAt document with
    | Some _ => outcome (fst call) = BadRequest /\ snd call = db
    | None =>
      outcome (fst call) = Returned
      /\ accessGrants (snd call) = accessGrants db
      /\ (forall (rt' : Runtime) (requestUUID requestorEmail : string) (g : AccessGrant.t),
             List.find (VerificationDownloadService.byTokenAndEmail requestUUID requestorEmail)
               (accessGrants db) = Some g ->
             AccessGrant.documentId g = documentId ->
             AccessGrant.isActive (now rt') g = true ->
             outcome (fst (VerificationDownloadService.initiateVerification rt'
                             (InitiateVerificationDto.mk requestUUID requestorEmail)
                             (snd call))) = answer
             /\ outcome (fst (VerificationDownloadService.requestOtp rt'
                                (RequestOtpDto.mk requestUUID requestorEmail) (snd call)))
                = answer)
      /\ (forall (rt' : Runtime) (token : string) (g : AccessGrant.t) (bytesDownloaded : Z)
                 (ipAddress userAgent : string),
             List.find (VerificationDownloadService.bySessionToken token) (accessGrants db)
               = Some g ->
             AccessGrant.documentId g = documentId ->
             AccessGrant.isSessionActive (now rt') g = true ->
             outcome (fst (VerificationDownloadService.validateDownloadSession rt'
                             (DownloadSessionCheckDto.mk token) (snd call))) = answer
             /\ outcome (fst (VerificationDownloadService.getDocumentForDownload rt' token
                                (snd call))) = answer
             /\ outcome (fst (VerificationDownloadService.recordDownload rt' token
                                bytesDownloaded ipAddress userAgent (snd call))) = Returned)
      /\ (visibility = HIDDEN ->
          forall (rt' : Runtime) (submitDto : SubmitAccessRequestDto.t),
            outcome (fst (ExternalRequestorService.submitAccessRequest rt' documentId
                            submitDto (snd call))) = NotFound)
    end
  end.
Proof.
  intros call visibility answer.
  destruct (List.find (DocumentService.ownedDocument documentId ownerId) (documents db))
    as [document|] eqn:F.
  2: { subst call. unfold DocumentService.updateDocumentVisibility. run_documents.
       rewrite F. split; reflexivity. }
  destruct (DocumentFile.deletedAt document) as [t|] eqn:A.
  { subst call. unfold DocumentService.updateDocumentVisibility. run_documents.
    rewrite F. unfold DocumentFile.isActive. rewrite A. split; reflexivity. }
  pose proof (updateDocumentVisibility_saves rt db documentId ownerId updateDto document F A)
    as C.
  cbv zeta in C. fold call visibility in C.
  destruct (ownedDocument_id _ _ _ _ F) as [I Id].
  set (saved := DocumentFile.set_visibilityStatus visibility document) in C.
  assert (Loaded : forall g : AccessGrant.t,
             AccessGrant.documentId g = documentId ->
             List.find (fun d => String.eqb (DocumentFile.id d) (AccessGrant.documentId g))
               (documents (snd call)) = Some saved).
  { intros g Dg. rewrite C, Dg, <- Id. cbn [snd documents withDocuments].
    apply find_saved_document; [exact I | reflexivity]. }
  split; [rewrite C; reflexivity|]. split; [rewrite C; reflexivity|]. split; [|split].
  - intros rt' requestUUID requestorEmail g Fg Dg Ag.
    destruct (initiateVerification_outcome rt'
                (InitiateVerificationDto.mk requestUUID requestorEmail) (snd call))
      as (-> & _).
    destruct (requestOtp_outcome rt' (RequestOtpDto.mk requestUUID requestorEmail) (snd call))
      as (-> & _).
    cbn [InitiateVerificationDto.requestUUID InitiateVerificationDto.requestorEmail
         RequestOtpDto.requestUUID RequestOtpDto.requestorEmail].
    unfold admission.
    replace (accessGrants (snd call)) with (accessGrants db) by (rewrite C; reflexivity).
    rewrite Fg, Ag, (Loaded g Dg). split; reflexivity.
  - intros rt' token g bytesDownloaded ipAddress userAgent Fg Dg Sg.
    destruct (validateDownloadSession_outcome rt' (DownloadSessionCheckDto.mk token)
                (snd call)) as (-> & _).
    destruct (getDocumentForDownload_outcome rt' token (snd call)) as (-> & _).
    pose proof (recordDownload_outcome rt' token bytesDownloaded ipAddress userAgent
                  (snd call)) as Rc.
    cbv zeta in Rc. cbn [DownloadSessionCheckDto.downloadSessionToken].
    unfold sessionGate.
    replace (accessGrants (snd call)) with (accessGrants db) in * by (rewrite C; reflexivity).
    rewrite Fg, Sg in *. rewrite (Loaded g Dg).
    split; [reflexivity|]. split; [reflexivity | apply Rc].
  - intros H rt' submitDto. unfold ExternalRequestorService.submitAccessRequest. run.
    rewrite C. cbn [snd documents withDocuments].
    assert (N : List.find (ExternalRequestorService.isPublicDocument documentId)
                  (documentRepository.update_rows saved (documents db)) = None).
    { apply find_other_document.
      - intros r Pr. unfold ExternalRequestorService.isPublicDocument in Pr.
        apply andb_true_iff in Pr. destruct Pr as [Pr _].
        apply andb_true_iff in Pr. destruct Pr as [Pr _].
        apply String.eqb_eq in Pr. rewrite Pr. symmetry. exact Id.
      - unfold ExternalRequestorService.isPublicDocument, saved. simpl. rewrite H.
        apply andb_false_intro1, andb_false_r. }
    rewrite N. reflexivity.
Qed.

Lemma updateDocumentVisibility_witness :
  let g := Scenario.withSession (Some 1000) (Scenario.grant "grant-1" APPROVED (Some 5000000)) in
  let db := Scenario.tables [g] in
  let call := DocumentService.updateDocumentVisibility (Scenario.runtime 2000) "doc-1"
                "owner-1" (UpdateDocumentVisibilityDto.mk HIDDEN) db in
  outcome (fst call) = Returned
  /\ outcome (fst (VerificationDownloadService.validateDownloadSession (Scenario.runtime 3000)
                     (DownloadSessionCheckDto.mk Scenario.session) (snd call))) = Forbidden.
Proof.
  intros g db call.
  destruct (updateDocumentVisibility_opens_and_closes_the_document (Scenario.runtime 2000) db
              "doc-1" "owner-1" (UpdateDocumentVisibilityDto.mk HIDDEN))
    as (R & _ & _ & S & _).
  split; [exact R|].
  exact (proj1 (S (Scenario.runtime 3000) Scenario.session g 0 "203.0.113.7" "curl"
                  eq_refl eq_refl eq_refl)).
Defined.

(** The grants that block the deletion of a document. *)
Lemma deleteDocument_blockers (now : Date) (document : DocumentFile.t)
    (rows : list AccessGrant.t) :
  filter (fun ag => AccessStatus_eqb (AccessGrant.status ag) APPROVED
                    && AccessGrant.isActive now ag)
    (filter (fun ag => String.eqb (AccessGrant.documentId ag) (DocumentFile.id document)) rows)
  = [] <->
  forall g, In g rows -> AccessGrant.documentId g = DocumentFile.id document ->
            AccessGrant.isActive now g = false.
Proof.
  rewrite filter_filter. split.
  - intros E g I D. destruct (AccessGrant.isActive now g) eqn:A; [|reflexivity].
    assert (X : In g (filter
                        (fun a => String.eqb (AccessGrant.documentId a) (DocumentFile.id document)
                                  && (AccessStatus_eqb (AccessGrant.status a) APPROVED
                                      && AccessGrant.isActive now a)) rows)).
    { apply filter_In. split; [exact I|].
      rewrite D, String.eqb_refl, A.
      destruct (entity_predicates_split now g) as (_ & B & _). rewrite A in B.
      symmetry in B. apply andb_true_iff in B. destruct B as [-> _]. reflexivity. }
    rewrite E in X. destruct X.
  - intros H. induction rows as [|r rows IH]; simpl; [reflexivity|].
    destruct (String.eqb (AccessGrant.documentId r) (DocumentFile.id document)) eqn:D; simpl.
    + apply String.eqb_eq in D. rewrite (H r (or_introl eq_refl) D), andb_false_r.
      apply IH. intros g I. apply H. right. exact I.
    + apply IH. intros g I. apply H. right. exact I.
Qed.

Lemma deleteDocument_runs (rt : Runtime) (db : Tables) (documentId ownerId : string)
    (document : DocumentFile.t) :
  List.find (DocumentService.ownedDocument documentId ownerId) (documents db) = Some document ->
  let blockers :=
    filter (fun ag => AccessStatus_eqb (AccessGrant.status ag) APPROVED
                      && AccessGrant.isActive (now rt) ag)
      (filter (fun ag => String.eqb (AccessGrant.documentId ag) (DocumentFile.id document))
         (accessGrants db)) in
  DocumentService.deleteDocument rt documentId ownerId db
  = match blockers with
    | [] =>
      (Ok tt,
       withDocuments
         (documentRepository.update_rows (DocumentFile.set_deletedAt (Some (now rt)) document)
            (documents db)) db)
    | _ :: _ =>
      (Throw (BadRequestException
                "Cannot delete file with active access grants. Revoke all access before deleting."),
       db)
    end.
Proof.
  intros F blockers. unfold DocumentService.deleteDocument. run_documents. rewrite F.
  fold blockers. destruct blockers; reflexivity.
Qed.

(** X13. [deleteDocument] on a document of the owner throws BadRequest,
    writing nothing, exactly when some grant of the document is active at
    the clock; otherwise it returns, sets [deletedAt] to the clock and
    touches no grant, after which every submission for the document throws
    NotFound. For a document the owner does not have it throws NotFound. *)
Theorem deleteDocument_is_blocked_by_active_grants
    (rt : Runtime) (db : Tables) (documentId ownerId : string) :
  let call := DocumentService.deleteDocument rt documentId ownerId db in
  match List.find (DocumentService.ownedDocument documentId ownerId) (documents db) with
  | None => outcome (fst call) = NotFound /\ snd call = db
  | Some document =>
    (outcome (fst call) = BadRequest
     <-> exists g, In g (accessGrants db)
                   /\ AccessGrant.documentId g = documentId
                   /\ AccessGrant.isActive (now rt) g = true)
    /\ (outcome (fst call) = BadRequest -> snd call = db)
    /\ (outcome (fst call) <> BadRequest ->
        outcome (fst call) = Returned
        /\ accessGrants (snd call) = accessGrants db
        /\ List.find (fun d => String.eqb (DocumentFile.id d) documentId) (documents (snd call))
           = Some (DocumentFile.set_deletedAt (Some (now rt)) document)
        /\ forall (rt' : Runtime) (submitDto : SubmitAccessRequestDto.t),
             outcome (fst (ExternalRequestorService.submitAccessRequest rt' documentId
                             submitDto (snd call))) = NotFound)
  end.
Proof.
  intros call.
  destruct (List.find (DocumentService.ownedDocument documentId ownerId) (documents db))
    as [document|] eqn:F.
  2: { subst call. unfold DocumentService.deleteDocument. run_documents.
       rewrite F. split; reflexivity. }
  pose proof (deleteDocument_runs rt db documentId ownerId document F) as C.
  cbv zeta in C. fold call in C.
  destruct (ownedDocument_id _ _ _ _ F) as [I Id].
  pose proof (deleteDocument_blockers (now rt) document (accessGrants db)) as B.
  destruct (filter _ (filter _ (accessGrants db))) as [|b blockers] eqn:Bl.
  - assert (Free : forall g, In g (accessGrants db) ->
                             AccessGrant.documentId g = DocumentFile.id document ->
                             AccessGrant.isActive (now rt) g = false)
      by (apply B; reflexivity).
    rewrite C. cbn [fst snd outcome]. split; [|split].
    + split; [discriminate|]. intros (g & Ig & Dg & Ag).
      rewrite (Free g Ig) in Ag; [discriminate | congruence].
    + discriminate.
    + intros _. split; [reflexivity|]. split; [reflexivity|]. split.
      * cbn [documents withDocuments]. rewrite <- Id.
        apply find_saved_document; [exact I | reflexivity].
      * intros rt' submitDto. unfold ExternalRequestorService.submitAccessRequest. run.
        cbn [documents withDocuments].
        rewrite find_other_document; [reflexivity | |].
        -- intros r Pr. unfold ExternalRequestorService.isPublicDocument in Pr.
           apply andb_true_iff in Pr. destruct Pr as [Pr _].
           apply andb_true_iff in Pr. destruct Pr as [Pr _].
           apply String.eqb_eq in Pr. rewrite Pr. symmetry. exact Id.
        -- unfold ExternalRequestorService.isPublicDocument. simpl. apply andb_false_r.
  - rewrite C. cbn [fst snd outcome]. split; [|split].
    + split; [intros _|reflexivity].
      assert (X : In b (b :: blockers)) by (left; reflexivity).
      rewrite <- Bl in X. apply filter_In in X. destruct X as [X Q].
      apply filter_In in X. destruct X as [X D].
      apply andb_true_iff in Q. destruct Q as [_ Q]. apply String.eqb_eq in D.
      exists b. split; [exact X|]. split; [congruence | exact Q].
    + reflexivity.
    + intros N. contradiction.
Qed.

Lemma deleteDocument_blocked_witness :
  let db := Scenario.tables [Scenario.grant "grant-1" APPROVED (Some 5000)] in
  let call := DocumentService.deleteDocument (Scenario.runtime 1000) "doc-1" "owner-1" db in
  outcome (fst call) = BadRequest /\ snd call = db.
Proof.
  intros db call.
  destruct (deleteDocument_is_blocked_by_active_grants (Scenario.runtime 1000) db "doc-1"
              "owner-1") as (B & U & _).
  assert (O : outcome (fst call) = BadRequest).
  { apply (proj2 B). exists (Scenario.grant "grant-1" APPROVED (Some 5000)).
    split; [left; reflexivity|]. split; reflexivity. }
  split; [exact O | exact (U O)].
Defined.

(** X14. Revoking all access makes a document deletable: on a grants table
    with a primary key, a [deleteDocument] at or after the clock value of a
    [bulkRevokeAccess] of the same owner's document is not blocked, for the
    grants of the document that are still APPROVED had expired by then. *)
Theorem bulkRevokeAccess_then_deleteDocument
    (rt rt' : Runtime) (db : Tables) (documentId ownerId : string)
    (bulkRevokeDto : option BulkRevokeAccessDto.t) (document : DocumentFile.t) :
  NoDup (map AccessGrant.id (accessGrants db)) ->
  List.find (DocumentService.ownedDocument documentId ownerId) (documents db) = Some document ->
  now rt <= now rt' ->
  let revoked := DocumentService.bulkRevokeAccess rt documentId ownerId bulkRevokeDto db in
  let deleted := DocumentService.deleteDocument rt' documentId ownerId (snd revoked) in
  outcome (fst revoked) = Returned
  /\ outcome (fst deleted) = Returned
  /\ List.find (fun d => String.eqb (DocumentFile.id d) documentId) (documents (snd deleted))
     = Some (DocumentFile.set_deletedAt (Some (now rt')) document)
  /\ forall g, In g (accessGrants (snd deleted)) ->
               AccessGrant.documentId g = documentId ->
               AccessGrant.isActive (now rt') g = false.
Proof.
  intros N F L revoked deleted.
  pose proof (bulkRevokeAccess_rows rt db documentId ownerId bulkRevokeDto document N F) as R.
  fold revoked in R.
  destruct (ownedDocument_id _ _ _ _ F) as [I Id].
  assert (Free : forall g, In g (accessGrants (snd revoked)) ->
                           AccessGrant.documentId g = DocumentFile.id document ->
                           AccessGrant.isActive (now rt') g = false).
  { rewrite R. cbn [snd accessGrants withAccessGrants]. intros g Ig Dg.
    apply in_map_iff in Ig. destruct Ig as (r & E & Ir).
    destruct (entity_predicates_split (now rt') g) as (_ & -> & _).
    destruct (bulkSelected rt documentId r) eqn:S.
    - subst g. rewrite revoked_status. reflexivity.
    - subst g. unfold bulkSelected, DocumentService.approvedGrantOfDocument in S.
      rewrite Dg, Id, String.eqb_refl in S. cbn [andb] in S.
      destruct (AccessStatus_eqb (AccessGrant.status r) APPROVED); [|reflexivity].
      cbn [andb] in *. apply negb_false_iff in S.
      rewrite (isExpired_later (now rt) (now rt') r L S). reflexivity. }
  pose proof (deleteDocument_runs rt' (snd revoked) documentId ownerId document) as C.
  assert (F' : List.find (DocumentService.ownedDocument documentId ownerId)
                 (documents (snd revoked)) = Some document) by (rewrite R; exact F).
  specialize (C F'). cbv zeta in C. fold deleted in C.
  rewrite (proj2 (deleteDocument_blockers (now rt') document (accessGrants (snd revoked))) Free)
    in C.
  split; [rewrite R; reflexivity|]. split; [rewrite C; reflexivity|]. split.
  - rewrite C, R. cbn [snd documents withDocuments]. rewrite <- Id.
    apply find_saved_document; [exact I | reflexivity].
  - intros g Ig Dg. apply Free; [|congruence].
    rewrite C in Ig. exact Ig.
Qed.

Lemma bulkRevokeAccess_then_deleteDocument_witness :
  let db := Scenario.tables [Scenario.grant "grant-1" APPROVED (Some 5000);
                             Scenario.grant "grant-2" APPROVED (Some 500)] in
  let revoked := DocumentService.bulkRevokeAccess (Scenario.runtime 1000) "doc-1" "owner-1"
                   None db in
  outcome (fst (DocumentService.deleteDocument (Scenario.runtime 1000) "doc-1" "owner-1" db))
  = BadRequest
  /\ outcome (fst (DocumentService.deleteDocument (Scenario.runtime 2000) "doc-1" "owner-1"
                     (snd revoked))) = Returned.
Proof.
  intros db revoked. split; [reflexivity|].
  assert (N : NoDup (map AccessGrant.id (accessGrants db))).
  { constructor; [simpl; intros [H | []]; discriminate|].
    constructor; [intros [] | constructor]. }
  exact (proj1 (proj2 (bulkRevokeAccess_then_deleteDocument (Scenario.runtime 1000)
                         (Scenario.runtime 2000) db "doc-1" "owner-1" None Scenario.document
                         N eq_refl ltac:(discriminate)))).
Defined.

(** ** The grants of a file, by category *)

Section GrantsForFile.

Import DocumentService.

Lemma insertByRequestedAt_In (g x : AccessGrant.t) (l : list AccessGrant.t) :
  In x (insertByRequestedAt g l) <-> x = g \/ In x l.
Proof.
  induction l as [|h l IH]; simpl.
  - intuition congruence.
  - destruct (AccessGrant.requestedAt h <? AccessGrant.requestedAt g); simpl.
    + intuition congruence.
    + rewrite IH. intuition congruence.
Qed.

Lemma orderByRequestedAtDesc_In (x : AccessGrant.t) (l : list AccessGrant.t) :
  In x (orderByRequestedAtDesc l) <-> In x l.
Proof.
  unfold orderByRequestedAtDesc. induction l as [|h l IH]; simpl; [tauto|].
  rewrite insertByRequestedAt_In, IH. intuition congruence.
Qed.

Lemma insertByRequestedAt_sorted (g : AccessGrant.t) (l : list AccessGrant.t) :
  newestFirst AccessGrant.requestedAt l ->
  newestFirst AccessGrant.requestedAt (insertByRequestedAt g l).
Proof.
  unfold newestFirst. induction 1 as [|h l S IH F]; simpl.
  - constructor; constructor.
  - destruct (AccessGrant.requestedAt h <? AccessGrant.requestedAt g) eqn:E.
    + apply Z.ltb_lt in E. constructor; [constructor; assumption|].
      constructor; [lia|]. apply Forall_forall. intros x Ix.
      rewrite Forall_forall in F. specialize (F x Ix). simpl in F. lia.
    + apply Z.ltb_ge in E. constructor; [exact IH|].
      apply Forall_forall. intros x Ix. apply insertByRequestedAt_In in Ix.
      destruct Ix as [-> | Ix]; [exact E|].
      rewrite Forall_forall in F. apply F, Ix.
Qed.

Lemma orderByRequestedAtDesc_sorted (l : list AccessGrant.t) :
  newestFirst AccessGrant.requestedAt (orderByRequestedAtDesc l).
Proof.
  unfold orderByRequestedAtDesc. induction l as [|h l IH]; simpl.
  - constructor.
  - apply insertByRequestedAt_sorted, IH.
Qed.

Lemma newestFirst_filter_map {A B} (f : A -> Date) (f' : B -> Date) (h : A -> B)
    (p : A -> bool) (l : list A) :
  (forall a, f' (h a) = f a) ->
  newestFirst f l -> newestFirst f' (map h (filter p l)).
Proof.
  unfold newestFirst. intros H. induction 1 as [|a l S IH F]; simpl; [constructor|].
  destruct (p a); simpl; [|exact IH].
  constructor; [exact IH|].
  apply Forall_forall. intros y Iy. apply in_map_iff in Iy. destruct Iy as (x & <- & Ix).
  apply filter_In in Ix. rewrite Forall_forall in F. rewrite !H. apply F, Ix.
Qed.

Variables (rt : Runtime) (document : DocumentFile.t).

Lemma categorize_fold (grants : list AccessGrant.t) (lists : ActiveAccessGrantsDto.t) :
  fold_left (categorize rt document) grants lists
  = ActiveAccessGrantsDto.mk
      (ActiveAccessGrantsDto.active lists
       ++ map (toAccessGrantDetailDto rt document)
            (filter (AccessGrant.isActive (now rt)) grants))
      (ActiveAccessGrantsDto.expired lists
       ++ map (toAccessGrantDetailDto rt document)
            (filter (AccessGrant.isExpired (now rt)) grants))
      (ActiveAccessGrantsDto.revoked lists
       ++ map (toAccessGrantDetailDto rt document)
            (filter (fun g => AccessStatus_eqb (AccessGrant.status g) REVOKED) grants)).
Proof.
  revert lists. induction grants as [|g grants IH]; intros lists; simpl.
  - rewrite !app_nil_r. destruct lists; reflexivity.
  - rewrite IH. unfold categorize, AccessGrant.isActive, AccessGrant.isExpired.
    destruct (AccessGrant.status g); simpl; rewrite <- ?app_assoc; try reflexivity.
    destruct (AccessGrant.expiryDate g) as [e|]; [destruct (e <? now rt)|];
      simpl; rewrite <- ?app_assoc; reflexivity.
Qed.

End GrantsForFile.

Lemma in_category (rt : Runtime) (document : DocumentFile.t) (documentId : string)
    (p : AccessGrant.t -> bool) (rows : list AccessGrant.t) (x : AccessGrantDetailDto.t) :
  In x (map (DocumentService.toAccessGrantDetailDto rt document)
          (filter p
             (DocumentService.orderByRequestedAtDesc
                (filter (fun ag => String.eqb (AccessGrant.documentId ag) documentId) rows))))
  <-> exists g, In g rows
                /\ AccessGrant.documentId g = documentId
                /\ p g = true
                /\ x = DocumentService.toAccessGrantDetailDto rt document g.
Proof.
  rewrite in_map_iff. split.
  - intros (g & <- & I). apply filter_In in I. destruct I as [I P].
    apply orderByRequestedAtDesc_In, filter_In in I. destruct I as [I D].
    apply String.eqb_eq in D. exists g. auto.
  - intros (g & I & D & P & ->). exists g. split; [reflexivity|].
    apply filter_In. split; [|exact P].
    apply orderByRequestedAtDesc_In, filter_In. split; [exact I|].
    apply String.eqb_eq, D.
Qed.

(** X15. [getAccessGrantsForFile] reads only. For a document of the owner
    it returns three lists of the grants of the document, each newest
    request first: [active] holds exactly the grants that are active at the
    clock, [expired] exactly the APPROVED grants that have expired, and
    [revoked] exactly the REVOKED grants; so PENDING and DENIED grants are
    in none, and no grant is in two. For a document the owner does not
    have it throws NotFound. *)
Theorem getAccessGrantsForFile_sorts_grants_into_categories
    (rt : Runtime) (db : Tables) (documentId ownerId : string) :
  let call := DocumentService.getAccessGrantsForFile rt documentId ownerId db in
  snd call = db
  /\ match List.find (DocumentService.ownedDocument documentId ownerId) (documents db) with
     | None => outcome (fst call) = NotFound
     | Some document =>
       exists lists,
         fst call = Ok lists
         /\ (forall x, In x (ActiveAccessGrantsDto.active lists)
                       <-> exists g, In g (accessGrants db)
                                     /\ AccessGrant.documentId g = documentId
                                     /\ AccessGrant.isActive (now rt) g = true
                                     /\ x = DocumentService.toAccessGrantDetailDto rt document g)
         /\ (forall x, In x (ActiveAccessGrantsDto.expired lists)
                       <-> exists g, In g (accessGrants db)
                                     /\ AccessGrant.documentId g = documentId
                                     /\ (AccessGrant.status g = APPROVED
                                         /\ AccessGrant.isExpired (now rt) g = true)
                                     /\ x = DocumentService.toAccessGrantDetailDto rt document g)
         /\ (forall x, In x (ActiveAccessGrantsDto.revoked lists)
                       <-> exists g, In g (accessGrants db)
                                     /\ AccessGrant.documentId g = documentId
                                     /\ AccessGrant.status g = REVOKED
                                     /\ x = DocumentService.toAccessGrantDetailDto rt document g)
         /\ newestFirst AccessGrantDetailDto.requestedAt (ActiveAccessGrantsDto.active lists)
         /\ newestFirst AccessGrantDetailDto.requestedAt (ActiveAccessGrantsDto.expired lists)
         /\ newestFirst AccessGrantDetailDto.requestedAt (ActiveAccessGrantsDto.revoked lists)
     end.
Proof.
  intros call. subst call. unfold DocumentService.getAccessGrantsForFile. run_documents.
  destruct (List.find (DocumentService.ownedDocument documentId ownerId) (documents db))
    as [document|]; [|split; reflexivity].
  split; [reflexivity|]. eexists. split; [reflexivity|].
  rewrite categorize_fold. cbn [ActiveAccessGrantsDto.active ActiveAccessGrantsDto.expired
                                ActiveAccessGrantsDto.revoked app].
  split; [intros x; apply in_category|].
  split.
  { intros x. rewrite in_category. split.
    - intros (g & I & D & E & X). exists g. repeat split; try assumption.
      destruct (entity_predicates_split (now rt) g) as (_ & _ & S). rewrite E in S.
      symmetry in S. apply andb_true_iff in S. apply AccessStatus_eqb_eq, S.
    - intros (g & I & D & [_ E] & X). exists g. auto. }
  split.
  { intros x. rewrite in_category. split.
    - intros (g & I & D & S & X). exists g. apply AccessStatus_eqb_eq in S. auto.
    - intros (g & I & D & S & X). exists g. apply AccessStatus_eqb_eq in S. auto. }
  repeat split; apply newestFirst_filter_map with (f := AccessGrant.requestedAt);
    try reflexivity; apply orderByRequestedAtDesc_sorted.
Qed.

(** ** denyAccessRequest *)

Lemma denied_fields (rt : Runtime) (reason : option string) (g : AccessGrant.t) :
  DocumentService.denied rt reason g
  = AccessGrant.set_actionCompletedAt (Some (now rt))
      (AccessGrant.set_denialReason
         (if truthy reason then reason else AccessGrant.denialReason g)
         (AccessGrant.set_status DENIED g)).
Proof. unfold DocumentService.denied. destruct (truthy reason); reflexivity. Qed.

Lemma denyAccessRequest_not_pending (rt : Runtime) (db : Tables)
    (documentId accessGrantId ownerId : string) (denyDto : option DenyAccessRequestDto.t)
    (document : DocumentFile.t) (g : AccessGrant.t) :
  List.find (DocumentService.ownedDocument documentId ownerId) (documents db) = Some document ->
  List.find (DocumentService.grantOfDocument accessGrantId documentId) (accessGrants db)
    = Some g ->
  AccessGrant.status g <> PENDING ->
  DocumentService.denyAccessRequest rt documentId accessGrantId ownerId denyDto db
  = (Throw (BadRequestException
             ("Cannot deny request with status "
              ++ AccessStatus_value (AccessGrant.status g))%string), db).
Proof.
  intros Hd Hg N. unfold DocumentService.denyAccessRequest. run. rewrite Hd, Hg.
  apply AccessStatus_eqb_neq in N. rewrite N. reflexivity.
Qed.

Lemma approveAccessRequest_not_pending (rt : Runtime) (db : Tables)
    (documentId accessGrantId ownerId : string) (approveDto : ApproveAccessRequestDto.t)
    (document : DocumentFile.t) (g : AccessGrant.t) :
  List.find (DocumentService.ownedDocument documentId ownerId) (documents db) = Some document ->
  List.find (DocumentService.grantOfDocument accessGrantId documentId) (accessGrants db)
    = Some g ->
  AccessGrant.status g <> PENDING ->
  DocumentService.approveAccessRequest rt documentId accessGrantId ownerId approveDto db
  = (Throw (BadRequestException
             ("Cannot approve request with status "
              ++ AccessStatus_value (AccessGrant.status g))%string), db).
Proof.
  intros Hd Hg N. unfold DocumentService.approveAccessRequest. run. rewrite Hd, Hg.
  apply AccessStatus_eqb_neq in N. rewrite N. reflexivity.
Qed.

(** X16. With the document and the grant found, [denyAccessRequest]
    throws BadRequest naming the status, and writes nothing, when the grant
    is not PENDING. For a PENDING grant it saves the grant as DENIED with
    the reason if one is given and [actionCompletedAt] at the clock,
    leaving the expiry date and every other field; afterwards the grant can
    be neither denied again nor approved, and it is not active at any
    time. *)
Theorem denyAccessRequest_closes_a_pending_request
    (rt : Runtime) (db : Tables) (documentId accessGrantId ownerId : string)
    (denyDto : option DenyAccessRequestDto.t) (document : DocumentFile.t) (g : AccessGrant.t) :
  List.find (DocumentService.ownedDocument documentId ownerId) (documents db) = Some document ->
  List.find (DocumentService.grantOfDocument accessGrantId documentId) (accessGrants db)
    = Some g ->
  let reason := DocumentService.optField DenyAccessRequestDto.reason denyDto in
  let call := DocumentService.denyAccessRequest rt documentId accessGrantId ownerId denyDto db in
  (AccessGrant.status g <> PENDING ->
   call = (Throw (BadRequestException
                    ("Cannot deny request with status "
                     ++ AccessStatus_value (AccessGrant.status g))%string), db))
  /\ (AccessGrant.status g = PENDING ->
      let g' := AccessGrant.set_actionCompletedAt (Some (now rt))
                  (AccessGrant.set_denialReason
                     (if truthy reason then reason else AccessGrant.denialReason g)
                     (AccessGrant.set_status DENIED g)) in
      call = (Ok (DocumentService.mapToAccessRequestResponseDto g' document),
              withAccessGrants (accessGrantRepository.update_rows g' (accessGrants db)) db)
      /\ (forall now' : Date, AccessGrant.isActive now' g' = false)
      /\ forall (rt' : Runtime) (denyDto' : option DenyAccessRequestDto.t)
                (approveDto' : ApproveAccessRequestDto.t),
           outcome (fst (DocumentService.denyAccessRequest rt' documentId accessGrantId
                           ownerId denyDto' (snd call))) = BadRequest
           /\ outcome (fst (DocumentService.approveAccessRequest rt' documentId accessGrantId
                              ownerId approveDto' (snd call))) = BadRequest).
Proof.
  intros Hd Hg reason call. split.
  - intros N. apply (denyAccessRequest_not_pending rt db _ _ _ denyDto document g Hd Hg N).
  - intros P g'.
    assert (C : call = (Ok (DocumentService.mapToAccessRequestResponseDto g' document),
                        withAccessGrants
                          (accessGrantRepository.update_rows g' (accessGrants db)) db)).
    { subst call. unfold DocumentService.denyAccessRequest. run. rewrite Hd, Hg, P.
      cbn [AccessStatus_eqb negb]. fold reason. rewrite denied_fields. reflexivity. }
    split; [exact C|]. split; [reflexivity|].
    intros rt' denyDto' approveDto'.
    assert (Hd' : List.find (DocumentService.ownedDocument documentId ownerId)
                    (documents (snd call)) = Some document) by (rewrite C; exact Hd).
    assert (Hg' : List.find (DocumentService.grantOfDocument accessGrantId documentId)
                    (accessGrants (snd call)) = Some g').
    { rewrite C. cbn [snd accessGrants withAccessGrants].
      apply find_update_rows with (g := g); [exact Hg | | reflexivity].
      apply grantOfDocument_saved with (g := g);
        [apply (find_some _ _ Hg) | reflexivity..]. }
    assert (N : AccessGrant.status g' <> PENDING) by discriminate.
    rewrite (denyAccessRequest_not_pending rt' (snd call) _ _ _ denyDto' document g' Hd' Hg' N).
    rewrite (approveAccessRequest_not_pending rt' (snd call) _ _ _ approveDto' document g'
               Hd' Hg' N).
    split; reflexivity.
Qed.

Lemma denyAccessRequest_witness :
  let db := Scenario.tables [Scenario.grant "grant-1" PENDING None] in
  let call := DocumentService.denyAccessRequest (Scenario.runtime 1000) "doc-1" "grant-1"
                "owner-1" (Some (DenyAccessRequestDto.mk (Some "not a partner"))) db in
  map AccessGrant.status (accessGrants (snd call)) = [DENIED]
  /\ outcome (fst (DocumentService.approveAccessRequest (Scenario.runtime 2000) "doc-1"
                     "grant-1" "owner-1" (ApproveAccessRequestDto.mk 5000 None) (snd call)))
     = BadRequest.
Proof.
  intros db call. split; [reflexivity|].
  destruct (proj2 (denyAccessRequest_closes_a_pending_request (Scenario.runtime 1000) db
                     "doc-1" "grant-1" "owner-1"
                     (Some (DenyAccessRequestDto.mk (Some "not a partner")))
                     Scenario.document (Scenario.grant "grant-1" PENDING None)
                     eq_refl eq_refl) eq_refl) as (_ & _ & Again).
  exact (proj2 (Again (Scenario.runtime 2000) None (ApproveAccessRequestDto.mk 5000 None))).
Defined.

(** ** The audit trail *)










(** ** From the request to the document *)

Lemma find_app_last {A} (p : A -> bool) (l : list A) (x : A) :
  (forall r, In r l -> p r = false) -> p x = true -> List.find p (l ++ [x]) = Some x.
Proof.
  intros N T. induction l as [|a l IH]; simpl.
  - rewrite T. reflexivity.
  - rewrite (N a (or_introl eq_refl)). apply IH. intros r I. apply N. right. exact I.
Qed.

Lemma find_refined {A} (p q : A -> bool) (l : list A) (d : A) :
  List.find p l = Some d ->
  (forall r, q r = true -> p r = true) ->
  q d = true ->
  List.find q l = Some d.
Proof.
  intros F Sub T. induction l as [|a l IH]; simpl in *; [discriminate|].
  destruct (p a) eqn:P.
  - injection F as ->. rewrite T. reflexivity.
  - destruct (q a) eqn:Q; [rewrite (Sub a Q) in P; discriminate | apply IH, F].
Qed.

Lemma update_rows_last (g g' : AccessGrant.t) (rows : list AccessGrant.t) :
  ~ In (AccessGrant.id g) (map AccessGrant.id rows) ->
  AccessGrant.id g' = AccessGrant.id g ->
  accessGrantRepository.update_rows g' (rows ++ [g]) = rows ++ [g'].
Proof.
  intros N E. unfold accessGrantRepository.update_rows. rewrite map_app. simpl.
  rewrite E, String.eqb_refl. f_equal.
  rewrite <- (map_id rows) at 2. apply map_ext_in. intros r I.
  destruct (String.eqb (AccessGrant.id r) (AccessGrant.id g)) eqn:Q; [|reflexivity].
  apply String.eqb_eq in Q. exfalso. apply N. rewrite <- Q. apply in_map, I.
Qed.

(** X18. A request that is submitted, approved and verified reaches the
    document. For a public, undeleted document of the owner, a requestor
    without a pending request for it, and generated ids and UUIDs that are
    new to the table: [submitAccessRequest] returns the new grant's id and
    request UUID; [approveAccessRequest] of that id with a later expiry
    date returns; [requestOtp] with that UUID and the email returns while
    the expiry date has not passed; [verifyOtp] with the generated code
    returns a session token within the 15 minutes of the code; and
    [getDocumentForDownload] with that token, while the expiry date has
    not passed and within 60 minutes of the verification, returns the
    document with the grant, approved and verified. *)
Theorem granted_request_reaches_the_document
    (rt1 rt2 rt3 rt4 rt5 : Runtime) (db : Tables) (documentId ownerId : string)
    (submitDto : SubmitAccessRequestDto.t) (approveDto : ApproveAccessRequestDto.t)
    (document : DocumentFile.t) :
  List.find (fun d => String.eqb (DocumentFile.id d) documentId) (documents db)
    = Some document ->
  DocumentFile.visibilityStatus document = PUBLIC ->
  DocumentFile.deletedAt document = None ->
  DocumentFile.ownerId document = ownerId ->
  List.find (ExternalRequestorService.isPendingRequest documentId
               (SubmitAccessRequestDto.requestorEmail submitDto)) (accessGrants db) = None ->
  ~ In (generatedId rt1) (map AccessGrant.id (accessGrants db)) ->
  (forall g, In g (accessGrants db) -> AccessGrant.accessToken g <> Some (uuidv4 rt1)) ->
  (forall g, In g (accessGrants db) -> AccessGrant.downloadSessionToken g <> Some (uuidv4 rt4)) ->
  now rt2 < ApproveAccessRequestDto.expiryDate approveDto ->
  now rt3 <= ApproveAccessRequestDto.expiryDate approveDto ->
  now rt4 <= now rt3 + 15 * 60 * 1000 ->
  now rt5 <= ApproveAccessRequestDto.expiryDate approveDto ->
  now rt5 - now rt4 < 60 * 60 * 1000 ->
  let email := SubmitAccessRequestDto.requestorEmail submitDto in
  let submitted := ExternalRequestorService.submitAccessRequest rt1 documentId submitDto db in
  let approved := DocumentService.approveAccessRequest rt2 documentId (generatedId rt1)
                    ownerId approveDto (snd submitted) in
  let requested := VerificationDownloadService.requestOtp rt3
                     (RequestOtpDto.mk (uuidv4 rt1) email) (snd approved) in
  let verified := VerificationDownloadService.verifyOtp rt4
                    (VerifyOtpDto.mk (uuidv4 rt1) email
                       (VerificationDownloadService.generateOtp rt3)) (snd requested) in
  let download := VerificationDownloadService.getDocumentForDownload rt5 (uuidv4 rt4)
                    (snd verified) in
  (exists r, fst submitted = Ok r
             /\ AccessRequestSubmissionResponseDto.id r = generatedId rt1
             /\ AccessRequestSubmissionResponseDto.requestUUID r = uuidv4 rt1)
  /\ outcome (fst approved) = Returned
  /\ outcome (fst requested) = Returned
  /\ (exists r, fst verified = Ok r
                /\ VerifyOtpResponseDto.downloadSessionToken r = uuidv4 rt4)
  /\ exists g, fst download = Ok (g, document)
               /\ AccessGrant.id g = generatedId rt1
               /\ AccessGrant.requestorEmail g = email
               /\ AccessGrant.status g = APPROVED
               /\ AccessGrant.isVerified g = true.
Proof.
  intros Hdoc Pub Und Own Pend Fresh Tok Ses A2 A3 A4 A5 A6
    email submitted approved requested verified download.
  set (g0 := ExternalRequestorService.create rt1 documentId submitDto (uuidv4 rt1)).
  destruct (find_some _ _ Hdoc) as [Idoc Edoc]. apply String.eqb_eq in Edoc.
  assert (Hpub : List.find (ExternalRequestorService.isPublicDocument documentId)
                   (documents db) = Some document).
  { apply (find_refined _ _ _ _ Hdoc).
    - intros r Q. unfold ExternalRequestorService.isPublicDocument in Q.
      apply andb_true_iff in Q. destruct Q as [Q _].
      apply andb_true_iff in Q. tauto.
    - unfold ExternalRequestorService.isPublicDocument.
      rewrite Edoc, String.eqb_refl, Pub, Und. reflexivity. }
  assert (Hown : List.find (DocumentService.ownedDocument documentId ownerId)
                   (documents db) = Some document).
  { apply (find_refined _ _ _ _ Hdoc).
    - intros r Q. unfold DocumentService.ownedDocument in Q.
      apply andb_true_iff in Q. tauto.
    - unfold DocumentService.ownedDocument.
      rewrite Edoc, Own, !String.eqb_refl. reflexivity. }
  (* submitAccessRequest *)
  assert (S1 : (exists r, fst submitted = Ok r
                          /\ AccessRequestSubmissionResponseDto.id r = generatedId rt1
                          /\ AccessRequestSubmissionResponseDto.requestUUID r = uuidv4 rt1)
               /\ accessGrants (snd submitted) = (accessGrants db) ++ [g0]
               /\ documents (snd submitted) = documents db).
  { subst submitted. unfold ExternalRequestorService.submitAccessRequest. run.
    rewrite Hpub, Pend.
    cbn [AccessGrant.id ExternalRequestorService.create].
    rewrite (existsb_id_false _ _ Fresh). cbn [fst snd accessGrants documents withAccessGrants].
    split; [eexists; split; [reflexivity | split; reflexivity]|]. split; reflexivity. }
  destruct S1 as (R1 & G1 & D1). split; [exact R1|].
  (* approveAccessRequest *)
  set (g1 := DocumentService.approved rt2 approveDto g0).
  assert (P1 : AccessGrant.id g1 = generatedId rt1
               /\ AccessGrant.documentId g1 = documentId
               /\ AccessGrant.requestorEmail g1 = email
               /\ AccessGrant.accessToken g1 = Some (uuidv4 rt1)
               /\ AccessGrant.status g1 = APPROVED
               /\ AccessGrant.expiryDate g1 = Some (ApproveAccessRequestDto.expiryDate approveDto)
               /\ AccessGrant.isVerified g1 = false).
  { unfold g1, DocumentService.approved.
    destruct (truthy (ApproveAccessRequestDto.message approveDto)); repeat split. }
  destruct P1 as (I1 & Dg1 & M1 & T1 & St1 & Ex1 & V1).
  assert (S2 : outcome (fst approved) = Returned
               /\ accessGrants (snd approved) = (accessGrants db) ++ [g1]
               /\ documents (snd approved) = documents db).
  { subst approved. unfold DocumentService.approveAccessRequest. run.
    rewrite D1, Hown, G1.
    rewrite (find_app_last (DocumentService.grantOfDocument (generatedId rt1) documentId)
               (accessGrants db) g0).
    - cbn [AccessGrant.status ExternalRequestorService.create g0 AccessStatus_eqb negb].
      replace (ApproveAccessRequestDto.expiryDate approveDto <=? now rt2) with false
        by (symmetry; apply Z.leb_gt; exact A2).
      cbn [fst snd accessGrants documents withAccessGrants outcome]. fold g0. fold g1.
      split; [reflexivity|]. split; [|exact D1].
      rewrite G1. apply update_rows_last; [exact Fresh | exact I1].
    - intros r I. unfold DocumentService.grantOfDocument.
      destruct (String.eqb (AccessGrant.id r) (generatedId rt1)) eqn:Q; [|reflexivity].
      apply String.eqb_eq in Q. exfalso. apply Fresh. rewrite <- Q. apply in_map, I.
    - unfold DocumentService.grantOfDocument. simpl. rewrite !String.eqb_refl. reflexivity. }
  destruct S2 as (R2 & G2 & D2). split; [exact R2|].
  clearbody g1.
  (* requestOtp *)
  assert (NoTok : forall token' r, In r (accessGrants db) ->
            VerificationDownloadService.byTokenAndEmail (uuidv4 rt1) token' r = false).
  { intros token' r I. unfold VerificationDownloadService.byTokenAndEmail.
    specialize (Tok r I). destruct (AccessGrant.accessToken r) as [a|]; [|reflexivity].
    simpl. destruct (String.eqb a (uuidv4 rt1)) eqn:Q; [|reflexivity].
    apply String.eqb_eq in Q. congruence. }
  assert (F2 : List.find (VerificationDownloadService.byTokenAndEmail (uuidv4 rt1) email)
                 (accessGrants (snd approved)) = Some g1).
  { rewrite G2. apply find_app_last; [apply NoTok|].
    unfold VerificationDownloadService.byTokenAndEmail.
    rewrite T1, M1. simpl. rewrite !String.eqb_refl. reflexivity. }
  assert (Hd2 : List.find (fun d => String.eqb (DocumentFile.id d) (AccessGrant.documentId g1))
                  (documents (snd approved)) = Some document).
  { rewrite D2, Dg1. exact Hdoc. }
  assert (C2 : AccessGrant.canRequestOtp (now rt3) g1 = true).
  { unfold AccessGrant.canRequestOtp, AccessGrant.isExpired. rewrite St1, Ex1. simpl.
    replace (ApproveAccessRequestDto.expiryDate approveDto <? now rt3) with false
      by (symmetry; apply Z.ltb_ge; exact A3).
    reflexivity. }
  set (g2 := VerificationDownloadService.withNewOtp
               (VerificationDownloadService.generateOtp rt3) (now rt3 + 15 * 60 * 1000) g1).
  assert (S3 : outcome (fst requested) = Returned
               /\ accessGrants (snd requested) = (accessGrants db) ++ [g2]
               /\ documents (snd requested) = documents db).
  { destruct (requestOtp_saves rt3 (snd approved) (RequestOtpDto.mk (uuidv4 rt1) email)
                g1 document F2 C2 Hd2 Pub) as [G D].
    fold requested in G, D. rewrite V1 in G. cbn [andb] in G. fold g2 in G.
    destruct (requestOtp_issues rt3 (snd approved) (RequestOtpDto.mk (uuidv4 rt1) email)
                g1 document F2 C2 Hd2 Pub) as [(r & O & _) _].
    fold requested in O. rewrite O. split; [reflexivity|].
    split; [|rewrite D; exact D2].
    rewrite G, G2. apply update_rows_last; [rewrite I1; exact Fresh | reflexivity]. }
  destruct S3 as (R3 & G3 & D3). split; [exact R3|].
  (* verifyOtp *)
  assert (F3 : List.find (VerificationDownloadService.byTokenAndEmail (uuidv4 rt1) email)
                 (accessGrants (snd requested)) = Some g2).
  { rewrite G3. apply find_app_last; [apply NoTok|].
    unfold VerificationDownloadService.byTokenAndEmail, g2. simpl.
    rewrite T1, M1. simpl. rewrite !String.eqb_refl. reflexivity. }
  assert (C3 : AccessGrant.canVerifyOtp (now rt4) g2 = true).
  { apply canVerifyOtp_valid with (e := now rt3 + 15 * 60 * 1000).
    - unfold g2, truthy. simpl.
      destruct (String.eqb _ "") eqn:Q; [|reflexivity].
      apply String.eqb_eq in Q. exfalso. revert Q. apply toString_not_empty.
    - reflexivity.
    - exact A4.
    - unfold g2. simpl. lia. }
  assert (W3 : eqOpt (AccessGrant.otp g2)
                 (VerifyOtpDto.otp (VerifyOtpDto.mk (uuidv4 rt1) email
                                      (VerificationDownloadService.generateOtp rt3))) = true).
  { unfold g2. simpl. apply String.eqb_refl. }
  set (g3 := VerificationDownloadService.verified rt4 (uuidv4 rt4) g2).
  destruct (verifyOtp_correct rt4 (snd requested)
              (VerifyOtpDto.mk (uuidv4 rt1) email (VerificationDownloadService.generateOtp rt3))
              g2 F3 C3 W3) as [R4 G4].
  fold verified in R4, G4. fold g3 in G4.
  assert (G4' : accessGrants (snd verified) = (accessGrants db) ++ [g3]).
  { rewrite G4, G3. apply update_rows_last; [|reflexivity].
    unfold g2. simpl. rewrite I1. exact Fresh. }
  assert (D4 : documents (snd verified) = documents db).
  { unfold verified. rewrite verifyOtp_documents. exact D3. }
  split; [eexists; split; [exact R4 | reflexivity]|].
  (* getDocumentForDownload *)
  assert (F4 : List.find (VerificationDownloadService.bySessionToken (uuidv4 rt4))
                 (accessGrants (snd verified)) = Some g3).
  { rewrite G4'. apply find_app_last.
    - intros r I. unfold VerificationDownloadService.bySessionToken.
      specialize (Ses r I). destruct (AccessGrant.downloadSessionToken r) as [a|];
        [|reflexivity].
      simpl. destruct (String.eqb a (uuidv4 rt4)) eqn:Q; [|reflexivity].
      apply String.eqb_eq in Q. congruence.
    - unfold VerificationDownloadService.bySessionToken, g3. simpl.
      rewrite String.eqb_refl. reflexivity. }
  assert (Act : AccessGrant.isSessionActive (now rt5) g3 = true).
  { apply isSessionActive_true. split; [reflexivity|]. split.
    - unfold AccessGrant.isExpired, g3, g2. simpl. rewrite St1, Ex1. simpl.
      replace (ApproveAccessRequestDto.expiryDate approveDto <? now rt5) with false
        by (symmetry; apply Z.ltb_ge; exact A5).
      reflexivity.
    - right. exists (now rt4). split; [reflexivity | exact A6]. }
  assert (Hd4 : List.find (fun d => String.eqb (DocumentFile.id d) (AccessGrant.documentId g3))
                  (documents (snd verified)) = Some document).
  { rewrite D4. unfold g3, g2. simpl. rewrite Dg1. exact Hdoc. }
  destruct (getDocumentForDownload_active rt5 (snd verified) (uuidv4 rt4) g3 document
              F4 Act Hd4 Pub) as [R5 _].
  fold download in R5. eexists. split; [exact R5|].
  unfold g3, g2. simpl. rewrite I1, M1, St1. repeat split.
Qed.

Lemma granted_request_witness :
  let db := Scenario.tables [] in
  let submitDto := SubmitAccessRequestDto.mk Scenario.email (Some "Alice") None "review" in
  let submitted := ExternalRequestorService.submitAccessRequest (Scenario.runtime 1000)
                     "doc-1" submitDto db in
  let approved := DocumentService.approveAccessRequest (Scenario.runtime 2000) "doc-1"
                    "grant-2" "owner-1" (ApproveAccessRequestDto.mk 10000000 None)
                    (snd submitted) in
  let requested := VerificationDownloadService.requestOtp (Scenario.runtime 3000)
                     (RequestOtpDto.mk Scenario.session Scenario.email) (snd approved) in
  let verified := VerificationDownloadService.verifyOtp (Scenario.runtime 4000)
                    (VerifyOtpDto.mk Scenario.session Scenario.email "325000")
                    (snd requested) in
  let download := VerificationDownloadService.getDocumentForDownload (Scenario.runtime 5000)
                    Scenario.session (snd verified) in
  exists g, fst download = Ok (g, Scenario.document)
            /\ AccessGrant.id g = "grant-2"
            /\ AccessGrant.requestorEmail g = Scenario.email
            /\ AccessGrant.status g = APPROVED
            /\ AccessGrant.isVerified g = true.
Proof.
  intros db submitDto submitted approved requested verified download.
  refine (proj2 (proj2 (proj2 (proj2
            (granted_request_reaches_the_document
               (Scenario.runtime 1000) (Scenario.runtime 2000) (Scenario.runtime 3000)
               (Scenario.runtime 4000) (Scenario.runtime 5000) db "doc-1" "owner-1"
               submitDto (ApproveAccessRequestDto.mk 10000000 None) Scenario.document
               _ _ _ _ _ _ _ _ _ _ _ _ _)))));
    try reflexivity; simpl; try lia; tauto.
Defined.

(** ** Verification after a revocation *)

(** X19. After [revokeAccessGrant] of a grant, [initiateVerification]
    and [requestOtp] for the grant throw BadRequest at every clock value,
    so no new code is issued. [verifyOtp] does not look at the status: with
    a code that was issued before the revocation and is still valid it
    returns a session token, and, the token being no other grant's and the
    document of the grant public, [getDocumentForDownload] with that token
    returns the document whenever less than 60 minutes have passed since
    the verification, whatever the expiry date of the grant. *)
Theorem revocation_stops_new_codes_not_issued_ones
    (rt rt1 rt2 rt3 : Runtime) (db : Tables) (documentId accessGrantId ownerId : string)
    (revokeDto : option RevokeAccessGrantDto.t) (requestUUID requestorEmail code : string)
    (document : DocumentFile.t) (g : AccessGrant.t) :
  List.find (DocumentService.ownedDocument documentId ownerId) (documents db) = Some document ->
  List.find (DocumentService.grantOfDocument accessGrantId documentId) (accessGrants db)
    = Some g ->
  List.find (VerificationDownloadService.byTokenAndEmail requestUUID requestorEmail)
    (accessGrants db) = Some g ->
  let db' := snd (DocumentService.revokeAccessGrant rt documentId accessGrantId ownerId
                    revokeDto db) in
  let verified := VerificationDownloadService.verifyOtp rt2
                    (VerifyOtpDto.mk requestUUID requestorEmail code) db' in
  outcome (fst (VerificationDownloadService.initiateVerification rt1
                  (InitiateVerificationDto.mk requestUUID requestorEmail) db')) = BadRequest
  /\ outcome (fst (VerificationDownloadService.requestOtp rt1
                     (RequestOtpDto.mk requestUUID requestorEmail) db')) = BadRequest
  /\ (AccessGrant.otp g = Some code ->
      AccessGrant.canVerifyOtp (now rt2) g = true ->
      (forall r, In r (accessGrants db) ->
                 VerificationDownloadService.bySessionToken (uuidv4 rt2) r = true ->
                 AccessGrant.id r = AccessGrant.id g) ->
      List.find (fun d => String.eqb (DocumentFile.id d) (AccessGrant.documentId g))
        (documents db) = Some document ->
      DocumentFile.visibilityStatus document = PUBLIC ->
      now rt3 - now rt2 < 60 * 60 * 1000 ->
      (exists r, fst verified = Ok r
                 /\ VerifyOtpResponseDto.downloadSessionToken r = uuidv4 rt2)
      /\ exists g', fst (VerificationDownloadService.getDocumentForDownload rt3 (uuidv4 rt2)
                           (snd verified)) = Ok (g', document)
                    /\ AccessGrant.id g' = AccessGrant.id g
                    /\ AccessGrant.status g' = REVOKED).
Proof.
  intros Hd Hg Ht db' verified.
  set (message := DocumentService.optField RevokeAccessGrantDto.message revokeDto).
  set (g1 := DocumentService.revoked rt message g).
  assert (E : db' = withAccessGrants
                      (accessGrantRepository.update_rows g1 (accessGrants db)) db).
  { unfold db'. rewrite (revokeAccessGrant_saves rt db _ _ _ revokeDto document g Hd Hg).
    reflexivity. }
  assert (A : g1 = AccessGrant.set_actionCompletedAt (Some (now rt))
                     (AccessGrant.set_revocationMessage
                        (if truthy message then message else AccessGrant.revocationMessage g)
                        (AccessGrant.set_status REVOKED g))) by apply revoked_assigns.
  clearbody g1.
  destruct (find_some _ _ Hg) as [Ig _].
  assert (Ft : List.find (VerificationDownloadService.byTokenAndEmail requestUUID
                            requestorEmail) (accessGrants db') = Some g1).
  { rewrite E. cbn [accessGrants withAccessGrants].
    apply find_update_rows with (g := g); [exact Ht | | rewrite A; reflexivity].
    rewrite A. exact (proj2 (find_some _ _ Ht)). }
  assert (Inactive : forall now', AccessGrant.isActive now' g1 = false).
  { intros now'. rewrite A. reflexivity. }
  split.
  { destruct (initiateVerification_outcome rt1
                (InitiateVerificationDto.mk requestUUID requestorEmail) db') as (-> & _).
    unfold admission. cbn [InitiateVerificationDto.requestUUID
                             InitiateVerificationDto.requestorEmail].
    rewrite Ft, Inactive. reflexivity. }
  split.
  { destruct (requestOtp_outcome rt1 (RequestOtpDto.mk requestUUID requestorEmail) db')
      as (-> & _).
    unfold admission. cbn [RequestOtpDto.requestUUID RequestOtpDto.requestorEmail].
    rewrite Ft, Inactive. reflexivity. }
  intros O C U Load Pub W.
  assert (C1 : AccessGrant.canVerifyOtp (now rt2) g1 = true) by (rewrite A; exact C).
  assert (W1 : eqOpt (AccessGrant.otp g1)
                 (VerifyOtpDto.otp (VerifyOtpDto.mk requestUUID requestorEmail code)) = true).
  { rewrite A. cbn [AccessGrant.otp AccessGrant.set_actionCompletedAt
                      AccessGrant.set_revocationMessage AccessGrant.set_status
                      VerifyOtpDto.otp].
    rewrite O. simpl. apply String.eqb_refl. }
  destruct (verifyOtp_correct rt2 db' (VerifyOtpDto.mk requestUUID requestorEmail code)
              g1 Ft C1 W1) as [R G].
  fold verified in R, G.
  split; [eexists; split; [exact R | reflexivity]|].
  set (g2 := VerificationDownloadService.verified rt2 (uuidv4 rt2) g1) in *.
  assert (I1 : AccessGrant.id g1 = AccessGrant.id g) by (rewrite A; reflexivity).
  assert (Fs : List.find (VerificationDownloadService.bySessionToken (uuidv4 rt2))
                 (accessGrants (snd verified)) = Some g2).
  { rewrite G. apply find_update_rows_unique with (g := g1).
    - rewrite E. cbn [accessGrants withAccessGrants].
      unfold accessGrantRepository.update_rows. apply in_map_iff. exists g.
      rewrite I1, String.eqb_refl. split; [reflexivity | exact Ig].
    - reflexivity.
    - unfold VerificationDownloadService.bySessionToken, g2. simpl.
      rewrite String.eqb_refl. reflexivity.
    - intros r I S. rewrite E in I. cbn [accessGrants withAccessGrants] in I.
      unfold accessGrantRepository.update_rows in I. apply in_map_iff in I.
      destruct I as (r0 & Er & I0).
      destruct (String.eqb (AccessGrant.id r0) (AccessGrant.id g1)) eqn:Q.
      + subst r. reflexivity.
      + subst r. rewrite I1. apply U; assumption. }
  assert (Act : AccessGrant.isSessionActive (now rt3) g2 = true).
  { apply isSessionActive_true. split; [reflexivity|]. split.
    - apply isExpired_only_approved. unfold g2. rewrite A. simpl. discriminate.
    - right. exists (now rt2). split; [reflexivity | exact W]. }
  assert (Hd2 : List.find (fun d => String.eqb (DocumentFile.id d) (AccessGrant.documentId g2))
                  (documents (snd verified)) = Some document).
  { unfold verified. rewrite verifyOtp_documents. rewrite E.
    cbn [documents withAccessGrants]. unfold g2. rewrite A. exact Load. }
  destruct (getDocumentForDownload_active rt3 (snd verified) (uuidv4 rt2) g2 document
              Fs Act Hd2 Pub) as [R5 _].
  eexists. split; [exact R5|]. unfold g2. rewrite A. split; reflexivity.
Qed.

Lemma revocation_stops_new_codes_witness :
  let g := Scenario.withOtp (Scenario.grant "grant-1" APPROVED (Some 500)) in
  let db' := snd (DocumentService.revokeAccessGrant (Scenario.runtime 1000) "doc-1" "grant-1"
                    "owner-1" None (Scenario.tables [g])) in
  let verified := VerificationDownloadService.verifyOtp (Scenario.runtime 2000)
                    (Scenario.verifyDto "123456") db' in
  outcome (fst (VerificationDownloadService.requestOtp (Scenario.runtime 1500)
                  (RequestOtpDto.mk Scenario.token Scenario.email) db')) = BadRequest
  /\ exists g', fst (VerificationDownloadService.getDocumentForDownload
                       (Scenario.runtime 3000) Scenario.session (snd verified))
                = Ok (g', Scenario.document)
                /\ AccessGrant.id g' = "grant-1"
                /\ AccessGrant.status g' = REVOKED.
Proof.
  intros g db' verified.
  destruct (revocation_stops_new_codes_not_issued_ones
              (Scenario.runtime 1000) (Scenario.runtime 1500) (Scenario.runtime 2000)
              (Scenario.runtime 3000) (Scenario.tables [g]) "doc-1" "grant-1" "owner-1" None
              Scenario.token Scenario.email "123456" Scenario.document g
              eq_refl eq_refl eq_refl) as (_ & Refused & Issued).
  split; [exact Refused|].
  apply Issued; try reflexivity.
  intros r [<- | []] _. reflexivity.
Defined.

(** ** A code is used once *)

(** X20. A code opens one session. After a [verifyOtp] that returned, a
    further [verifyOtp] for the grant throws BadRequest, whatever code it
    carries (the code that was just accepted, or the empty string that
    replaced it in the grant), and leaves every table as it is: the failed
    call does not count as an attempt, and any number of further calls fare
    the same. *)
Theorem verifyOtp_code_is_single_use
    (rt rt' : Runtime) (dto : VerifyOtpDto.t) (code' : string) (db : Tables)
    (g : AccessGrant.t) :
  List.find (VerificationDownloadService.byTokenAndEmail
               (VerifyOtpDto.requestUUID dto) (VerifyOtpDto.requestorEmail dto))
    (accessGrants db) = Some g ->
  AccessGrant.canVerifyOtp (now rt) g = true ->
  AccessGrant.otp g = Some (VerifyOtpDto.otp dto) ->
  let first := VerificationDownloadService.verifyOtp rt dto db in
  let again := VerificationDownloadService.verifyOtp rt'
                 (VerifyOtpDto.mk (VerifyOtpDto.requestUUID dto)
                    (VerifyOtpDto.requestorEmail dto) code') (snd first) in
  outcome (fst first) = Returned
  /\ fst again = Throw (BadRequestException "OTP is invalid or expired.")
  /\ snd again = snd first.
Proof.
  intros F C O first again.
  assert (W : eqOpt (AccessGrant.otp g) (VerifyOtpDto.otp dto) = true).
  { rewrite O. simpl. apply String.eqb_refl. }
  destruct (verifyOtp_correct rt db dto g F C W) as [R T]. fold first in R, T.
  split; [rewrite R; reflexivity|].
  set (g' := VerificationDownloadService.verified rt (uuidv4 rt) g) in *.
  assert (F' : List.find (VerificationDownloadService.byTokenAndEmail
                            (VerifyOtpDto.requestUUID dto) (VerifyOtpDto.requestorEmail dto))
                 (accessGrants (snd first)) = Some g').
  { rewrite T. apply find_update_rows with (g := g); [exact F | | reflexivity].
    exact (proj2 (find_some _ _ F)). }
  assert (A : (AccessGrant.otpAttempts g' <? 3) = true).
  { unfold AccessGrant.canVerifyOtp in C.
    destruct (negb (truthy (AccessGrant.otp g))); [discriminate|].
    destruct (AccessGrant.isOtpExpired (now rt) g); [discriminate|].
    unfold g'. simpl.
    destruct (AccessGrant.otpAttempts g >=? 3) eqn:Q; [discriminate|].
    apply Z.ltb_lt. rewrite Z.geb_leb in Q. apply Z.leb_gt in Q. exact Q. }
  subst again. unfold VerificationDownloadService.verifyOtp. run.
  cbn [VerifyOtpDto.requestUUID VerifyOtpDto.requestorEmail].
  rewrite F'. unfold AccessGrant.canVerifyOtp.
  change (truthy (AccessGrant.otp g')) with false. cbn [negb].
  unfold VerificationDownloadService.OTP_MAX_ATTEMPTS.
  replace (AccessGrant.otpAttempts g' >=? 3) with false.
  - split; reflexivity.
  - symmetry. apply Z.ltb_lt in A. rewrite Z.geb_leb. apply Z.leb_gt. exact A.
Qed.

Lemma verifyOtp_code_is_single_use_witness :
  let db := Scenario.tables [Scenario.withOtp (Scenario.grant "grant-1" APPROVED (Some 5000))] in
  let first := VerificationDownloadService.verifyOtp (Scenario.runtime 1000)
                 (Scenario.verifyDto "123456") db in
  fst (VerificationDownloadService.verifyOtp (Scenario.runtime 1001)
         (Scenario.verifyDto "123456") (snd first))
  = Throw (BadRequestException "OTP is invalid or expired.").
Proof.
  intros db first.
  exact (proj1 (proj2 (verifyOtp_code_is_single_use (Scenario.runtime 1000)
                         (Scenario.runtime 1001) (Scenario.verifyDto "123456") "123456" db
                         (Scenario.withOtp (Scenario.grant "grant-1" APPROVED (Some 5000)))
                         eq_refl eq_refl eq_refl))).
Defined.

(** ** A decision reopens the submission *)

Lemma find_found {A} (p : A -> bool) (l : list A) (a : A) :
  In a l -> p a = true -> exists b, List.find p l = Some b.
Proof.
  intros I T. destruct (List.find p l) as [b|] eqn:F; [exists b; reflexivity|].
  rewrite (find_none _ _ F a I) in T. discriminate.
Qed.

(** X21. Only a PENDING grant blocks a new request. While the
    requestor's grant for a public document is PENDING,
    [submitAccessRequest] for the same document and email throws Conflict;
    once the owner has approved, denied or revoked that grant (it being
    the requestor's only pending one for the document), the same
    submission returns and appends a second grant. *)
Theorem decision_reopens_submission
    (rt rt' : Runtime) (op : Operation) (db : Tables)
    (documentId accessGrantId ownerId : string) (submitDto : SubmitAccessRequestDto.t)
    (document owned : DocumentFile.t) (g : AccessGrant.t) :
  List.find (ExternalRequestorService.isPublicDocument documentId) (documents db)
    = Some document ->
  List.find (DocumentService.ownedDocument documentId ownerId) (documents db) = Some owned ->
  List.find (DocumentService.grantOfDocument accessGrantId documentId) (accessGrants db)
    = Some g ->
  AccessGrant.status g = PENDING ->
  AccessGrant.requestorEmail g = SubmitAccessRequestDto.requestorEmail submitDto ->
  (forall r, In r (accessGrants db) ->
             ExternalRequestorService.isPendingRequest documentId
               (SubmitAccessRequestDto.requestorEmail submitDto) r = true ->
             AccessGrant.id r = AccessGrant.id g) ->
  ~ In (generatedId rt') (map AccessGrant.id (accessGrants db)) ->
  (exists approveDto,
     op = ApproveAccessRequest documentId accessGrantId ownerId approveDto
     /\ now rt < ApproveAccessRequestDto.expiryDate approveDto)
  \/ (exists denyDto, op = DenyAccessRequest documentId accessGrantId ownerId denyDto)
  \/ (exists revokeDto, op = RevokeAccessGrant documentId accessGrantId ownerId revokeDto) ->
  let decided := snd (perform rt op db) in
  let resubmitted := ExternalRequestorService.submitAccessRequest rt' documentId submitDto
                       decided in
  outcome (fst (ExternalRequestorService.submitAccessRequest rt' documentId submitDto db))
  = Conflict
  /\ outcome (fst resubmitted) = Returned
  /\ exists g', accessGrants (snd resubmitted)
                = accessGrantRepository.update_rows g' (accessGrants db)
                  ++ [ExternalRequestorService.create rt' documentId submitDto (uuidv4 rt')]
                /\ AccessGrant.id g' = AccessGrant.id g
                /\ AccessGrant.status g' <> PENDING.
Proof.
  intros Hpub Hown Hg P M U Fresh Op decided resubmitted.
  destruct (find_some _ _ Hg) as [Ig Qg].
  assert (Qd : AccessGrant.documentId g = documentId).
  { unfold DocumentService.grantOfDocument in Qg. apply andb_true_iff in Qg.
    apply String.eqb_eq. tauto. }
  split.
  { unfold ExternalRequestorService.submitAccessRequest. run. rewrite Hpub.
    destruct (find_found (ExternalRequestorService.isPendingRequest documentId
                            (SubmitAccessRequestDto.requestorEmail submitDto))
                (accessGrants db) g Ig) as [b ->]; [|reflexivity].
    unfold ExternalRequestorService.isPendingRequest.
    rewrite Qd, M, P, !String.eqb_refl. reflexivity. }
  assert (D : exists g', decided = withAccessGrants
                                     (accessGrantRepository.update_rows g' (accessGrants db)) db
                         /\ AccessGrant.id g' = AccessGrant.id g
                         /\ AccessGrant.status g' <> PENDING).
  { subst decided.
    destruct Op as [(approveDto & -> & Later) | [(denyDto & ->) | (revokeDto & ->)]];
      unfold perform.
    - exists (DocumentService.approved rt approveDto g).
      unfold DocumentService.approveAccessRequest. run. rewrite Hown, Hg, P.
      cbn [AccessStatus_eqb negb].
      replace (ApproveAccessRequestDto.expiryDate approveDto <=? now rt) with false
        by (symmetry; apply Z.leb_gt; exact Later).
      split; [reflexivity|]. split; [apply approved_id|].
      rewrite approved_status. discriminate.
    - exists (DocumentService.denied rt
                (DocumentService.optField DenyAccessRequestDto.reason denyDto) g).
      unfold DocumentService.denyAccessRequest. run. rewrite Hown, Hg, P.
      cbn [AccessStatus_eqb negb].
      split; [reflexivity|]. split; [apply denied_id|].
      rewrite denied_status. discriminate.
    - exists (DocumentService.revoked rt
                (DocumentService.optField RevokeAccessGrantDto.message revokeDto) g).
      unfold DocumentService.revokeAccessGrant. run. rewrite Hown, Hg.
      split; [reflexivity|]. split; [apply revoked_id|].
      rewrite revoked_status. discriminate. }
  destruct D as (g' & E & I' & S').
  assert (N : List.find (ExternalRequestorService.isPendingRequest documentId
                           (SubmitAccessRequestDto.requestorEmail submitDto))
                (accessGrantRepository.update_rows g' (accessGrants db)) = None).
  { apply find_update_rows_none.
    - unfold ExternalRequestorService.isPendingRequest.
      apply AccessStatus_eqb_neq in S'. rewrite S'. apply andb_false_r.
    - intros r I Q. rewrite I'. apply U; assumption. }
  assert (X : existsb (fun r => String.eqb (AccessGrant.id r) (generatedId rt'))
                (accessGrantRepository.update_rows g' (accessGrants db)) = false).
  { apply existsb_id_false. rewrite update_rows_ids. exact Fresh. }
  assert (R : outcome (fst resubmitted) = Returned
              /\ accessGrants (snd resubmitted)
                 = accessGrantRepository.update_rows g' (accessGrants db)
                   ++ [ExternalRequestorService.create rt' documentId submitDto (uuidv4 rt')]).
  { subst resubmitted. rewrite E.
    unfold ExternalRequestorService.submitAccessRequest. run.
    cbn [documents accessGrants withAccessGrants]. rewrite Hpub. cbv beta iota.
    cbn [documents accessGrants withAccessGrants]. rewrite N. cbv beta iota.
    cbn [accessGrants withAccessGrants AccessGrant.id ExternalRequestorService.create].
    rewrite X. split; reflexivity. }
  destruct R as [R1 R2].
  split; [exact R1|]. exists g'. split; [exact R2|]. split; assumption.
Qed.

Lemma decision_reopens_submission_witness :
  let db := Scenario.tables [Scenario.grant "grant-1" PENDING None] in
  let submitDto := SubmitAccessRequestDto.mk Scenario.email (Some "Alice") None "review" in
  let decided := snd (perform (Scenario.runtime 1000)
                        (DenyAccessRequest "doc-1" "grant-1" "owner-1" None) db) in
  outcome (fst (ExternalRequestorService.submitAccessRequest (Scenario.runtime 2000) "doc-1"
                  submitDto db)) = Conflict
  /\ outcome (fst (ExternalRequestorService.submitAccessRequest (Scenario.runtime 2000) "doc-1"
                     submitDto decided)) = Returned.
Proof.
  intros db submitDto decided.
  destruct (decision_reopens_submission (Scenario.runtime 1000) (Scenario.runtime 2000)
              (DenyAccessRequest "doc-1" "grant-1" "owner-1" None) db
              "doc-1" "grant-1" "owner-1" submitDto Scenario.document Scenario.document
              (Scenario.grant "grant-1" PENDING None)
              eq_refl eq_refl eq_refl eq_refl eq_refl) as (Before & After & _).
  - intros r [<- | []] _. reflexivity.
  - simpl. intros [E | []]. discriminate E.
  - right. left. exists None. reflexivity.
  - split; [exact Before | exact After].
Defined.
